(** * Exercise-order settlement workflow of the Derayah LTIP portal

    A shallow embedding of the handlers that create, approve, reject and
    process exercise orders ([src/pages/EmployeeVestingEvents.tsx],
    [src/pages/ExerciseOrders.tsx]) over a model of the relational store
    they talk to (the Supabase migrations that declare [exercise_orders]
    and [cash_transfers]), of the lists that the two pages load, of the
    handlers that approve and reject deposits
    ([src/pages/CashTransfers.tsx]) and of the in-memory cache
    ([src/lib/queryCache.ts]).

    Conventions.
    - A [uuid] is an opaque key; [gen_random_uuid()] is a key that is not
      yet used in the table.
    - A [numeric(15,2)] column holds an integer number of hundredths, a
      [numeric(15,4)] column an integer number of ten-thousandths; both
      admit fifteen digits.
    - The pages compute on JavaScript Numbers, which are IEEE 754 doubles.
      A finite Number is modelled as the rational it denotes; the Number
      that JSON makes of a decimal, and the result of a multiplication,
      is the double nearest to the exact value, ties to even
      ([Number_value]); a Number is sent as the shortest decimal that
      reads back as the same double ([Number_toString]), which the column
      then rounds half away from zero.  Column values have at most fifteen
      digits: Infinity and NaN do not arise and are left out, and so is the
      sign of zero, which no comparison and no decimal shows.
    - A decimal of at most fifteen significant digits survives the round
      trip through a double, and the sum, the difference and the order of
      two two-decimal values of that size, once written back to a
      [numeric(15,2)] column, are the exact ones; quantities, prices and
      balances that are only passed on, added, subtracted or compared with
      each other are therefore kept as their column values.  The one
      Number that is computed otherwise is the product [totalCost] of
      [handleConfirmExercise], which is kept as a Number.
    - Columns that no handler reads and no declared constraint mentions
      (descriptions, notes) are left out of the rows.
    - A nullable column is an [option]; a column left out of a [select]
      list is absent from the returned object and also reads as [None].
    - A statement that violates a declared constraint returns an error and
      leaves the store as it was.  Transport failures, row-level security
      and foreign keys into tables that are not modelled are left out: the
      caller is an administrator of the company and the referenced rows
      exist. *)

From Stdlib Require Import ZArith List Bool String Ascii DecimalString Lia.
From Stdlib Require Import QArith Qround Qabs Qpower Lqa.
From Stdlib Require Import Sorting.Sorted Sorting.Permutation.
From stdpp Require Import gmap list fin_maps.

Local Open Scope Z_scope.

(** ** Scalars *)

Abbreviation uuid := positive (only parsing).

(** Milliseconds since the epoch, as [Date.now()] returns them. *)
Abbreviation timestamp := Z (only parsing).

(** A JavaScript string, as its UTF-16 code units. *)
Abbreviation js_string := (list N) (only parsing).

(** [x || 0] on a number that may be null or absent. *)
Definition or0 (x : option Z) : Z := default 0 x.

(** Relational operators and arithmetic convert [null] to [0]. *)
Definition to_number (x : option Z) : Z := default 0 x.

(** ECMAScript WhiteSpace and LineTerminator code points, the ones that
    [String.prototype.trim] strips. *)
Definition is_white_space (c : N) : bool :=
  ((9 <=? c) && (c <=? 13) || (c =? 32) || (c =? 160) || (c =? 5760)
   || (8192 <=? c) && (c <=? 8202) || (c =? 8232) || (c =? 8233)
   || (c =? 8239) || (c =? 8287) || (c =? 12288) || (c =? 65279))%N.

Fixpoint trimStart (s : js_string) : js_string :=
  match s with
  | c :: s' => if is_white_space c then trimStart s' else s
  | [] => []
  end.

Definition trimEnd (s : js_string) : js_string := rev (trimStart (rev s)).

Definition trim (s : js_string) : js_string := trimEnd (trimStart s).

(** Truthiness of a string: only the empty string is falsy. *)
Definition truthy (s : js_string) : bool :=
  match s with [] => false | _ :: _ => true end.

(** *** Column types *)

Definition fits_15_digits (x : Z) : bool := Z.abs x <? 10 ^ 15.

(** Rounding of a quotient half away from zero, as [numeric] rounds. *)
Definition round_half_away (n d : Z) : Z :=
  if 0 <=? n then (2 * n + d) / (2 * d) else - ((2 * (- n) + d) / (2 * d)).

(** *** JavaScript Numbers

    A finite Number, as the rational it denotes. *)

(** The integer nearest to [q], ties to the even one. *)
Definition round_ties_even (q : Q) : Z :=
  let f := Qfloor q in
  match (q - inject_Z f ?= 1 # 2)%Q with
  | Lt => f
  | Gt => f + 1
  | Eq => if Z.even f then f else f + 1
  end.

(** The binary exponent of the last place of the doubles next to [q > 0]:
    53 significant bits, and no exponent below -1074. *)
Definition ulp_exponent (q : Q) : Z :=
  Z.max (Z.log2 (Qfloor (q * 2 ^ 1074)) - 1074 - 52) (-1074).

(** The double nearest to [q > 0]. *)
Definition nearest (q : Q) : Q :=
  Qred (inject_Z (round_ties_even (q / 2 ^ ulp_exponent q)) * 2 ^ ulp_exponent q).

(** The Number value for [q]: roundTiesToEven of IEEE 754 binary64. *)
Definition Number_value (q : Q) : Q :=
  match (q ?= 0)%Q with
  | Eq => 0%Q
  | Gt => nearest q
  | Lt => Qred (- nearest (- q))
  end.

(** [a * b]. *)
Definition Number_multiply (a b : Q) : Q := Number_value (a * b).

(** [a < b]. *)
Definition Number_lessThan (a b : Q) : bool :=
  match (a ?= b)%Q with Lt => true | _ => false end.

(** The Number that the page holds for a [numeric] column value of [scale]
    decimals, here 2 and 4: the JSON text is the decimal itself. *)
Definition Number_of_hundredths (hundredths : Z) : Q := Number_value (hundredths # 100).

Definition Number_of_ten_thousandths (ten_thousandths : Z) : Q :=
  Number_value (ten_thousandths # 10000).

(** The integer [n] with [10 ^ n <= q < 10 ^ (n + 1)], for [q > 0]: looked
    for next to its estimate from the binary logarithm. *)
Definition floor_log10 (q : Q) : Z :=
  let estimate := (Z.log2 (Qfloor (q * 2 ^ 1074)) - 1074) * 30103 / 100000 in
  fold_left (fun best n => if Qle_bool (10 ^ n) q then n else best)
    [estimate - 1; estimate; estimate + 1; estimate + 2] (estimate - 2).

(** The decimal [d] reads back as the Number [x]. *)
Definition round_trips (x d : Q) : bool := Qeq_bool (Number_value d) x.

(** The decimal of [k] significant digits that reads back as [x] and is
    closest to it (the one with the even last digit when two are as
    close), if there is one: it is [s × 10 ^ (n - k)] for [s] or [s + 1],
    [s] the integer part of [x / 10 ^ (n - k)]. *)
Definition shortest_at (x : Q) (n k : Z) : option Q :=
  let scale := (10 ^ (n - k))%Q in
  let s := Qfloor (x / scale) in
  let lo := (inject_Z s * scale)%Q in
  let hi := (inject_Z (s + 1) * scale)%Q in
  match round_trips x lo, round_trips x hi with
  | true, true =>
    Some match (x - lo ?= hi - x)%Q with
         | Lt => lo
         | Gt => hi
         | Eq => if Z.even s then lo else hi
         end
  | true, false => Some lo
  | false, true => Some hi
  | false, false => None
  end.

(** The first [k] that has such a decimal.  Seventeen digits always
    suffice for a double; [x] itself stands for what lies beyond. *)
Fixpoint shortest_from (more : nat) (x : Q) (n k : Z) : Q :=
  match more with
  | O => x
  | S more =>
    match shortest_at x n k with
    | Some d => d
    | None => shortest_from more x n (k + 1)
    end
  end.

Definition shortest_decimal (x : Q) : Q :=
  shortest_from 17 x (floor_log10 x + 1) 1.

(** The decimal that [Number::toString], and with it [JSON.stringify],
    writes for [x]: as few significant digits as read back as [x]. *)
Definition Number_toString (x : Q) : Q :=
  match (x ?= 0)%Q with
  | Eq => 0%Q
  | Gt => Qred (shortest_decimal x)
  | Lt => Qred (- shortest_decimal (- x))
  end.

(** A decimal stored into a [numeric(15,2)] column, in hundredths. *)
Definition numeric_15_2 (d : Q) : Z := round_half_away (Qnum d * 100) (Z.pos (Qden d)).

(** Half a unit in the last place of a double, relative to its value. *)
Definition unit_roundoff : Q := 2 ^ (-53).

(** Half the smallest positive double. *)
Definition smallest_half : Q := 2 ^ (-1075).

(** ** Rows *)

Record row (A : Type) := Row { id : uuid; cols : A }.
Arguments Row {A} _ _.
Arguments id {A} _.
Arguments cols {A} _.

Definition rows {A} (t : gmap positive A) : list (row A) :=
  map (fun kv => Row (fst kv) (snd kv)) (map_to_list t).

Inductive order_status := pending | approved | rejected | processed | cancelled.

Inductive vesting_event_status :=
  | vs_pending | vs_due | vs_vested | vs_pending_exercise
  | vs_exercised | vs_transferred | vs_forfeited | vs_cancelled.

Inductive portfolio_type :=
  | company_reserved | employee_vested | company_cash | employee_cash.

Inductive cash_transfer_type :=
  | company_deposit | employee_deposit | exercise_settlement.

Inductive cash_transfer_status :=
  | ct_pending | ct_approved | ct_rejected | ct_processed.

Inductive share_transfer_type := st_vesting | st_forfeiture | st_exercise | st_cancellation.

Global Instance order_status_eq_dec : EqDecision order_status.
Proof. solve_decision. Defined.
Global Instance vesting_event_status_eq_dec : EqDecision vesting_event_status.
Proof. solve_decision. Defined.
Global Instance portfolio_type_eq_dec : EqDecision portfolio_type.
Proof. solve_decision. Defined.

(** [`PREFIX-${companyId}-${Date.now()}`]: order and transfer numbers. *)
Record serial := Serial { serial_company : uuid; serial_time : timestamp }.

Global Instance serial_eq_dec : EqDecision serial.
Proof. solve_decision. Defined.

(** [`VEST-${companyId}-${employee_number || employeeId.substring(0, 8)}`]. *)
Inductive portfolio_number :=
  | VEST_number (company : uuid) (employee_number : string)
  | VEST_id_prefix (company : uuid) (employee : uuid)
  | issued_number (n : string).

Module Grant.
Record t := mk { company_id : option uuid; employee_id : option uuid }.
End Grant.

Module Employee.
Record t := mk {
  user_id : option uuid;
  company_id : uuid;
  employee_number : option string }.
End Employee.

Module Portfolio.
Record t := mk {
  portfolio_type : portfolio_type;
  company_id : uuid;
  employee_id : option uuid;
  portfolio_number : option portfolio_number;
  total_shares : option Z;
  available_shares : option Z;
  locked_shares : option Z;
  cash_balance : option Z;            (* numeric(15,2) DEFAULT 0 *)
  currency : option string;           (* text DEFAULT 'SAR' *)
  updated_at : option timestamp }.
End Portfolio.

Module VestingEvent.
Record t := mk {
  status : vesting_event_status;
  updated_at : option timestamp }.
End VestingEvent.

(** The event as the employee page holds it ([VestingEventWithDetails]). *)
Module VestingEventWithDetails.
Record t := mk {
  grant_id : uuid;
  shares_to_vest : Z;                 (* hundredths of a share *)
  exercise_price : option Z;          (* numeric(15,4), null when unset *)
  status : vesting_event_status;
  requires_exercise : bool }.
End VestingEventWithDetails.

Module ExerciseOrder.
Record t := mk {
  order_number : serial;              (* text UNIQUE NOT NULL *)
  company_id : uuid;
  employee_id : uuid;
  vesting_event_id : uuid;            (* UNIQUE(vesting_event_id) *)
  grant_id : uuid;
  shares_to_exercise : Z;             (* numeric(15,2) CHECK (> 0) *)
  exercise_price_per_share : Z;       (* numeric(15,4) *)
  total_exercise_cost : Z;            (* numeric(15,2) *)
  cash_portfolio_id : option uuid;
  cash_balance_at_order : option Z;   (* numeric(15,2) *)
  sufficient_funds : bool;
  status : order_status;
  processed_at : option timestamp;
  processed_by : option uuid;
  rejection_reason : option js_string;
  created_at : timestamp;
  updated_at : timestamp }.
End ExerciseOrder.

Module CashTransfer.
Record t := mk {
  transfer_number : serial;           (* text UNIQUE NOT NULL *)
  company_id : uuid;
  transfer_type : cash_transfer_type;
  from_portfolio_id : option uuid;
  to_portfolio_id : option uuid;
  employee_id : option uuid;
  exercise_order_id : option uuid;
  amount : Z;                         (* numeric(15,2) CHECK (> 0) *)
  currency : string;
  status : cash_transfer_status;
  created_by : option uuid }.
End CashTransfer.

Module ShareTransfer.
Record t := mk {
  transfer_number : serial;
  company_id : uuid;
  grant_id : uuid;
  employee_id : uuid;
  from_portfolio_id : uuid;
  to_portfolio_id : uuid;
  shares_transferred : Z;
  transfer_type : share_transfer_type;
  transfer_date : Z;                  (* days since the epoch, UTC *)
  processed_at : timestamp;
  processed_by_system : bool }.
End ShareTransfer.

(** ** The store *)

Record Db := mkDb {
  grants : gmap positive Grant.t;
  employees : gmap positive Employee.t;
  portfolios : gmap positive Portfolio.t;
  exercise_orders : gmap positive ExerciseOrder.t;
  cash_transfers : gmap positive CashTransfer.t;
  share_transfers : gmap positive ShareTransfer.t;
  vesting_events : gmap positive VestingEvent.t }.

Definition with_portfolios (f : gmap positive Portfolio.t -> gmap positive Portfolio.t)
    (db : Db) : Db :=
  mkDb (grants db) (employees db) (f (portfolios db)) (exercise_orders db)
       (cash_transfers db) (share_transfers db) (vesting_events db).

Definition with_exercise_orders
    (f : gmap positive ExerciseOrder.t -> gmap positive ExerciseOrder.t) (db : Db) : Db :=
  mkDb (grants db) (employees db) (portfolios db) (f (exercise_orders db))
       (cash_transfers db) (share_transfers db) (vesting_events db).

Definition with_cash_transfers
    (f : gmap positive CashTransfer.t -> gmap positive CashTransfer.t) (db : Db) : Db :=
  mkDb (grants db) (employees db) (portfolios db) (exercise_orders db)
       (f (cash_transfers db)) (share_transfers db) (vesting_events db).

Definition with_share_transfers
    (f : gmap positive ShareTransfer.t -> gmap positive ShareTransfer.t) (db : Db) : Db :=
  mkDb (grants db) (employees db) (portfolios db) (exercise_orders db)
       (cash_transfers db) (f (share_transfers db)) (vesting_events db).

Definition with_vesting_events
    (f : gmap positive VestingEvent.t -> gmap positive VestingEvent.t) (db : Db) : Db :=
  mkDb (grants db) (employees db) (portfolios db) (exercise_orders db)
       (cash_transfers db) (share_transfers db) (f (vesting_events db)).

(** [gen_random_uuid()]: a key the table does not use yet. *)
Definition gen_random_uuid {A} (t : gmap positive A) : uuid := fresh (dom t).

(** ** Errors and the handler monad *)

Inductive PgError :=
  | unique_violation
  | check_violation
  | numeric_field_overflow
  | invalid_text_representation   (* 22P02: a text that is no uuid *)
  | no_rows_returned.

(** What a handler's [try] block can throw: an error object returned by the
    store, or one of the handler's own [new Error(...)]. *)
Inductive Error :=
  | StoreError (e : PgError)
  | User_not_found
  | Grant_not_found
  | Employee_cash_portfolio_not_found
  | Company_cash_portfolio_not_found
  | Insufficient_cash_balance_in_employee_portfolio
  | Company_reserved_portfolio_not_found
  | Insufficient_shares_in_company_reserved_portfolio.

Inductive Result (A : Type) := Ok (a : A) | Throw (e : Error).
Arguments Ok {A} _.
Arguments Throw {A} _.

(** A computation reads and writes the store; what it wrote before it threw
    stays written. *)
Definition M (A : Type) : Type := Db -> Result A * Db.

Definition ret {A} (a : A) : M A := fun db => (Ok a, db).

Definition bind {A B} (m : M A) (k : A -> M B) : M B :=
  fun db =>
    match m db with
    | (Ok a, db') => k a db'
    | (Throw e, db') => (Throw e, db')
    end.

Definition throw {A} (e : Error) : M A := fun db => (Throw e, db).

Declare Scope handler_scope.
Delimit Scope handler_scope with handler.
Notation "'let*' x := m 'in' k" := (bind m (fun x => k))
  (at level 10, x name, m at level 100, k at level 200) : handler_scope.
Notation "m ;; k" := (bind m (fun _ => k))
  (at level 100, k at level 200, right associativity) : handler_scope.
Local Open Scope handler_scope.

(** A call to the store answers [{ data, error }]. *)
Definition Call (A : Type) : Type := Db -> (PgError + A) * Db.

(** [if (error) throw error]. *)
Definition check {A} (c : Call A) : M A :=
  fun db =>
    match c db with
    | (inl e, db') => (Throw (StoreError e), db')
    | (inr a, db') => (Ok a, db')
    end.

(** An awaited call whose [error] the handler never looks at. *)
Definition unchecked {A} (c : Call A) : M unit :=
  fun db => (Ok tt, snd (c db)).

(** [const { data } = await ...]: [data] is null when the call failed. *)
Definition data_only {A} (c : Call A) : M (option A) :=
  fun db =>
    match c db with
    | (inl _, db') => (Ok None, db')
    | (inr a, db') => (Ok (Some a), db')
    end.

(** [if (!x) throw new Error(...)]. *)
Definition require {A} (x : option A) (e : Error) : M A :=
  match x with Some a => ret a | None => throw e end.

Definition guard (b : bool) (e : Error) : M unit :=
  if b then throw e else ret tt.

(** How a handler ends. *)
Inductive Outcome :=
  | Returned                  (* a bare [return]: nothing was attempted *)
  | Refused (message : string) (* an [alert] and [return] before the [try] *)
  | Succeeded                 (* the [try] block ran to its success [alert] *)
  | Failed (e : Error).       (* the [catch] block *)

Definition try_catch (body : M unit) (db : Db) : Outcome * Db :=
  match body db with
  | (Ok _, db') => (Succeeded, db')
  | (Throw e, db') => (Failed e, db')
  end.

(** ** Statements on [exercise_orders] and [vesting_events] *)

Module OrderPatch.
Import ExerciseOrder.

Definition set_status (s : order_status) (o : t) : t :=
  mk (order_number o) (company_id o) (employee_id o) (vesting_event_id o) (grant_id o)
     (shares_to_exercise o) (exercise_price_per_share o) (total_exercise_cost o)
     (cash_portfolio_id o) (cash_balance_at_order o) (sufficient_funds o)
     s (processed_at o) (processed_by o) (rejection_reason o)
     (created_at o) (updated_at o).

Definition set_rejection_reason (r : js_string) (o : t) : t :=
  mk (order_number o) (company_id o) (employee_id o) (vesting_event_id o) (grant_id o)
     (shares_to_exercise o) (exercise_price_per_share o) (total_exercise_cost o)
     (cash_portfolio_id o) (cash_balance_at_order o) (sufficient_funds o)
     (status o) (processed_at o) (processed_by o) (Some r)
     (created_at o) (updated_at o).

Definition set_processed (at_ : timestamp) (by_ : uuid) (o : t) : t :=
  mk (order_number o) (company_id o) (employee_id o) (vesting_event_id o) (grant_id o)
     (shares_to_exercise o) (exercise_price_per_share o) (total_exercise_cost o)
     (cash_portfolio_id o) (cash_balance_at_order o) (sufficient_funds o)
     (status o) (Some at_) (Some by_) (rejection_reason o)
     (created_at o) (updated_at o).

Definition set_updated_at (now : timestamp) (o : t) : t :=
  mk (order_number o) (company_id o) (employee_id o) (vesting_event_id o) (grant_id o)
     (shares_to_exercise o) (exercise_price_per_share o) (total_exercise_cost o)
     (cash_portfolio_id o) (cash_balance_at_order o) (sufficient_funds o)
     (status o) (processed_at o) (processed_by o) (rejection_reason o)
     (created_at o) now.
End OrderPatch.

(** [.from('exercise_orders').update(patch).eq('id', k)].  The patches the
    handlers send touch no constrained column besides [status], whose
    value is one of the five the CHECK admits; a key that matches no row
    updates nothing and is no error. *)
Definition update_exercise_orders (k : uuid)
    (patch : ExerciseOrder.t -> ExerciseOrder.t) : Call unit :=
  fun db => (inr tt, with_exercise_orders (alter patch k) db).

(** [.from('vesting_events').update(patch).eq('id', k)]. *)
Definition update_vesting_events (k : uuid)
    (patch : VestingEvent.t -> VestingEvent.t) : Call unit :=
  fun db => (inr tt, with_vesting_events (alter patch k) db).

(** ** The administrator's page: [ExerciseOrders.tsx] *)

Inductive action := Approve | Reject | Process.

(** The buttons rendered on a row of the table (and in the details modal):
    [order.status === 'pending' && ...], [order.status === 'approved' && ...]. *)
Definition row_actions (order : row ExerciseOrder.t) : list action :=
  (if decide (ExerciseOrder.status (cols order) = pending) then [Approve; Reject] else [])
  ++ (if decide (ExerciseOrder.status (cols order) = approved) then [Process] else []).

Definition handleApprove (confirm : bool) (now : timestamp)
    (order : row ExerciseOrder.t) (db : Db) : Outcome * Db :=
  if negb confirm then (Returned, db)
  else
    try_catch
      (check (update_exercise_orders (id order)
                (fun o => OrderPatch.set_updated_at now (OrderPatch.set_status approved o))))
      db.

Definition handleReject (orderToReject : option (row ExerciseOrder.t))
    (rejectionReason : js_string) (now : timestamp) (db : Db) : Outcome * Db :=
  match orderToReject with
  | None => (Returned, db)
  | Some orderToReject =>
    if negb (truthy (trim rejectionReason))
    then (Refused "Please provide a rejection reason", db)
    else
      try_catch
        (check (update_exercise_orders (id orderToReject)
                  (fun o => OrderPatch.set_updated_at now
                              (OrderPatch.set_rejection_reason rejectionReason
                                 (OrderPatch.set_status rejected o)))) ;;
         (* Update vesting event status back to pending_exercise *)
         unchecked (update_vesting_events
                      (ExerciseOrder.vesting_event_id (cols orderToReject))
                      (fun e => VestingEvent.mk vs_pending_exercise
                                  (VestingEvent.updated_at e))))
        db
  end.

(** ** Statements on [grants], [employees] and [portfolios] *)

Definition is_id (x : option uuid) (k : uuid) : bool :=
  match x with Some k' => Pos.eqb k' k | None => false end.

Definition is_null {A} (x : option A) : bool :=
  match x with Some _ => false | None => true end.

(** [.from('grants').select(...).eq('id', k).single()]: [single] answers an
    error when no row matches. *)
Definition single_grant (k : uuid) : Call (row Grant.t) :=
  fun db =>
    match grants db !! k with
    | Some g => (inr (Row k g), db)
    | None => (inl no_rows_returned, db)
    end.

(** The columns a [select] list keeps. *)
Definition cash_columns (p : Portfolio.t) : Portfolio.t :=
  (* 'id, portfolio_type, company_id, employee_id, cash_balance' *)
  Portfolio.mk (Portfolio.portfolio_type p) (Portfolio.company_id p)
    (Portfolio.employee_id p) None None None None (Portfolio.cash_balance p) None None.

Definition share_columns (p : Portfolio.t) : Portfolio.t :=
  (* 'id, portfolio_type, company_id, employee_id, portfolio_number, available_shares' *)
  Portfolio.mk (Portfolio.portfolio_type p) (Portfolio.company_id p)
    (Portfolio.employee_id p) (Portfolio.portfolio_number p) None
    (Portfolio.available_shares p) None None None None.

(** [.from('portfolios').select(columns).eq('company_id', companyId)]. *)
Definition select_rows (columns : Portfolio.t -> Portfolio.t)
    (companyId : uuid) (db : Db) : list (row Portfolio.t) :=
  map (fun r => Row (id r) (columns (cols r)))
      (List.filter (fun r => Pos.eqb (Portfolio.company_id (cols r)) companyId)
         (rows (portfolios db))).

Definition select_portfolios (columns : Portfolio.t -> Portfolio.t)
    (companyId : uuid) : Call (list (row Portfolio.t)) :=
  fun db => (inr (select_rows columns companyId db), db).

(** The object given to [.update(...)]: the listed columns only. *)
Record PortfolioPatch := mkPatch {
  new_cash_balance : option Z;
  new_total_shares : option Z;
  new_available_shares : option Z;
  new_updated_at : timestamp }.

Definition apply_patch (u : PortfolioPatch) (p : Portfolio.t) : Portfolio.t :=
  Portfolio.mk (Portfolio.portfolio_type p) (Portfolio.company_id p)
    (Portfolio.employee_id p) (Portfolio.portfolio_number p)
    (match new_total_shares u with Some x => Some x | None => Portfolio.total_shares p end)
    (match new_available_shares u with Some x => Some x | None => Portfolio.available_shares p end)
    (Portfolio.locked_shares p)
    (match new_cash_balance u with Some x => Some x | None => Portfolio.cash_balance p end)
    (Portfolio.currency p)
    (Some (new_updated_at u)).

(** [.from('portfolios').update(patch).eq('id', k)].  [cash_balance] is
    [numeric(15,2)]; the base table, and with it the types of the share
    columns, is not declared in the sources, so no other constraint is
    checked. *)
Definition update_portfolios (k : uuid) (u : PortfolioPatch) : Call unit :=
  fun db =>
    match portfolios db !! k with
    | Some p =>
      if fits_15_digits (or0 (new_cash_balance u))
      then (inr tt, with_portfolios (insert k (apply_patch u p)) db)
      else (inl numeric_field_overflow, db)
    | None => (inr tt, db)
    end.

(** [.from('portfolios').insert(row).select().single()]: the stored row,
    with the declared defaults, under a new key. *)
Definition insert_portfolios (p : Portfolio.t) : Call (row Portfolio.t) :=
  fun db =>
    let k := gen_random_uuid (portfolios db) in
    (inr (Row k p), with_portfolios (insert k p) db).

(** [.from('employees').select('employee_number').eq('id', k).single()]. *)
Definition single_employee (k : uuid) : Call Employee.t :=
  fun db =>
    match employees db !! k with
    | Some e => (inr e, db)
    | None => (inl no_rows_returned, db)
    end.

(** ** Statements on [cash_transfers] and [share_transfers] *)

Definition exists_row {A} (P : A -> bool) (t : gmap positive A) : bool :=
  existsb (fun r => P (cols r)) (rows t).

(** [.from('cash_transfers').insert(row)]: [amount numeric(15,2) NOT NULL
    CHECK (amount > 0)], [transfer_number text UNIQUE NOT NULL]. *)
Definition insert_cash_transfers (c : CashTransfer.t) : Call unit :=
  fun db =>
    if negb (fits_15_digits (CashTransfer.amount c))
    then (inl numeric_field_overflow, db)
    else if negb (0 <? CashTransfer.amount c)
    then (inl check_violation, db)
    else if exists_row
              (fun c' => bool_decide (CashTransfer.transfer_number c'
                                      = CashTransfer.transfer_number c))
              (cash_transfers db)
    then (inl unique_violation, db)
    else (inr tt,
          with_cash_transfers (insert (gen_random_uuid (cash_transfers db)) c) db).

(** [.from('share_transfers').insert(row)].  The table is not declared in
    the sources; the insert is taken to be accepted. *)
Definition insert_share_transfers (s : ShareTransfer.t) : Call unit :=
  fun db =>
    (inr tt, with_share_transfers (insert (gen_random_uuid (share_transfers db)) s) db).

(** ** [handleProcess] *)

(** [portfolios?.find(p => p.portfolio_type === 'employee_cash' &&
    p.employee_id === employeeId)]. *)
Definition find_employee_cash (employeeId : uuid) (l : list (row Portfolio.t)) :=
  find (fun p => bool_decide (Portfolio.portfolio_type (cols p) = employee_cash)
                 && is_id (Portfolio.employee_id (cols p)) employeeId) l.

Definition find_company_cash (companyId : uuid) (l : list (row Portfolio.t)) :=
  find (fun p => bool_decide (Portfolio.portfolio_type (cols p) = company_cash)
                 && Pos.eqb (Portfolio.company_id (cols p)) companyId
                 && is_null (Portfolio.employee_id (cols p))) l.

Definition find_company_reserved (companyId : uuid) (l : list (row Portfolio.t)) :=
  find (fun p => bool_decide (Portfolio.portfolio_type (cols p) = company_reserved)
                 && Pos.eqb (Portfolio.company_id (cols p)) companyId
                 && is_null (Portfolio.employee_id (cols p))) l.

Definition find_employee_vested (companyId employeeId : uuid) (l : list (row Portfolio.t)) :=
  find (fun p => bool_decide (Portfolio.portfolio_type (cols p) = employee_vested)
                 && is_id (Portfolio.employee_id (cols p)) employeeId
                 && Pos.eqb (Portfolio.company_id (cols p)) companyId) l.

(** Create employee vested portfolio if it doesn't exist. *)
Definition create_employee_vested (companyId employeeId : uuid) : M (row Portfolio.t) :=
  let* employee := data_only (single_employee employeeId) in
  let portfolioNumber :=
    match employee ≫= Employee.employee_number with
    | Some (String c n) => VEST_number companyId (String c n)
    | _ => VEST_id_prefix companyId employeeId
    end in
  check (insert_portfolios
           (Portfolio.mk employee_vested companyId (Some employeeId) (Some portfolioNumber)
              (Some 0) (Some 0) (Some 0) (Some 0) (Some "SAR"%string) None)).

(** The row of step 1c: [transfer_type: 'exercise_settlement'], from the
    employee's cash portfolio to the company's, [status: 'processed']. *)
Definition settlement_record (user companyId employeeId : uuid) (now : timestamp)
    (order : row ExerciseOrder.t) (from_portfolio_id to_portfolio_id : uuid)
    : CashTransfer.t :=
  CashTransfer.mk
    (Serial companyId now)                               (* transfer_number *)
    companyId exercise_settlement
    (Some from_portfolio_id) (Some to_portfolio_id)
    (Some employeeId)
    (Some (id order))                                    (* exercise_order_id *)
    (ExerciseOrder.total_exercise_cost (cols order))     (* amount *)
    "SAR"%string ct_processed
    (Some user).                                         (* created_by *)

(** Steps 1 to 1c of [handleProcess]: the cash leg. *)
Definition cash_settlement (user companyId employeeId : uuid) (now : timestamp)
    (order : row ExerciseOrder.t) : M unit :=
  let total_exercise_cost := ExerciseOrder.total_exercise_cost (cols order) in
  (* Step 1: Get employee and company cash portfolios *)
  let* portfolios := check (select_portfolios cash_columns companyId) in
  let* employeeCashPortfolio :=
    require (find_employee_cash employeeId portfolios)
            Employee_cash_portfolio_not_found in
  let* companyCashPortfolio :=
    require (find_company_cash companyId portfolios)
            Company_cash_portfolio_not_found in
  guard (to_number (Portfolio.cash_balance (cols employeeCashPortfolio))
         <? total_exercise_cost)
        Insufficient_cash_balance_in_employee_portfolio ;;
  (* Step 1a: Deduct cash from employee's cash portfolio *)
  let newEmployeeCashBalance :=
    to_number (Portfolio.cash_balance (cols employeeCashPortfolio))
    - total_exercise_cost in
  check (update_portfolios (id employeeCashPortfolio)
           (mkPatch (Some newEmployeeCashBalance) None None now)) ;;
  (* Step 1b: Add cash to company's cash portfolio *)
  let newCompanyCashBalance :=
    or0 (Portfolio.cash_balance (cols companyCashPortfolio)) + total_exercise_cost in
  check (update_portfolios (id companyCashPortfolio)
           (mkPatch (Some newCompanyCashBalance) None None now)) ;;
  (* Step 1c: Create cash transfer record for exercise settlement *)
  check (insert_cash_transfers
           (settlement_record user companyId employeeId now order
              (id employeeCashPortfolio) (id companyCashPortfolio))).

(** Steps 2 to 4: the share leg. *)
Definition share_transfer (companyId employeeId : uuid) (now : timestamp)
    (order : row ExerciseOrder.t) : M unit :=
  let grantId := ExerciseOrder.grant_id (cols order) in
  let sharesToTransfer := ExerciseOrder.shares_to_exercise (cols order) in
  (* Step 2: Get portfolios for share transfer *)
  let* sharePortfolios := check (select_portfolios share_columns companyId) in
  let* fromPortfolio :=
    require (find_company_reserved companyId sharePortfolios)
            Company_reserved_portfolio_not_found in
  let* toPortfolio :=
    match find_employee_vested companyId employeeId sharePortfolios with
    | Some p => ret p
    | None => create_employee_vested companyId employeeId
    end in
  (* Check if company portfolio has enough shares *)
  guard (to_number (Portfolio.available_shares (cols fromPortfolio)) <? sharesToTransfer)
        Insufficient_shares_in_company_reserved_portfolio ;;
  (* Step 3: Transfer shares *)
  check (update_portfolios (id fromPortfolio)
           (mkPatch None None
              (Some (to_number (Portfolio.available_shares (cols fromPortfolio))
                     - sharesToTransfer))
              now)) ;;
  check (update_portfolios (id toPortfolio)
           (mkPatch None
              (Some (or0 (Portfolio.total_shares (cols toPortfolio)) + sharesToTransfer))
              (Some (or0 (Portfolio.available_shares (cols toPortfolio))
                     + sharesToTransfer))
              now)) ;;
  (* Step 4: Create share transfer record *)
  check (insert_share_transfers
           (ShareTransfer.mk (Serial companyId now) companyId grantId employeeId
              (id fromPortfolio) (id toPortfolio) sharesToTransfer st_exercise
              (now / 86400000) now false)).

(** Steps 5 and 6: the order and its vesting event. *)
Definition close_order (user : uuid) (now : timestamp)
    (order : row ExerciseOrder.t) : M unit :=
  (* Step 5: Update exercise order status *)
  check (update_exercise_orders (id order)
           (fun o => OrderPatch.set_updated_at now
                       (OrderPatch.set_processed now user
                          (OrderPatch.set_status processed o)))) ;;
  (* Step 6: Update vesting event status *)
  check (update_vesting_events (ExerciseOrder.vesting_event_id (cols order))
           (fun _ => VestingEvent.mk vs_exercised (Some now))).

(** [grant.company_id || order.company_id]. *)
Definition companyId_of (grant : row Grant.t) (order : row ExerciseOrder.t) : uuid :=
  default (ExerciseOrder.company_id (cols order)) (Grant.company_id (cols grant)).

Definition handleProcess (confirm : bool) (user : option uuid) (now : timestamp)
    (order : row ExerciseOrder.t) (db : Db) : Outcome * Db :=
  if negb confirm then (Returned, db)
  else
    try_catch
      (let* user := require user User_not_found in
       (* Get grant details to find company_id; [single] has answered a row,
          so [if (!grant) throw new Error('Grant not found')] does not fire *)
       let* grant := check (single_grant (ExerciseOrder.grant_id (cols order))) in
       let companyId := companyId_of grant order in
       let employeeId := ExerciseOrder.employee_id (cols order) in
       cash_settlement user companyId employeeId now order ;;
       share_transfer companyId employeeId now order ;;
       close_order user now order)
      db.

(** ** The employee's page: [EmployeeVestingEvents.tsx] *)

(** The object given to [.from('exercise_orders').insert(...)]. *)
Module NewExerciseOrder.
Record t := mk {
  order_number : serial;
  company_id : uuid;
  employee_id : uuid;
  vesting_event_id : uuid;
  grant_id : uuid;
  shares_to_exercise : Z;             (* hundredths of a share *)
  exercise_price_per_share : Z;       (* ten-thousandths *)
  total_exercise_cost : Q;            (* the Number [totalCost] *)
  cash_portfolio_id : option uuid;
  cash_balance_at_order : option Z;   (* hundredths *)
  sufficient_funds : bool;
  status : order_status }.
End NewExerciseOrder.

(** The row that an accepted insert stores: [total_exercise_cost] arrives
    as the decimal that JSON carries for the Number and is rounded to the
    two decimals of its column; the columns that were not given take their
    defaults. *)
Definition stored_order (now : timestamp) (n : NewExerciseOrder.t) : ExerciseOrder.t :=
  ExerciseOrder.mk
    (NewExerciseOrder.order_number n) (NewExerciseOrder.company_id n)
    (NewExerciseOrder.employee_id n) (NewExerciseOrder.vesting_event_id n)
    (NewExerciseOrder.grant_id n) (NewExerciseOrder.shares_to_exercise n)
    (NewExerciseOrder.exercise_price_per_share n)
    (numeric_15_2 (Number_toString (NewExerciseOrder.total_exercise_cost n)))
    (NewExerciseOrder.cash_portfolio_id n) (NewExerciseOrder.cash_balance_at_order n)
    (NewExerciseOrder.sufficient_funds n) (NewExerciseOrder.status n)
    None None None now now.

(** [.from('exercise_orders').insert(row).select().single()] under the
    constraints of the migration: fifteen digits per [numeric] column,
    [CHECK (shares_to_exercise > 0)], [order_number text UNIQUE] and
    [UNIQUE(vesting_event_id) -- One order per vesting event]. *)
Definition insert_exercise_orders (now : timestamp) (n : NewExerciseOrder.t)
    : Call (row ExerciseOrder.t) :=
  fun db =>
    let o := stored_order now n in
    if negb (fits_15_digits (ExerciseOrder.shares_to_exercise o)
             && fits_15_digits (ExerciseOrder.exercise_price_per_share o)
             && fits_15_digits (ExerciseOrder.total_exercise_cost o)
             && fits_15_digits (or0 (ExerciseOrder.cash_balance_at_order o)))
    then (inl numeric_field_overflow, db)
    else if negb (0 <? ExerciseOrder.shares_to_exercise o)
    then (inl check_violation, db)
    else if exists_row
              (fun o' => bool_decide (ExerciseOrder.order_number o'
                                      = ExerciseOrder.order_number o))
              (exercise_orders db)
            || exists_row
                 (fun o' => Pos.eqb (ExerciseOrder.vesting_event_id o')
                                    (ExerciseOrder.vesting_event_id o))
                 (exercise_orders db)
    then (inl unique_violation, db)
    else
      let k := gen_random_uuid (exercise_orders db) in
      (inr (Row k o), with_exercise_orders (insert k o) db).

(** [.from('employees').select('id, company_id').eq('user_id', user.id)
    .maybeSingle()], of which the handler keeps [data]: the row when exactly
    one matches. *)
Definition maybeSingle_employee (user : uuid) (db : Db) : option (row Employee.t) :=
  match List.filter (fun e => is_id (Employee.user_id (cols e)) user) (rows (employees db)) with
  | [e] => Some e
  | _ => None
  end.

(** The [cashPortfolio] state of the page: a loaded row, or the literal
    [{ cash_balance: 0, currency: 'SAR' }], which has no [id]. *)
Record CashPortfolioState := mkCashPortfolioState {
  cp_id : option uuid;
  cp_cash_balance : option Z }.

Definition loadCashPortfolio (employeeId : uuid) (db : Db) : CashPortfolioState :=
  match List.filter
          (fun p => is_id (Portfolio.employee_id (cols p)) employeeId
                    && bool_decide (Portfolio.portfolio_type (cols p) = employee_cash))
          (rows (portfolios db)) with
  | [p] => mkCashPortfolioState (Some (id p)) (Portfolio.cash_balance (cols p))
  | _ => mkCashPortfolioState None (Some 0)
  end.

Definition state_id (cashPortfolio : option CashPortfolioState) : option uuid :=
  match cashPortfolio with Some cp => cp_id cp | None => None end.

Definition state_cash_balance (cashPortfolio : option CashPortfolioState) : option Z :=
  match cashPortfolio with Some cp => cp_cash_balance cp | None => None end.

(** The exercise button of a row:
    [event.status === 'pending_exercise' ||
     (event.status === 'vested' && event.requires_exercise)]. *)
Definition exercise_offered (event : row VestingEventWithDetails.t) : bool :=
  bool_decide (VestingEventWithDetails.status (cols event) = vs_pending_exercise)
  || bool_decide (VestingEventWithDetails.status (cols event) = vs_vested)
     && VestingEventWithDetails.requires_exercise (cols event).

(** [shares_to_vest * (exercise_price || 0)], the product of two Numbers. *)
Definition totalCost (exerciseEvent : row VestingEventWithDetails.t) : Q :=
  Number_multiply
    (Number_of_hundredths (VestingEventWithDetails.shares_to_vest (cols exerciseEvent)))
    (Number_of_ten_thousandths
       (or0 (VestingEventWithDetails.exercise_price (cols exerciseEvent)))).

(** [!cashPortfolio || cashPortfolio.cash_balance < totalCost]. *)
Definition insufficient_funds (cashPortfolio : option CashPortfolioState) (cost : Q) : bool :=
  match cashPortfolio with
  | None => true
  | Some cp => Number_lessThan (Number_of_hundredths (to_number (cp_cash_balance cp))) cost
  end.

(** The object literal that [handleConfirmExercise] inserts. *)
Definition exercise_request (employee : row Employee.t)
    (exerciseEvent : row VestingEventWithDetails.t)
    (cashPortfolio : option CashPortfolioState) (now : timestamp) : NewExerciseOrder.t :=
  NewExerciseOrder.mk
    (Serial (Employee.company_id (cols employee)) now)   (* order_number *)
    (Employee.company_id (cols employee))                (* company_id *)
    (id employee)                                        (* employee_id *)
    (id exerciseEvent)                                   (* vesting_event_id *)
    (VestingEventWithDetails.grant_id (cols exerciseEvent))
    (VestingEventWithDetails.shares_to_vest (cols exerciseEvent))
    (or0 (VestingEventWithDetails.exercise_price (cols exerciseEvent)))
    (totalCost exerciseEvent)                            (* total_exercise_cost *)
    (state_id cashPortfolio)                             (* cash_portfolio_id *)
    (state_cash_balance cashPortfolio)                   (* cash_balance_at_order *)
    true                                                 (* sufficient_funds *)
    pending.

Definition handleConfirmExercise
    (exerciseEvent : option (row VestingEventWithDetails.t))
    (cashPortfolio : option CashPortfolioState)
    (user : option uuid) (now : timestamp) (db : Db) : Outcome * Db :=
  match exerciseEvent, user with
  | None, _ | _, None => (Returned, db)
  | Some exerciseEvent, Some user =>
    match maybeSingle_employee user db with
    | None => (Returned, db)
    | Some employee =>
      let totalCost := totalCost exerciseEvent in
      (* Check if sufficient funds *)
      if insufficient_funds cashPortfolio totalCost
      then (Refused "Insufficient funds in your cash portfolio. Please deposit funds first.",
            db)
      else
        try_catch
          ((* Create exercise order *)
           check (insert_exercise_orders now
                    (exercise_request employee exerciseEvent cashPortfolio now)) ;;
           (* Update vesting event status to pending_exercise (if not already) *)
           unchecked (update_vesting_events (id exerciseEvent)
                        (fun e => VestingEvent.mk vs_pending_exercise
                                    (VestingEvent.updated_at e))))
          db
    end
  end.

(** * The stores the handlers lead to *)

Definition reject_patch (reason : js_string) (now : timestamp) (o : ExerciseOrder.t) :=
  OrderPatch.set_updated_at now
    (OrderPatch.set_rejection_reason reason (OrderPatch.set_status rejected o)).

Definition pending_exercise_patch (e : VestingEvent.t) : VestingEvent.t :=
  VestingEvent.mk vs_pending_exercise (VestingEvent.updated_at e).

(** The store after an accepted request. *)
Definition with_new_order (now : timestamp) (n : NewExerciseOrder.t) (db : Db) : Db :=
  with_vesting_events
    (alter pending_exercise_patch (NewExerciseOrder.vesting_event_id n))
    (with_exercise_orders
       (insert (gen_random_uuid (exercise_orders db)) (stored_order now n)) db).

(** The quantity, price and total of the stored orders. *)
Definition order_amounts (db : Db) : list (Z * Z * Z) :=
  map (fun r => (ExerciseOrder.shares_to_exercise (cols r),
                 ExerciseOrder.exercise_price_per_share (cols r),
                 ExerciseOrder.total_exercise_cost (cols r)))
      (rows (exercise_orders db)).

Definition debit (cost : Z) (now : timestamp) (p : Portfolio.t) : Portfolio.t :=
  apply_patch (mkPatch (Some (to_number (Portfolio.cash_balance p) - cost)) None None now) p.

Definition credit (cost : Z) (now : timestamp) (p : Portfolio.t) : Portfolio.t :=
  apply_patch (mkPatch (Some (or0 (Portfolio.cash_balance p) + cost)) None None now) p.

(** The store after the cash leg ran between portfolios [e] and [c]. *)
Definition after_cash (user companyId employeeId : uuid) (now : timestamp)
    (order : row ExerciseOrder.t) (e c : uuid) (pe pc : Portfolio.t) (db : Db) : Db :=
  with_cash_transfers
    (insert (gen_random_uuid (cash_transfers db))
       (settlement_record user companyId employeeId now order e c))
    (with_portfolios
       (insert c (credit (ExerciseOrder.total_exercise_cost (cols order)) now pc))
       (with_portfolios
          (insert e (debit (ExerciseOrder.total_exercise_cost (cols order)) now pe))
          db)).

(** The effect of an accepted update. *)
Definition updated (k : uuid) (u : PortfolioPatch) (db : Db) : Db :=
  match portfolios db !! k with
  | Some p => with_portfolios (insert k (apply_patch u p)) db
  | None => db
  end.

(** The vested portfolio that step 2 creates for an employee who has none. *)
Definition new_vested (companyId employeeId : uuid) (db : Db) : Portfolio.t :=
  Portfolio.mk employee_vested companyId (Some employeeId)
    (Some match (employees db !! employeeId) ≫= Employee.employee_number with
          | Some (String c n) => VEST_number companyId (String c n)
          | _ => VEST_id_prefix companyId employeeId
          end)
    (Some 0) (Some 0) (Some 0) (Some 0) (Some "SAR"%string) None.

(** The employee's vested portfolio as step 2 holds it, and the store it
    is in: the selected row, or the row just created. *)
Definition toPortfolio_of (companyId employeeId : uuid) (db : Db) : row Portfolio.t * Db :=
  match find_employee_vested companyId employeeId (select_rows share_columns companyId db) with
  | Some p => (p, db)
  | None =>
    (Row (gen_random_uuid (portfolios db)) (new_vested companyId employeeId db),
     with_portfolios
       (insert (gen_random_uuid (portfolios db)) (new_vested companyId employeeId db)) db)
  end.

(** The store after steps 3 and 4 ran from [fromPortfolio] to [toPortfolio]. *)
Definition after_shares (companyId employeeId : uuid) (now : timestamp)
    (order : row ExerciseOrder.t) (fromPortfolio toPortfolio : row Portfolio.t)
    (db : Db) : Db :=
  let sharesToTransfer := ExerciseOrder.shares_to_exercise (cols order) in
  let db3 :=
    updated (id toPortfolio)
      (mkPatch None
         (Some (or0 (Portfolio.total_shares (cols toPortfolio)) + sharesToTransfer))
         (Some (or0 (Portfolio.available_shares (cols toPortfolio)) + sharesToTransfer))
         now)
      (updated (id fromPortfolio)
         (mkPatch None None
            (Some (to_number (Portfolio.available_shares (cols fromPortfolio))
                   - sharesToTransfer))
            now)
         db) in
  with_share_transfers
    (insert (gen_random_uuid (share_transfers db3))
       (ShareTransfer.mk (Serial companyId now) companyId
          (ExerciseOrder.grant_id (cols order)) employeeId
          (id fromPortfolio) (id toPortfolio) sharesToTransfer st_exercise
          (now / 86400000) now false))
    db3.

(** What the share leg leaves alone, whether it succeeds or throws. *)
Record share_leg_frame (db db' : Db) : Prop := {
  frame_grants : grants db' = grants db;
  frame_orders : exercise_orders db' = exercise_orders db;
  frame_cash_transfers : cash_transfers db' = cash_transfers db;
  frame_events : vesting_events db' = vesting_events db;
  frame_cash :
    forall k p, portfolios db !! k = Some p ->
      exists p', portfolios db' !! k = Some p' /\
                 Portfolio.cash_balance p' = Portfolio.cash_balance p }.

Definition processed_patch (user : uuid) (now : timestamp) (o : ExerciseOrder.t) :=
  OrderPatch.set_updated_at now
    (OrderPatch.set_processed now user (OrderPatch.set_status processed o)).

Definition closed (user : uuid) (now : timestamp) (order : row ExerciseOrder.t)
    (db : Db) : Db :=
  with_vesting_events
    (alter (fun _ => VestingEvent.mk vs_exercised (Some now))
           (ExerciseOrder.vesting_event_id (cols order)))
    (with_exercise_orders (alter (processed_patch user now) (id order)) db).

(** The cash of a portfolio, [null] read as 0. *)
Definition cash (db : Db) (k : uuid) : Z :=
  to_number (portfolios db !! k ≫= Portfolio.cash_balance).

(** * A store to run the handlers on

    Company 1 with its reserved-share and cash portfolios, employee 2 (user
    20) with a cash portfolio, grant 3 with vesting event 4, and order 5:
    100 shares at 12.50 each, 1250.00 in total. *)

Module Scenario.

Definition portfolio (ty : portfolio_type) (employee : option uuid)
    (total available locked cash : option Z) : Portfolio.t :=
  Portfolio.mk ty 1%positive employee None total available locked cash
    (Some "SAR"%string) None.

Definition company_shares : Portfolio.t :=
  portfolio company_reserved None (Some 100000) (Some 100000) (Some 0) (Some 0).

Definition company_money : Portfolio.t :=
  portfolio company_cash None None None None (Some 50000).

Definition employee_money (cash : Z) : Portfolio.t :=
  portfolio employee_cash (Some 2%positive) None None None (Some cash).

(** 50 shares held and locked, none available. *)
Definition employee_shares : Portfolio.t :=
  portfolio employee_vested (Some 2%positive) (Some 5000) (Some 0) (Some 5000) (Some 0).

Definition order (s : order_status) : ExerciseOrder.t :=
  ExerciseOrder.mk (Serial 1 1000) 1%positive 2%positive 4%positive 3%positive
    10000 125000 125000 (Some 12%positive) (Some 200000) true s
    None None None 1000 1000.

(** The store, given the employee's cash (in hundredths), the stored
    status of order 5 and the stored status of vesting event 4. *)
Definition store (cash : Z) (s : order_status) (v : vesting_event_status) : Db :=
  mkDb
    {[ 3%positive := Grant.mk (Some 1%positive) (Some 2%positive) ]}
    {[ 2%positive := Employee.mk (Some 20%positive) 1%positive None ]}
    (list_to_map [ (10%positive, company_shares); (11%positive, company_money);
                   (12%positive, employee_money cash) ])
    {[ 5%positive := order s ]}
    ∅ ∅
    {[ 4%positive := VestingEvent.mk v None ]}.

(** The same store before the employee has asked to exercise. *)
Definition store_without_order (cash : Z) : Db :=
  with_exercise_orders (fun _ => ∅) (store cash pending vs_pending_exercise).

(** The same store when the company has 50 shares left to give. *)
Definition store_short_of_shares (cash : Z) (s : order_status) : Db :=
  with_portfolios
    (insert 10%positive
       (portfolio company_reserved None (Some 100000) (Some 5000) (Some 0) (Some 0)))
    (store cash s vs_pending_exercise).

(** The same store when the employee already holds vested shares. *)
Definition store_with_vested (cash : Z) (s : order_status) : Db :=
  with_portfolios (insert 13%positive employee_shares) (store cash s vs_pending_exercise).

Definition event (shares : Z) (price : option Z) : row VestingEventWithDetails.t :=
  Row 4%positive (VestingEventWithDetails.mk 3%positive shares price vs_pending_exercise true).

Definition status_of (k : uuid) (db : Db) : option order_status :=
  ExerciseOrder.status <$> exercise_orders db !! k.

Definition cash_of (k : uuid) (db : Db) : option Z :=
  portfolios db !! k ≫= Portfolio.cash_balance.

Definition available_of (k : uuid) (db : Db) : option Z :=
  portfolios db !! k ≫= Portfolio.available_shares.

Definition total_of (k : uuid) (db : Db) : option Z :=
  portfolios db !! k ≫= Portfolio.total_shares.

Definition event_status_of (k : uuid) (db : Db) : option vesting_event_status :=
  VestingEvent.status <$> vesting_events db !! k.

End Scenario.

(** * The rest of the pages *)

(** ** Sorting

    A stable insertion sort by an integer key: it is what
    [Array.prototype.sort] gives with the comparator [(a, b) => key(a) -
    key(b)], and one of the orders that [ORDER BY key] may give (the
    store is free in how it orders rows of equal key). *)

Section Sorting.

Context {A : Type} (key : A -> Z).

Fixpoint insert_by (x : A) (l : list A) : list A :=
  match l with
  | [] => [x]
  | y :: l' => if key x <=? key y then x :: l else y :: insert_by x l'
  end.

Definition sort_by (l : list A) : list A := fold_right insert_by [] l.

End Sorting.

(** ** [ExerciseOrders.tsx]: the list and its counters *)

(** The [selectedStatus] state: ['all'] or the status of one of the buttons. *)
Inductive status_filter := all_statuses | only (s : order_status).

Definition matches (selectedStatus : status_filter) (s : order_status) : bool :=
  match selectedStatus with
  | all_statuses => true
  | only s' => bool_decide (s = s')
  end.

(** [loadExerciseOrders]: the orders of the administrator's company, newest
    first, narrowed to [selectedStatus] unless it is ['all'].  [companyUser]
    is the [company_id] that the lookup in [company_users] answered.  [None]
    is a bare [return]: the [orders] state keeps what it held.  The rows of
    [employees], [grants] and [vesting_events] that the select embeds are
    shown and not computed on; they are left out. *)
Definition loadExerciseOrders (user : option uuid) (companyUser : option uuid)
    (selectedStatus : status_filter) (db : Db) : option (list (row ExerciseOrder.t)) :=
  match user, companyUser with
  | Some _, Some company_id =>
    Some (sort_by (fun r => - ExerciseOrder.created_at (cols r))
            (List.filter
               (fun r => Pos.eqb (ExerciseOrder.company_id (cols r)) company_id
                         && matches selectedStatus (ExerciseOrder.status (cols r)))
               (rows (exercise_orders db))))
  | _, _ => None
  end.

Definition count_status (s : order_status) (orders : list (row ExerciseOrder.t)) : nat :=
  length (List.filter (fun o => bool_decide (ExerciseOrder.status (cols o) = s)) orders).

(** [statusCounts], computed from the [orders] state. *)
Record StatusCounts := mkStatusCounts {
  count_all : nat;
  count_pending : nat;
  count_approved : nat;
  count_rejected : nat;
  count_processed : nat }.

Definition statusCounts (orders : list (row ExerciseOrder.t)) : StatusCounts :=
  mkStatusCounts (length orders) (count_status pending orders)
    (count_status approved orders) (count_status rejected orders)
    (count_status processed orders).

(** ** [EmployeeVestingEvents.tsx]: the list *)

Module EmployeeVestingEvents.

(** An event of the list: the columns of [VestingEventWithDetails] that the
    list filters and sorts on, beside the ones the exercise uses.
    [vesting_date] is [new Date(vesting_date).getTime()] of a valid date. *)
Record listed := mkListed {
  employee_id : uuid;
  vesting_date : Z;
  event_type : string;
  event : row VestingEventWithDetails.t }.

(** [loadVestingEvents]: the events of the signed-in employee, narrowed by
    the two filters (['all'] is [None]) and sorted by vesting date, upcoming
    first.  [None] is a bare [return].  [updateVestingEventStatuses] and
    [getAllVestingEvents] are imported from [lib/vestingEventsService], which
    is not among the sources: [allEvents] is what the latter answers, after
    the former has run. *)
Definition loadVestingEvents (user : option uuid) (allEvents : list listed)
    (selectedStatus : option vesting_event_status) (selectedEventType : option string)
    (db : Db) : option (list listed) :=
  match user with
  | None => None
  | Some user =>
    match maybeSingle_employee user db with
    | None => None
    | Some employee =>
      (* Filter to only this employee's events *)
      let employeeEvents :=
        List.filter (fun e => Pos.eqb (employee_id e) (id employee)) allEvents in
      (* Apply status filter *)
      let filteredEvents :=
        match selectedStatus with
        | None => employeeEvents
        | Some s =>
          List.filter
            (fun e => bool_decide (VestingEventWithDetails.status (cols (event e)) = s))
            employeeEvents
        end in
      (* Apply event type filter *)
      let filteredEvents :=
        match selectedEventType with
        | None => filteredEvents
        | Some t => List.filter (fun e => String.eqb (event_type e) t) filteredEvents
        end in
      (* Sort by vesting date (upcoming first) *)
      Some (sort_by vesting_date filteredEvents)
    end
  end.

End EmployeeVestingEvents.

(** ** [CashTransfers.tsx]: approval and rejection of deposits *)

Module CashTransfers.

(** The buttons of a row: [hasFinancePermission && transfer.status ===
    'pending' && ...]. *)
Definition row_actions (hasFinancePermission : bool) (transfer : row CashTransfer.t)
    : list action :=
  if hasFinancePermission
     && match CashTransfer.status (cols transfer) with ct_pending => true | _ => false end
  then [Approve; Reject] else [].

(** [.from('portfolios').select('id, cash_balance').eq('id', k).single()].
    A null [to_portfolio_id] is sent as the filter [id=eq.null], and the
    text [null] is no uuid: the store answers 22P02, invalid input syntax
    for type uuid.  A uuid that matches no row makes [single] answer its
    own error. *)
Definition single_portfolio (k : option uuid) : Call (row Portfolio.t) :=
  fun db =>
    match k with
    | Some k =>
      match portfolios db !! k with
      | Some p =>
        (inr (Row k (Portfolio.mk (Portfolio.portfolio_type p) (Portfolio.company_id p)
                       (Portfolio.employee_id p) None None None None
                       (Portfolio.cash_balance p) None None)),
         db)
      | None => (inl no_rows_returned, db)
      end
    | None => (inl invalid_text_representation, db)
    end.

Definition set_status (s : cash_transfer_status) (c : CashTransfer.t) : CashTransfer.t :=
  CashTransfer.mk (CashTransfer.transfer_number c) (CashTransfer.company_id c)
    (CashTransfer.transfer_type c) (CashTransfer.from_portfolio_id c)
    (CashTransfer.to_portfolio_id c) (CashTransfer.employee_id c)
    (CashTransfer.exercise_order_id c) (CashTransfer.amount c)
    (CashTransfer.currency c) s (CashTransfer.created_by c).

(** [.from('cash_transfers').update(patch).eq('id', k)].  Of the patch the
    row keeps [status]; [approved_by], [approved_at], [rejection_reason] and
    [updated_at] are columns that no handler reads and the row leaves out. *)
Definition update_cash_transfers (k : uuid) (patch : CashTransfer.t -> CashTransfer.t)
    : Call unit :=
  fun db => (inr tt, with_cash_transfers (alter patch k) db).

Definition handleApprove (confirm : bool) (user : option uuid) (now : timestamp)
    (transfer : row CashTransfer.t) (db : Db) : Outcome * Db :=
  if negb confirm then (Returned, db)
  else
    try_catch
      (let* user := require user User_not_found in
       (* Get portfolio to update; [single] has answered a row, so
          [if (!portfolio) throw new Error('Portfolio not found')] does not
          fire, and the row's [id] is [transfer.to_portfolio_id] *)
       let* portfolio :=
         check (single_portfolio (CashTransfer.to_portfolio_id (cols transfer))) in
       (* Update portfolio balance *)
       let newBalance :=
         or0 (Portfolio.cash_balance (cols portfolio)) + CashTransfer.amount (cols transfer) in
       check (update_portfolios (id portfolio) (mkPatch (Some newBalance) None None now)) ;;
       (* Update transfer status *)
       check (update_cash_transfers (id transfer) (set_status ct_processed)))
      db.

Definition handleReject (transferToReject : option (row CashTransfer.t))
    (rejectionReason : js_string) (user : option uuid) (now : timestamp) (db : Db)
    : Outcome * Db :=
  match transferToReject with
  | None => (Returned, db)
  | Some transferToReject =>
    if negb (truthy (trim rejectionReason))
    then (Refused "Please provide a rejection reason", db)
    else
      try_catch
        (let* user := require user User_not_found in
         check (update_cash_transfers (id transferToReject) (set_status ct_rejected)))
        db
  end.

End CashTransfers.

(** ** [queryCache.ts]: the in-memory cache

    The module keeps one [Map] from keys to [{ data, timestamp }]; here
    every function takes the map and gives it back.  [now] is what
    [Date.now()] answers at the call.  [T] is the type of the data. *)

Module QueryCache.

Record entry (T : Type) := Entry { data : T; timestamp : Z }.
Arguments Entry {T} _ _.
Arguments data {T} _.
Arguments timestamp {T} _.

(** 5 minutes *)
Definition CACHE_TTL : Z := 5 * 60 * 1000.

Definition getCached {T} (key : js_string) (now : Z) (cache : gmap (list N) (entry T))
    : option T * gmap (list N) (entry T) :=
  match cache !! key with
  | None => (None, cache)
  | Some cached =>
    if CACHE_TTL <? now - timestamp cached
    then (None, delete key cache)
    else (Some (data cached), cache)
  end.

Definition setCached {T} (key : js_string) (d : T) (now : Z)
    (cache : gmap (list N) (entry T)) : gmap (list N) (entry T) :=
  <[key := Entry d now]> cache.

Fixpoint startsWith (s p : js_string) : bool :=
  match p, s with
  | [], _ => true
  | _ :: _, [] => false
  | c :: p', d :: s' => N.eqb c d && startsWith s' p'
  end.

(** [s.includes(p)]: [p] occurs in [s] at some position. *)
Fixpoint includes (s p : js_string) : bool :=
  startsWith s p || match s with [] => false | _ :: s' => includes s' p end.

(** [clearCache(pattern?)]: an absent or empty pattern clears the map. *)
Definition clearCache {T} (pattern : option js_string) (cache : gmap (list N) (entry T))
    : gmap (list N) (entry T) :=
  match pattern with
  | Some p =>
    if truthy p
    then filter (fun kv => includes (fst kv) p = false) cache
    else ∅
  | None => ∅
  end.

Definition invalidateCache {T} (pattern : js_string) (cache : gmap (list N) (entry T))
    : gmap (list N) (entry T) :=
  clearCache (Some pattern) cache.

(** A part of a key: [string | number | null | undefined].  A number is an
    integer of the range where its string is its decimal numeral. *)
Inductive part := text (s : js_string) | number (n : Z) | null | undefined.

(** [Boolean(part)]: the empty string, 0, null and undefined are falsy. *)
Definition Boolean (p : part) : bool :=
  match p with
  | text s => truthy s
  | number n => negb (n =? 0)
  | null | undefined => false
  end.

(** The decimal numeral of an integer, as code units. *)
Definition numeral (n : Z) : js_string :=
  map N_of_ascii (list_ascii_of_string (NilZero.string_of_int (Z.to_int n))).

(** The string that [join] makes of an element. *)
Definition toString (p : part) : js_string :=
  match p with
  | text s => s
  | number n => numeral n
  | null | undefined => []
  end.

Fixpoint join (separator : js_string) (l : list js_string) : js_string :=
  match l with
  | [] => []
  | [s] => s
  | s :: l' => s ++ separator ++ join separator l'
  end.

(** [`${prefix}:${parts.filter(Boolean).join(':')}`]; 58 is the colon. *)
Definition createCacheKey (prefix : js_string) (parts : list part) : js_string :=
  prefix ++ [58%N] ++ join [58%N] (map toString (List.filter Boolean parts)).

End QueryCache.

(** ** The pages as one machine *)

(** What an administrator or an employee can ask of the pages. *)
Inductive request :=
  | ConfirmExercise (exerciseEvent : option (row VestingEventWithDetails.t))
      (cashPortfolio : option CashPortfolioState) (user : option uuid) (now : timestamp)
  | ApproveOrder (confirm : bool) (now : timestamp) (order : row ExerciseOrder.t)
  | RejectOrder (orderToReject : option (row ExerciseOrder.t))
      (rejectionReason : js_string) (now : timestamp)
  | ProcessOrder (confirm : bool) (user : option uuid) (now : timestamp)
      (order : row ExerciseOrder.t)
  | ApproveTransfer (confirm : bool) (user : option uuid) (now : timestamp)
      (transfer : row CashTransfer.t)
  | RejectTransfer (transferToReject : option (row CashTransfer.t))
      (rejectionReason : js_string) (user : option uuid) (now : timestamp).

Definition serve (r : request) (db : Db) : Outcome * Db :=
  match r with
  | ConfirmExercise exerciseEvent cashPortfolio user now =>
    handleConfirmExercise exerciseEvent cashPortfolio user now db
  | ApproveOrder confirm now order => handleApprove confirm now order db
  | RejectOrder orderToReject rejectionReason now =>
    handleReject orderToReject rejectionReason now db
  | ProcessOrder confirm user now order => handleProcess confirm user now order db
  | ApproveTransfer confirm user now transfer =>
    CashTransfers.handleApprove confirm user now transfer db
  | RejectTransfer transferToReject rejectionReason user now =>
    CashTransfers.handleReject transferToReject rejectionReason user now db
  end.

(** The store after a sequence of requests, whatever their outcomes. *)
Definition replay (requests : list request) (db : Db) : Db :=
  fold_left (fun db r => snd (serve r db)) requests db.

(** The requests that write to [portfolios]. *)
Definition writes_portfolios (r : request) : bool :=
  match r with
  | ProcessOrder _ _ _ _ | ApproveTransfer _ _ _ _ => true
  | _ => false
  end.

(** ** Invariants *)

(** [keeps I m Q]: run in a store where [I] holds, [m] leaves a store where
    [I] holds, whether it returns or throws, and what it returns satisfies
    [Q]. *)
Definition keeps (I : Db -> Prop) {A} (m : M A) (Q : A -> Prop) : Prop :=
  forall db, I db -> I (snd (m db)) /\ forall a, fst (m db) = Ok a -> Q a.

(** The constraints that the migration declares on [exercise_orders]:
    [order_number text UNIQUE], [UNIQUE(vesting_event_id)],
    [CHECK (shares_to_exercise > 0)]. *)
Definition orders_constrained (t : gmap positive ExerciseOrder.t) : Prop :=
  (forall k1 k2 o1 o2,
     t !! k1 = Some o1 -> t !! k2 = Some o2 ->
     ExerciseOrder.order_number o1 = ExerciseOrder.order_number o2 -> k1 = k2) /\
  (forall k1 k2 o1 o2,
     t !! k1 = Some o1 -> t !! k2 = Some o2 ->
     ExerciseOrder.vesting_event_id o1 = ExerciseOrder.vesting_event_id o2 -> k1 = k2) /\
  (forall k o, t !! k = Some o -> 0 < ExerciseOrder.shares_to_exercise o).

(** The constraints that the migration declares on [cash_transfers]:
    [transfer_number text UNIQUE], [CHECK (amount > 0)]. *)
Definition transfers_constrained (t : gmap positive CashTransfer.t) : Prop :=
  (forall k1 k2 c1 c2,
     t !! k1 = Some c1 -> t !! k2 = Some c2 ->
     CashTransfer.transfer_number c1 = CashTransfer.transfer_number c2 -> k1 = k2) /\
  (forall k c, t !! k = Some c -> 0 < CashTransfer.amount c).

Definition constraints_hold (db : Db) : Prop :=
  orders_constrained (exercise_orders db) /\ transfers_constrained (cash_transfers db).

(** No portfolio owes cash. *)
Definition cash_never_negative (db : Db) : Prop :=
  forall k p, portfolios db !! k = Some p -> 0 <= to_number (Portfolio.cash_balance p).

(** The amount that a request carries on its row is not negative. *)
Definition carries_no_negative_amount (r : request) : Prop :=
  match r with
  | ProcessOrder _ _ _ order => 0 <= ExerciseOrder.total_exercise_cost (cols order)
  | ApproveTransfer _ _ _ transfer => 0 <= CashTransfer.amount (cols transfer)
  | _ => True
  end.

(** * A desk of deposits, orders and events to run the pages on

    Portfolio 12 of employee 2 holds 100.00; transfer 7 is the employee's
    deposit of 250.00 into it.  Order 6 is a second, later order of
    employee 2.  The events are two of employee 2 and one of employee 9,
    out of date order. *)

Module Desk.

Definition deposit (to_portfolio_id : option uuid) (s : cash_transfer_status)
    : CashTransfer.t :=
  CashTransfer.mk (Serial 1 900) 1%positive employee_deposit None to_portfolio_id
    (Some 2%positive) None 25000 "SAR"%string s (Some 20%positive).

Definition store (s : cash_transfer_status) : Db :=
  with_cash_transfers
    (fun _ => {[ 7%positive := deposit (Some 12%positive) s ]})
    (Scenario.store 10000 approved vs_pending_exercise).

Definition later_order : ExerciseOrder.t :=
  ExerciseOrder.mk (Serial 1 2000) 1%positive 2%positive 8%positive 3%positive
    5000 125000 62500 (Some 12%positive) (Some 200000) true approved
    None None None 2000 2000.

Definition two_orders : Db :=
  with_exercise_orders (insert 6%positive later_order)
    (Scenario.store 200000 pending vs_pending_exercise).

Definition listed_event (k employee : uuid) (vesting_date : Z)
    (s : vesting_event_status) : EmployeeVestingEvents.listed :=
  EmployeeVestingEvents.mkListed employee vesting_date "time_based"%string
    (Row k (VestingEventWithDetails.mk 3%positive 10000 (Some 125000) s true)).

Definition allEvents : list EmployeeVestingEvents.listed :=
  [ listed_event 4 2 300 vs_pending_exercise;
    listed_event 14 9 200 vs_vested;
    listed_event 8 2 100 vs_vested ].

End Desk.

(** * Properties *)

(** ** Strings *)

Lemma trimStart_white (s : js_string) :
  forallb is_white_space s = true -> trimStart s = [].
Proof.
  induction s as [|c s IH]; simpl; [reflexivity|].
  intros [Hc Hs]%andb_prop. rewrite Hc. auto.
Qed.

Lemma trim_white (s : js_string) :
  forallb is_white_space s = true -> trim s = [].
Proof.
  intros H. unfold trim, trimEnd. rewrite (trimStart_white s H). reflexivity.
Qed.

(** ** The buttons of a row *)

Lemma row_actions_Approve (order : row ExerciseOrder.t) :
  In Approve (row_actions order) <-> ExerciseOrder.status (cols order) = pending.
Proof.
  unfold row_actions. repeat case_decide; simpl; split; intros Hin; try congruence; intuition congruence.
Qed.

Lemma row_actions_Process (order : row ExerciseOrder.t) :
  In Process (row_actions order) <-> ExerciseOrder.status (cols order) = approved.
Proof.
  unfold row_actions. repeat case_decide; simpl; split; intros Hin; try congruence; intuition congruence.
Qed.

(** ** Rejection *)

(** C8. [handleReject] with a reason that is empty or made of white space
    only shows the validation message and stops: the store, and with it the
    order, its rejection reason and the vesting event, is what it was. *)
Theorem handleReject_blank_reason (orderToReject : row ExerciseOrder.t)
    (rejectionReason : js_string) (now : timestamp) (db : Db) :
  forallb is_white_space rejectionReason = true ->
  handleReject (Some orderToReject) rejectionReason now db
  = (Refused "Please provide a rejection reason", db).
Proof.
  intros H. unfold handleReject. rewrite (trim_white _ H). reflexivity.
Qed.

Lemma handleReject_blank_reason_witness :
  forallb is_white_space [32; 9; 160]%N = true /\
  handleReject (Some (Row 5%positive (Scenario.order pending))) [32; 9; 160]%N 2000
               (Scenario.store 200000 pending vs_pending_exercise)
  = (Refused "Please provide a rejection reason",
     Scenario.store 200000 pending vs_pending_exercise) /\
  handleReject (Some (Row 5%positive (Scenario.order pending))) [] 2000
               (Scenario.store 200000 pending vs_pending_exercise)
  = (Refused "Please provide a rejection reason",
     Scenario.store 200000 pending vs_pending_exercise).
Proof.
  split; [reflexivity|].
  split; apply handleReject_blank_reason; reflexivity.
Defined.

(** ** Tables *)

Lemma In_rows {A} (t : gmap positive A) (r : row A) :
  In r (rows t) <-> t !! id r = Some (cols r).
Proof.
  unfold rows. rewrite in_map_iff. split.
  - intros ([k a] & <- & Hin). simpl.
    apply list_elem_of_In, elem_of_map_to_list in Hin. exact Hin.
  - intros H. exists (id r, cols r). split; [destruct r; reflexivity|].
    apply list_elem_of_In, elem_of_map_to_list. exact H.
Qed.

Lemma exists_row_true {A} (P : A -> bool) (t : gmap positive A) :
  exists_row P t = true <-> exists k a, t !! k = Some a /\ P a = true.
Proof.
  unfold exists_row. rewrite existsb_exists. split.
  - intros (r & Hin & HP). exists (id r), (cols r). split; [|exact HP].
    apply In_rows. exact Hin.
  - intros (k & a & Hk & HP). exists (Row k a). split; [|exact HP].
    apply In_rows. exact Hk.
Qed.

Lemma gen_random_uuid_fresh {A} (t : gmap positive A) :
  t !! gen_random_uuid t = None.
Proof. apply not_elem_of_dom. unfold gen_random_uuid. apply is_fresh. Qed.

(** ** Approval *)

Lemma handleApprove_run (now : timestamp) (order : row ExerciseOrder.t) (db : Db) :
  handleApprove true now order db
  = (Succeeded,
     with_exercise_orders
       (alter (fun o => OrderPatch.set_updated_at now (OrderPatch.set_status approved o))
              (id order)) db).
Proof. reflexivity. Qed.

(** C6, against the claim.  Order 5 is stored as processed.  An approval
    sent from a row that was loaded while the order was pending, or sent for
    the order as it is stored, succeeds and stores the status approved. *)
Lemma handleApprove_reopens_processed_order :
  Scenario.status_of 5 (Scenario.store 200000 processed vs_exercised) = Some processed /\
  fst (handleApprove true 2000 (Row 5%positive (Scenario.order pending))
         (Scenario.store 200000 processed vs_exercised)) = Succeeded /\
  Scenario.status_of 5
    (snd (handleApprove true 2000 (Row 5%positive (Scenario.order pending))
            (Scenario.store 200000 processed vs_exercised))) = Some approved /\
  fst (handleApprove true 2000 (Row 5%positive (Scenario.order processed))
         (Scenario.store 200000 processed vs_exercised)) = Succeeded /\
  Scenario.status_of 5
    (snd (handleApprove true 2000 (Row 5%positive (Scenario.order processed))
            (Scenario.store 200000 processed vs_exercised))) = Some approved.
Proof. repeat split; vm_compute; reflexivity. Qed.

(** C6, as amended.  The page offers Approve only on a row whose loaded
    status is pending.  [handleApprove] does not read the stored status:
    on every order it succeeds, its only effect is to set the stored row's
    status to approved (and [updated_at]) whatever the status was, and it
    moves neither cash nor shares. *)
Theorem handleApprove_sets_approved (now : timestamp) (order : row ExerciseOrder.t)
    (db : Db) :
  (In Approve (row_actions order) <-> ExerciseOrder.status (cols order) = pending) /\
  fst (handleApprove true now order db) = Succeeded /\
  exercise_orders (snd (handleApprove true now order db))
  = alter (fun o => OrderPatch.set_updated_at now (OrderPatch.set_status approved o))
          (id order) (exercise_orders db) /\
  (forall o, exercise_orders db !! id order = Some o ->
     ExerciseOrder.status <$> exercise_orders (snd (handleApprove true now order db)) !! id order
     = Some approved) /\
  portfolios (snd (handleApprove true now order db)) = portfolios db /\
  cash_transfers (snd (handleApprove true now order db)) = cash_transfers db /\
  share_transfers (snd (handleApprove true now order db)) = share_transfers db /\
  vesting_events (snd (handleApprove true now order db)) = vesting_events db.
Proof.
  rewrite handleApprove_run. simpl.
  split; [apply row_actions_Approve|].
  repeat split.
  intros o Ho. rewrite lookup_alter_eq, Ho. reflexivity.
Qed.

(** ** Rejection and resubmission *)

Lemma handleReject_run (orderToReject : row ExerciseOrder.t)
    (rejectionReason : js_string) (now : timestamp) (db : Db) :
  truthy (trim rejectionReason) = true ->
  handleReject (Some orderToReject) rejectionReason now db
  = (Succeeded,
     with_vesting_events
       (alter (fun e => VestingEvent.mk vs_pending_exercise (VestingEvent.updated_at e))
              (ExerciseOrder.vesting_event_id (cols orderToReject)))
       (with_exercise_orders
          (alter (reject_patch rejectionReason now) (id orderToReject)) db)).
Proof. intros H. unfold handleReject. rewrite H. reflexivity. Qed.

(** An order that references the vesting event blocks the insert of
    another one, whatever its status. *)
Lemma insert_exercise_orders_taken (now : timestamp) (n : NewExerciseOrder.t)
    (db : Db) (k : uuid) (o : ExerciseOrder.t) :
  exercise_orders db !! k = Some o ->
  ExerciseOrder.vesting_event_id o = NewExerciseOrder.vesting_event_id n ->
  exists e,
    insert_exercise_orders now n db = (inl e, db) /\
    In e [numeric_field_overflow; check_violation; unique_violation].
Proof.
  intros Hk Hv. unfold insert_exercise_orders.
  destruct (negb _); [simpl; eauto|].
  destruct (negb _); [simpl; eauto|].
  match goal with |- context [exists_row ?P ?t || exists_row ?Q ?t] =>
    assert (exists_row Q t = true) as ->
  end.
  { apply exists_row_true. exists k, o. split; [exact Hk|].
    simpl. rewrite Hv. apply Pos.eqb_refl. }
  rewrite orb_true_r. simpl. eauto 6.
Qed.

Lemma handleConfirmExercise_taken (exerciseEvent : row VestingEventWithDetails.t)
    (cashPortfolio : option CashPortfolioState) (user : option uuid)
    (now : timestamp) (db : Db) (k : uuid) (o : ExerciseOrder.t) :
  exercise_orders db !! k = Some o ->
  ExerciseOrder.vesting_event_id o = id exerciseEvent ->
  snd (handleConfirmExercise (Some exerciseEvent) cashPortfolio user now db) = db /\
  In (fst (handleConfirmExercise (Some exerciseEvent) cashPortfolio user now db))
     [Returned;
      Refused "Insufficient funds in your cash portfolio. Please deposit funds first.";
      Failed (StoreError numeric_field_overflow);
      Failed (StoreError check_violation);
      Failed (StoreError unique_violation)].
Proof.
  intros Hk Hv. unfold handleConfirmExercise.
  destruct user as [user|]; [|simpl; auto].
  destruct (maybeSingle_employee user db) as [employee|]; [|simpl; auto].
  destruct (insufficient_funds _ _); [simpl; auto|].
  destruct (insert_exercise_orders_taken now
              (exercise_request employee exerciseEvent cashPortfolio now) db k o Hk Hv)
    as (e & Hins & He).
  unfold try_catch, bind, check. rewrite Hins. simpl.
  split; [reflexivity|].
  simpl in He. destruct He as [<-|[<-|[<-|[]]]]; auto 8.
Qed.

(** C7, against the claim.  Order 5, for vesting event 4, is rejected: it
    becomes rejected and the event is pending_exercise.  The employee, who
    has 2000.00 against a cost of 1250.00, asks again for event 4: the
    insert is refused as a uniqueness violation and no order is added. *)
Lemma resubmission_after_reject_fails :
  fst (handleReject (Some (Row 5%positive (Scenario.order pending))) [110; 111]%N 2000
         (Scenario.store 200000 pending vs_pending_exercise)) = Succeeded /\
  Scenario.status_of 5
    (snd (handleReject (Some (Row 5%positive (Scenario.order pending))) [110; 111]%N 2000
            (Scenario.store 200000 pending vs_pending_exercise))) = Some rejected /\
  Scenario.event_status_of 4
    (snd (handleReject (Some (Row 5%positive (Scenario.order pending))) [110; 111]%N 2000
            (Scenario.store 200000 pending vs_pending_exercise))) = Some vs_pending_exercise /\
  fst (handleConfirmExercise (Some (Scenario.event 10000 (Some 125000)))
         (Some (mkCashPortfolioState (Some 12%positive) (Some 200000)))
         (Some 20%positive) 3000
         (snd (handleReject (Some (Row 5%positive (Scenario.order pending))) [110; 111]%N 2000
                 (Scenario.store 200000 pending vs_pending_exercise))))
  = Failed (StoreError unique_violation) /\
  size (exercise_orders
          (snd (handleConfirmExercise (Some (Scenario.event 10000 (Some 125000)))
                  (Some (mkCashPortfolioState (Some 12%positive) (Some 200000)))
                  (Some 20%positive) 3000
                  (snd (handleReject (Some (Row 5%positive (Scenario.order pending)))
                          [110; 111]%N 2000
                          (Scenario.store 200000 pending vs_pending_exercise))))))
  = 1%nat.
Proof. repeat split; vm_compute; reflexivity. Qed.

(** C7, as amended.  After [handleReject] succeeds the order is rejected,
    carries the reason, and its vesting event is pending_exercise, so the
    employee's page offers the exercise again; but the order is still
    stored, and [UNIQUE(vesting_event_id)] admits one order per vesting
    event whatever its status, so a new request for the same event creates
    no order: it ends in a refusal of the page or in an error of the
    insert, and the store is left as the rejection left it. *)
Theorem reject_then_resubmit (orderToReject : row ExerciseOrder.t)
    (stored : ExerciseOrder.t) (event : VestingEvent.t)
    (rejectionReason : js_string) (now : timestamp) (db : Db) :
  truthy (trim rejectionReason) = true ->
  exercise_orders db !! id orderToReject = Some stored ->
  ExerciseOrder.vesting_event_id stored = ExerciseOrder.vesting_event_id (cols orderToReject) ->
  vesting_events db !! ExerciseOrder.vesting_event_id stored = Some event ->
  exists db',
    handleReject (Some orderToReject) rejectionReason now db = (Succeeded, db') /\
    exercise_orders db' !! id orderToReject = Some (reject_patch rejectionReason now stored) /\
    ExerciseOrder.status (reject_patch rejectionReason now stored) = rejected /\
    ExerciseOrder.rejection_reason (reject_patch rejectionReason now stored)
    = Some rejectionReason /\
    VestingEvent.status <$> vesting_events db' !! ExerciseOrder.vesting_event_id stored
    = Some vs_pending_exercise /\
    forall details cashPortfolio user now',
      (VestingEventWithDetails.status details = vs_pending_exercise ->
       exercise_offered (Row (ExerciseOrder.vesting_event_id stored) details) = true) /\
      let again :=
        handleConfirmExercise
          (Some (Row (ExerciseOrder.vesting_event_id stored) details))
          cashPortfolio user now' db' in
      snd again = db' /\
      In (fst again)
         [Returned;
          Refused "Insufficient funds in your cash portfolio. Please deposit funds first.";
          Failed (StoreError numeric_field_overflow);
          Failed (StoreError check_violation);
          Failed (StoreError unique_violation)].
Proof.
  intros Hreason Hstored Hsame Hevent.
  eexists. split; [apply handleReject_run; exact Hreason|].
  assert (exercise_orders
            (with_vesting_events
               (alter (fun e => VestingEvent.mk vs_pending_exercise (VestingEvent.updated_at e))
                      (ExerciseOrder.vesting_event_id (cols orderToReject)))
               (with_exercise_orders
                  (alter (reject_patch rejectionReason now) (id orderToReject)) db))
          !! id orderToReject
          = Some (reject_patch rejectionReason now stored)) as Hafter.
  { simpl. rewrite lookup_alter_eq, Hstored. reflexivity. }
  split; [exact Hafter|].
  split; [reflexivity|].
  split; [reflexivity|].
  split.
  { simpl. rewrite <- Hsame, lookup_alter_eq, Hevent. reflexivity. }
  intros details cashPortfolio user now'. split.
  { intros Hs. unfold exercise_offered. simpl. rewrite Hs. reflexivity. }
  apply (handleConfirmExercise_taken _ _ _ _ _ _ _ Hafter). reflexivity.
Qed.

Lemma reject_then_resubmit_witness :
  exists db',
    handleReject (Some (Row 5%positive (Scenario.order pending))) [110; 111]%N 2000
      (Scenario.store 200000 pending vs_pending_exercise) = (Succeeded, db') /\
    Scenario.status_of 5 db' = Some rejected /\
    fst (handleConfirmExercise (Some (Scenario.event 10000 (Some 125000)))
           (Some (mkCashPortfolioState (Some 12%positive) (Some 200000)))
           (Some 20%positive) 3000 db')
    = Failed (StoreError unique_violation).
Proof.
  destruct (reject_then_resubmit
              (Row 5%positive (Scenario.order pending)) (Scenario.order pending)
              (VestingEvent.mk vs_pending_exercise None) [110; 111]%N 2000
              (Scenario.store 200000 pending vs_pending_exercise)
              eq_refl eq_refl eq_refl eq_refl)
    as (db' & Hrun & Hrow & _).
  exists db'. split; [exact Hrun|].
  split.
  - unfold Scenario.status_of. simpl in Hrow. rewrite Hrow. reflexivity.
  - injection Hrun as <-. vm_compute. reflexivity.
Defined.

(** ** Numbers *)

Lemma round_ties_even_near (q : Q) :
  (Qabs (inject_Z (round_ties_even q) - q) <= 1 # 2)%Q.
Proof.
  unfold round_ties_even.
  pose proof (Qfloor_le q) as Hlo. pose proof (Qlt_floor q) as Hhi.
  rewrite inject_Z_plus in Hhi. change (inject_Z 1) with 1%Q in Hhi.
  apply Qabs_Qle_condition.
  destruct (Qcompare_spec (q - inject_Z (Qfloor q)) (1 # 2)) as [He|Hl|Hg].
  - destruct (Z.even (Qfloor q)).
    + split; lra.
    + rewrite inject_Z_plus. change (inject_Z 1) with 1%Q. split; lra.
  - split; lra.
  - rewrite inject_Z_plus. change (inject_Z 1) with 1%Q. split; lra.
Qed.

Lemma round_ties_even_nonneg (q : Q) : (0 <= q)%Q -> 0 <= round_ties_even q.
Proof.
  intros Hq. unfold round_ties_even.
  assert (0 <= Qfloor q) as Hf.
  { change 0 with (Qfloor 0). apply Qfloor_resp_le. exact Hq. }
  destruct (_ ?= _)%Q; [destruct (Z.even _)| |]; lia.
Qed.

Lemma pow2_pos (e : Z) : (0 < 2 ^ e)%Q.
Proof. apply Qpower_0_lt. reflexivity. Qed.

Lemma pow2_plus (a b : Z) : (2 ^ (a + b) == 2 ^ a * 2 ^ b)%Q.
Proof. apply Qpower_plus. discriminate. Qed.

Lemma nearest_eq (q : Q) :
  (nearest q == inject_Z (round_ties_even (q / 2 ^ ulp_exponent q)) * 2 ^ ulp_exponent q)%Q.
Proof. unfold nearest. apply Qred_correct. Qed.

Lemma nearest_half_ulp (q : Q) :
  (Qabs (nearest q - q) <= (1 # 2) * 2 ^ ulp_exponent q)%Q.
Proof.
  rewrite nearest_eq.
  set (e := ulp_exponent q). set (m := round_ties_even (q / 2 ^ e)).
  pose proof (pow2_pos e) as He.
  assert (inject_Z m * 2 ^ e - q == (inject_Z m - q / 2 ^ e) * 2 ^ e)%Q as ->
    by (field; lra).
  rewrite Qabs_Qmult, (Qabs_pos (2 ^ e)) by lra.
  apply Qmult_le_compat_r; [apply round_ties_even_near | lra].
Qed.

Lemma ulp_exponent_spec (q : Q) :
  ulp_exponent q = -1074 \/ (2 ^ (ulp_exponent q + 52) <= q)%Q.
Proof.
  unfold ulp_exponent.
  destruct (Z.max_spec (Z.log2 (Qfloor (q * 2 ^ 1074)) - 1074 - 52) (-1074))
    as [[_ ->] | [Hge ->]]; [left; reflexivity|].
  right. set (s := Qfloor (q * 2 ^ 1074)) in *.
  assert (0 < s) as Hs.
  { destruct (Z.le_gt_cases s 0) as [Hle|]; [|assumption].
    rewrite (Z.log2_nonpos s Hle) in Hge. lia. }
  pose proof (proj1 (Z.log2_spec s Hs)) as Hlog.
  pose proof (Qfloor_le (q * 2 ^ 1074)) as Hfl. fold s in Hfl.
  assert (inject_Z (2 ^ Z.log2 s) <= inject_Z s)%Q as Hinj
    by (rewrite <- Zle_Qle; exact Hlog).
  rewrite Zpower_Qpower in Hinj by apply Z.log2_nonneg.
  change (inject_Z 2) with 2%Q in Hinj.
  replace (Z.log2 s - 1074 - 52 + 52) with (Z.log2 s + -1074) by lia.
  rewrite pow2_plus.
  pose proof (pow2_pos (-1074)) as Hp.
  assert (2 ^ 1074 * 2 ^ (-1074) == 1)%Q as H1 by (rewrite <- pow2_plus; reflexivity).
  apply Qle_trans with (q * 2 ^ 1074 * 2 ^ (-1074))%Q.
  - apply Qmult_le_compat_r; [lra | lra].
  - rewrite <- Qmult_assoc, H1. lra.
Qed.

Lemma unit_roundoff_pos : (0 < unit_roundoff)%Q.
Proof. apply pow2_pos. Qed.

Lemma smallest_half_pos : (0 < smallest_half)%Q.
Proof. apply pow2_pos. Qed.

Lemma nearest_error (q : Q) :
  (0 < q)%Q -> (Qabs (nearest q - q) <= q * unit_roundoff + smallest_half)%Q.
Proof.
  intros Hq. pose proof (nearest_half_ulp q) as Hh.
  pose proof unit_roundoff_pos as Hu. pose proof smallest_half_pos as Ht.
  destruct (ulp_exponent_spec q) as [He | He].
  - rewrite He in Hh.
    assert ((1 # 2) * 2 ^ (-1074) == smallest_half)%Q as E by reflexivity.
    rewrite E in Hh. nra.
  - assert ((1 # 2) * 2 ^ ulp_exponent q
            == 2 ^ (ulp_exponent q + 52) * unit_roundoff)%Q as E.
    { unfold unit_roundoff. rewrite <- pow2_plus.
      replace (ulp_exponent q + 52 + -53) with (-1 + ulp_exponent q) by lia.
      rewrite pow2_plus. reflexivity. }
    rewrite E in Hh.
    assert (2 ^ (ulp_exponent q + 52) * unit_roundoff <= q * unit_roundoff)%Q
      by (apply Qmult_le_compat_r; lra).
    lra.
Qed.

Lemma Number_value_error (q : Q) :
  (Qabs (Number_value q - q) <= Qabs q * unit_roundoff + smallest_half)%Q.
Proof.
  pose proof unit_roundoff_pos as Hu. pose proof smallest_half_pos as Ht.
  unfold Number_value. destruct (Qcompare_spec q 0) as [He|Hl|Hg].
  - rewrite He. change (Qabs (0 - 0)) with 0%Q. change (Qabs 0) with 0%Q. lra.
  - rewrite Qred_correct.
    assert (- nearest (- q) - q == - (nearest (- q) - - q))%Q as -> by ring.
    rewrite Qabs_opp, (Qabs_neg q) by lra.
    apply nearest_error. lra.
  - rewrite (Qabs_pos q) by lra. apply nearest_error. exact Hg.
Qed.

Lemma Number_value_zero (q : Q) : (q == 0)%Q -> Number_value q = 0%Q.
Proof.
  intros Hq. unfold Number_value.
  destruct (Qcompare_spec q 0) as [He|Hl|Hg]; [reflexivity|lra|lra].
Qed.

Lemma nearest_nonneg (q : Q) : (0 <= q)%Q -> (0 <= nearest q)%Q.
Proof.
  intros Hq. rewrite nearest_eq.
  pose proof (pow2_pos (ulp_exponent q)) as He.
  apply Qmult_le_0_compat; [|lra].
  change 0%Q with (inject_Z 0). rewrite <- Zle_Qle.
  apply round_ties_even_nonneg. apply Qle_shift_div_l; lra.
Qed.

Lemma Number_value_nonneg (q : Q) : (0 <= q)%Q -> (0 <= Number_value q)%Q.
Proof.
  intros Hq. unfold Number_value.
  destruct (Qcompare_spec q 0) as [He|Hl|Hg]; [lra|lra|].
  apply nearest_nonneg. lra.
Qed.

Lemma shortest_at_round_trips (x : Q) (n k : Z) (d : Q) :
  shortest_at x n k = Some d -> (Number_value d == x)%Q.
Proof.
  unfold shortest_at.
  destruct (round_trips x (inject_Z (Qfloor (x / 10 ^ (n - k))) * 10 ^ (n - k))) eqn:Hlo;
    destruct (round_trips x (inject_Z (Qfloor (x / 10 ^ (n - k)) + 1) * 10 ^ (n - k)))
      eqn:Hhi;
    try discriminate; intros [= <-];
    try (apply Qeq_bool_iff; assumption).
  destruct (_ ?= _)%Q; [destruct (Z.even _)| |]; apply Qeq_bool_iff; assumption.
Qed.

Lemma shortest_from_round_trips (more : nat) (x : Q) (n k : Z) :
  (Number_value (shortest_from more x n k) == x)%Q \/ shortest_from more x n k = x.
Proof.
  revert k. induction more as [|more IH]; intros k; simpl; [right; reflexivity|].
  destruct (shortest_at x n k) as [d|] eqn:Hd; [|apply IH].
  left. apply (shortest_at_round_trips x n k d Hd).
Qed.

Lemma shortest_decimal_error (x : Q) :
  (Qabs (x - shortest_decimal x)
   <= Qabs (shortest_decimal x) * unit_roundoff + smallest_half)%Q.
Proof.
  pose proof unit_roundoff_pos as Hu. pose proof smallest_half_pos as Ht.
  unfold shortest_decimal.
  destruct (shortest_from_round_trips 17 x (floor_log10 x + 1) 1) as [Hr | ->].
  - rewrite <- Hr at 1. apply Number_value_error.
  - assert (x - x == 0)%Q as -> by ring. change (Qabs 0) with 0%Q.
    pose proof (Qabs_nonneg x). nra.
Qed.

Lemma Number_toString_error (x : Q) :
  (Qabs (x - Number_toString x)
   <= Qabs (Number_toString x) * unit_roundoff + smallest_half)%Q.
Proof.
  pose proof unit_roundoff_pos as Hu. pose proof smallest_half_pos as Ht.
  unfold Number_toString. destruct (Qcompare_spec x 0) as [He|Hl|Hg].
  - rewrite He. change (Qabs (0 - 0)) with 0%Q. change (Qabs 0) with 0%Q. lra.
  - rewrite Qred_correct.
    assert (x - - shortest_decimal (- x) == - (- x - shortest_decimal (- x)))%Q as -> by ring.
    rewrite !Qabs_opp. apply shortest_decimal_error.
  - rewrite Qred_correct. apply shortest_decimal_error.
Qed.

Lemma round_half_away_near (n : Z) (d : positive) :
  (Qabs (inject_Z (round_half_away n (Z.pos d)) - (n # d)) <= 1 # 2)%Q.
Proof.
  apply Qabs_Qle_condition. unfold round_half_away, Qle, Qminus, Qplus, Qopp, inject_Z.
  simpl Qnum. simpl Qden.
  destruct (0 <=? n) eqn:Hn.
  - pose proof (Z.div_mod (2 * n + Z.pos d) (2 * Z.pos d) ltac:(lia)) as Hd.
    pose proof (Z.mod_pos_bound (2 * n + Z.pos d) (2 * Z.pos d) ltac:(lia)) as Hm.
    rewrite !Pos2Z.inj_mul. split; nia.
  - pose proof (Z.div_mod (2 * - n + Z.pos d) (2 * Z.pos d) ltac:(lia)) as Hd.
    pose proof (Z.mod_pos_bound (2 * - n + Z.pos d) (2 * Z.pos d) ltac:(lia)) as Hm.
    rewrite !Pos2Z.inj_mul. split; nia.
Qed.

Lemma numeric_15_2_near (d : Q) :
  (Qabs (inject_Z (numeric_15_2 d) - d * 100) <= 1 # 2)%Q.
Proof.
  unfold numeric_15_2.
  assert (d * 100 == (Qnum d * 100 # Qden d))%Q as ->.
  { destruct d as [n den]. unfold Qeq, Qmult. simpl. lia. }
  apply round_half_away_near.
Qed.

Lemma unit_roundoff_value : (unit_roundoff == 1 # 9007199254740992)%Q.
Proof. reflexivity. Qed.

Lemma smallest_half_small : (smallest_half <= 1 # 1000000000000000000000000000000000000000000000000)%Q.
Proof. apply Qle_bool_imp_le. vm_compute. reflexivity. Qed.

Lemma Qabs_diff_le (x y : Q) : (Qabs x <= Qabs y + Qabs (x - y))%Q.
Proof.
  assert (x == y + (x - y))%Q as E by ring.
  rewrite E at 1. apply Qabs_triangle.
Qed.

Lemma Qabs_sub_swap (x y : Q) : (Qabs (x - y) == Qabs (y - x))%Q.
Proof.
  assert (x - y == - (y - x))%Q as -> by ring. apply Qabs_opp.
Qed.

(** The distance between the product of two Numbers and the product of
    the decimals they were read from. *)
Lemma product_rounding (A B a b x : Q) :
  (Qabs A <= 10000000000000)%Q ->
  (Qabs B <= 100000000000)%Q ->
  (Qabs (a - A) <= Qabs A * unit_roundoff + smallest_half)%Q ->
  (Qabs (b - B) <= Qabs B * unit_roundoff + smallest_half)%Q ->
  (Qabs (x - a * b) <= Qabs (a * b) * unit_roundoff + smallest_half)%Q ->
  (Qabs (x - A * B)
   <= Qabs (A * B) * (1 # 3002399751580000) + (1 # 1000000000000000000000000000000))%Q.
Proof.
  intros HA HB Ha Hb Hx.
  pose proof smallest_half_pos as Ht0. pose proof smallest_half_small as Ht.
  rewrite unit_roundoff_value in Ha, Hb, Hx.
  generalize dependent smallest_half. intros t Ha Hb Hx Ht0 Ht.
  pose proof (Qabs_nonneg A) as HA0. pose proof (Qabs_nonneg B) as HB0.
  pose proof (Qabs_nonneg a) as Ha0.
  pose proof (Qabs_nonneg (a - A)) as Hda0. pose proof (Qabs_nonneg (b - B)) as Hdb0.
  pose proof (Qabs_diff_le a A) as Haa.
  assert (Qabs (a * b - A * B) <= Qabs a * Qabs (b - B) + Qabs B * Qabs (a - A))%Q as HE1.
  { assert (a * b - A * B == a * (b - B) + B * (a - A))%Q as -> by ring.
    eapply Qle_trans; [apply Qabs_triangle|]. rewrite !Qabs_Qmult. apply Qle_refl. }
  assert (Qabs a * Qabs (b - B)
          <= (Qabs A + (Qabs A * (1 # 9007199254740992) + t))
             * (Qabs B * (1 # 9007199254740992) + t))%Q as Hp1.
  { apply Qmult_le_compat_nonneg; split; lra. }
  assert (Qabs B * Qabs (a - A) <= Qabs B * (Qabs A * (1 # 9007199254740992) + t))%Q as Hp2.
  { apply Qmult_le_compat_nonneg; split; lra. }
  assert (Qabs A * t <= 10000000000000 * t)%Q as Hat
    by (apply Qmult_le_compat_r; lra).
  assert (Qabs B * t <= 100000000000 * t)%Q as Hbt
    by (apply Qmult_le_compat_r; lra).
  assert (t * t <= t)%Q as Htt.
  { assert (t * t <= 1 * t)%Q by (apply Qmult_le_compat_r; lra). lra. }
  assert (0 <= Qabs A * Qabs B)%Q as HP0 by (apply Qmult_le_0_compat; assumption).
  pose proof (Qabs_diff_le (a * b) (A * B)) as Hab.
  assert (Qabs (x - A * B) <= Qabs (x - a * b) + Qabs (a * b - A * B))%Q as HxAB.
  { assert (x - A * B == (x - a * b) + (a * b - A * B))%Q as -> by ring.
    apply Qabs_triangle. }
  rewrite (Qabs_Qmult A B) in *.
  assert ((Qabs A + (Qabs A * (1 # 9007199254740992) + t))
          * (Qabs B * (1 # 9007199254740992) + t)
          == Qabs A * Qabs B * ((1 # 9007199254740992)
                             + (1 # 9007199254740992) * (1 # 9007199254740992))
             + Qabs A * t * (1 + (1 # 9007199254740992))
             + Qabs B * t * (1 # 9007199254740992) + t * t)%Q as Eq1 by ring.
  assert (Qabs B * (Qabs A * (1 # 9007199254740992) + t)
          == Qabs A * Qabs B * (1 # 9007199254740992) + Qabs B * t)%Q as Eq2 by ring.
  rewrite Eq1 in Hp1. rewrite Eq2 in Hp2.
  lra.
Qed.

(** The distance between the decimal that is sent for the product of two
    Numbers and the product of the decimals they were read from. *)
Lemma product_error (A B a b x D : Q) :
  (Qabs A <= 10000000000000)%Q ->
  (Qabs B <= 100000000000)%Q ->
  (Qabs (a - A) <= Qabs A * unit_roundoff + smallest_half)%Q ->
  (Qabs (b - B) <= Qabs B * unit_roundoff + smallest_half)%Q ->
  (Qabs (x - a * b) <= Qabs (a * b) * unit_roundoff + smallest_half)%Q ->
  (Qabs (x - D) <= Qabs D * unit_roundoff + smallest_half)%Q ->
  (Qabs D <= 10000000000001)%Q ->
  (Qabs (D - A * B) <= 49 # 10000)%Q.
Proof.
  intros HA HB Ha Hb Hx HD HU.
  pose proof (product_rounding A B a b x HA HB Ha Hb Hx) as HxAB.
  pose proof smallest_half_pos as Ht0. pose proof smallest_half_small as Ht.
  rewrite unit_roundoff_value in HD.
  pose proof (Qabs_nonneg D) as HD0. pose proof (Qabs_nonneg (A * B)) as HP0.
  assert (Qabs (D - A * B) <= Qabs (x - D) + Qabs (x - A * B))%Q as HG.
  { assert (D - A * B == - (x - D) + (x - A * B))%Q as -> by ring.
    eapply Qle_trans; [apply Qabs_triangle|]. rewrite Qabs_opp. apply Qle_refl. }
  assert (Qabs (A * B) <= Qabs D + Qabs (D - A * B))%Q as HP.
  { eapply Qle_trans; [apply (Qabs_diff_le (A * B) D)|].
    rewrite (Qabs_sub_swap (A * B) D). apply Qle_refl. }
  lra.
Qed.

Lemma Qabs_column (v : Z) (scale : positive) (bound : Z) :
  Z.abs v < bound * Z.pos scale -> (Qabs (v # scale) <= inject_Z bound)%Q.
Proof.
  intros H. unfold Qabs, Qle, inject_Z. simpl. lia.
Qed.

Lemma Number_of_hundredths_error (h : Z) :
  (Qabs (Number_of_hundredths h - (h # 100))
   <= Qabs (h # 100) * unit_roundoff + smallest_half)%Q.
Proof. apply Number_value_error. Qed.

Lemma Number_of_ten_thousandths_error (p : Z) :
  (Qabs (Number_of_ten_thousandths p - (p # 10000))
   <= Qabs (p # 10000) * unit_roundoff + smallest_half)%Q.
Proof. apply Number_value_error. Qed.

(** The total that is stored for a quantity and a price is within one
    hundredth of their exact product, when all three fit their columns. *)
Lemma stored_total_near (h p : Z) :
  Z.abs h < 10 ^ 15 -> Z.abs p < 10 ^ 15 ->
  Z.abs (numeric_15_2
           (Number_toString
              (Number_multiply (Number_of_hundredths h) (Number_of_ten_thousandths p))))
  < 10 ^ 15 ->
  -10000 <= 10000 * numeric_15_2
                      (Number_toString
                         (Number_multiply (Number_of_hundredths h)
                            (Number_of_ten_thousandths p)))
            - h * p <= 10000.
Proof.
  intros Hh Hp.
  set (x := Number_multiply (Number_of_hundredths h) (Number_of_ten_thousandths p)).
  set (D := Number_toString x). set (S := numeric_15_2 D). intros HS.
  pose proof (numeric_15_2_near D) as Hnear. fold S in Hnear.
  apply Qabs_Qle_condition in Hnear as [Hn1 Hn2].
  assert (Qabs D <= 10000000000001)%Q as HD.
  { apply Qabs_Qle_condition.
    assert (inject_Z (-(10 ^ 15)) <= inject_Z S <= inject_Z (10 ^ 15))%Q as [HS1 HS2]
      by (rewrite <- !Zle_Qle; lia).
    change (inject_Z (-(10 ^ 15))) with (-(1000000000000000))%Q in HS1.
    change (inject_Z (10 ^ 15)) with 1000000000000000%Q in HS2.
    split; lra. }
  pose proof (product_error (h # 100) (p # 10000) (Number_of_hundredths h)
                (Number_of_ten_thousandths p) x D) as Herr.
  assert (Qabs (D - (h # 100) * (p # 10000)) <= 49 # 10000)%Q as HE.
  { apply Herr.
    - apply (Qabs_column h 100 10000000000000). lia.
    - apply (Qabs_column p 10000 100000000000). lia.
    - apply Number_of_hundredths_error.
    - apply Number_of_ten_thousandths_error.
    - apply Number_value_error.
    - apply Number_toString_error.
    - exact HD. }
  apply Qabs_Qle_condition in HE as [HE1 HE2].
  assert ((h # 100) * (p # 10000) == inject_Z (h * p) * (1 # 1000000))%Q as Eprod.
  { unfold Qeq, Qmult, inject_Z. simpl. lia. }
  rewrite Eprod in HE1, HE2.
  assert (inject_Z (-10000) <= inject_Z (10000 * S - h * p) <= inject_Z 10000)%Q as [H1 H2].
  { unfold Z.sub. rewrite inject_Z_plus, inject_Z_mult, inject_Z_opp.
    change (inject_Z 10000) with 10000%Q. change (inject_Z (-10000)) with (-(10000))%Q.
    split; lra. }
  rewrite <- Zle_Qle in H1, H2. lia.
Qed.

Lemma two_to_minus_50 : (2 ^ (-50) == 1 # 1125899906842624)%Q.
Proof. reflexivity. Qed.

(** A balance that is short of the exact cost by more than one part in
    2^50 is below the cost that the page computes. *)
Lemma short_balance_is_insufficient (balance h p : Z) :
  0 <= balance -> Z.abs h < 10 ^ 15 -> Z.abs p < 10 ^ 15 ->
  ((balance # 100) * (1 + 2 ^ (-50)) < (h # 100) * (p # 10000))%Q ->
  Number_lessThan (Number_of_hundredths balance)
    (Number_multiply (Number_of_hundredths h) (Number_of_ten_thousandths p)) = true.
Proof.
  intros Hb Hh Hp Hshort. rewrite two_to_minus_50 in Hshort.
  unfold Number_lessThan.
  set (x := Number_multiply (Number_of_hundredths h) (Number_of_ten_thousandths p)).
  assert (Number_of_hundredths balance < x)%Q as Hlt;
    [|destruct (Qcompare_spec (Number_of_hundredths balance) x); [lra | reflexivity | lra]].
  pose proof (product_rounding (h # 100) (p # 10000) (Number_of_hundredths h)
                (Number_of_ten_thousandths p) x
                (Qabs_column h 100 10000000000000 ltac:(lia))
                (Qabs_column p 10000 100000000000 ltac:(lia))
                (Number_of_hundredths_error h) (Number_of_ten_thousandths_error p)
                (Number_value_error _)) as Hx.
  pose proof (Number_of_hundredths_error balance) as Hbal.
  pose proof smallest_half_pos as Ht0. pose proof smallest_half_small as Ht.
  rewrite unit_roundoff_value in Hbal.
  assert (0 <= balance # 100)%Q as Hb0 by (unfold Qle; simpl; lia).
  rewrite (Qabs_pos (balance # 100)) in Hbal by exact Hb0.
  assert (0 < (h # 100) * (p # 10000))%Q as Hpos by lra.
  rewrite (Qabs_pos ((h # 100) * (p # 10000))) in Hx by lra.
  assert (1 # 1000000 <= (h # 100) * (p # 10000))%Q as Hbig.
  { revert Hpos. unfold Qlt, Qle, Qmult. simpl. nia. }
  apply Qabs_Qle_condition in Hx as [Hx1 Hx2].
  apply Qabs_Qle_condition in Hbal as [Hb1 Hb2].
  lra.
Qed.

(** ** Creation *)

Lemma handleConfirmExercise_Succeeded (exerciseEvent : row VestingEventWithDetails.t)
    (cashPortfolio : option CashPortfolioState) (user : option uuid)
    (now : timestamp) (db db' : Db) :
  handleConfirmExercise (Some exerciseEvent) cashPortfolio user now db = (Succeeded, db') ->
  exists u employee,
    user = Some u /\
    maybeSingle_employee u db = Some employee /\
    insufficient_funds cashPortfolio (totalCost exerciseEvent) = false /\
    db' = with_new_order now (exercise_request employee exerciseEvent cashPortfolio now) db.
Proof.
  unfold handleConfirmExercise.
  destruct user as [u|]; [|discriminate].
  destruct (maybeSingle_employee u db) as [employee|] eqn:He; [|discriminate].
  destruct (insufficient_funds _ _) eqn:Hf; [discriminate|].
  unfold try_catch, bind, check, unchecked, insert_exercise_orders.
  repeat (match goal with |- context [if ?b then _ else _] => destruct b end;
          try discriminate).
  simpl. intros [= <-]. exists u, employee. repeat split; assumption.
Qed.

Lemma insert_exercise_orders_accepted (now : timestamp) (n : NewExerciseOrder.t) (db : Db) :
  Z.abs (NewExerciseOrder.shares_to_exercise n) < 10 ^ 15 ->
  Z.abs (NewExerciseOrder.exercise_price_per_share n) < 10 ^ 15 ->
  Z.abs (numeric_15_2 (Number_toString (NewExerciseOrder.total_exercise_cost n)))
  < 10 ^ 15 ->
  Z.abs (or0 (NewExerciseOrder.cash_balance_at_order n)) < 10 ^ 15 ->
  0 < NewExerciseOrder.shares_to_exercise n ->
  (forall k o, exercise_orders db !! k = Some o ->
     ExerciseOrder.order_number o <> NewExerciseOrder.order_number n /\
     ExerciseOrder.vesting_event_id o <> NewExerciseOrder.vesting_event_id n) ->
  insert_exercise_orders now n db
  = (inr (Row (gen_random_uuid (exercise_orders db)) (stored_order now n)),
     with_exercise_orders
       (insert (gen_random_uuid (exercise_orders db)) (stored_order now n)) db).
Proof.
  intros Hs Hp Ht Hc Hpos Hfree. unfold insert_exercise_orders, fits_15_digits. simpl.
  rewrite !(proj2 (Z.ltb_lt _ _)) by assumption. simpl.
  match goal with |- context [exists_row ?P ?t || exists_row ?Q ?t] =>
    assert (exists_row P t = false) as ->; [|assert (exists_row Q t = false) as ->]
  end.
  - apply not_true_is_false. intros (k & o & Hk & HP)%exists_row_true.
    apply bool_decide_eq_true in HP. destruct (Hfree k o Hk) as [Hn _]. auto.
  - apply not_true_is_false. intros (k & o & Hk & HP)%exists_row_true.
    apply Pos.eqb_eq in HP. destruct (Hfree k o Hk) as [_ Hn]. auto.
  - reflexivity.
Qed.

Lemma handleConfirmExercise_run (exerciseEvent : row VestingEventWithDetails.t)
    (cashPortfolio : option CashPortfolioState) (user : uuid) (employee : row Employee.t)
    (now : timestamp) (db : Db) (stored : row ExerciseOrder.t) (db1 : Db) :
  maybeSingle_employee user db = Some employee ->
  insufficient_funds cashPortfolio (totalCost exerciseEvent) = false ->
  insert_exercise_orders now (exercise_request employee exerciseEvent cashPortfolio now) db
  = (inr stored, db1) ->
  handleConfirmExercise (Some exerciseEvent) cashPortfolio (Some user) now db
  = (Succeeded, with_vesting_events (alter pending_exercise_patch (id exerciseEvent)) db1).
Proof.
  intros He Hf Hi. unfold handleConfirmExercise. rewrite He, Hf.
  unfold try_catch, bind, check, unchecked. rewrite Hi. reflexivity.
Qed.

Lemma new_order_lookup (now : timestamp) (n : NewExerciseOrder.t) (db : Db) :
  exercise_orders db !! gen_random_uuid (exercise_orders db) = None /\
  exercise_orders (with_new_order now n db) !! gen_random_uuid (exercise_orders db)
  = Some (stored_order now n).
Proof.
  split; [apply gen_random_uuid_fresh|].
  unfold with_new_order. simpl. apply lookup_insert_eq.
Qed.

Lemma handleConfirmExercise_accepted (exerciseEvent : row VestingEventWithDetails.t)
    (cashPortfolio : option CashPortfolioState) (user : option uuid)
    (now : timestamp) (db db' : Db) :
  handleConfirmExercise (Some exerciseEvent) cashPortfolio user now db = (Succeeded, db') ->
  0 < VestingEventWithDetails.shares_to_vest (cols exerciseEvent) < 10 ^ 15 /\
  Z.abs (or0 (VestingEventWithDetails.exercise_price (cols exerciseEvent))) < 10 ^ 15 /\
  Z.abs (numeric_15_2 (Number_toString (totalCost exerciseEvent))) < 10 ^ 15.
Proof.
  unfold handleConfirmExercise.
  destruct user as [u|]; [|discriminate].
  destruct (maybeSingle_employee u db) as [employee|]; [|discriminate].
  destruct (insufficient_funds _ _); [discriminate|].
  unfold try_catch, bind, check, unchecked, insert_exercise_orders. cbv zeta.
  destruct (fits_15_digits _ && fits_15_digits _ && fits_15_digits _ && fits_15_digits _)
    eqn:Hfit; [|discriminate].
  cbn [negb].
  destruct (0 <? _) eqn:Hpos; [|discriminate].
  intros _.
  apply andb_prop in Hfit as [Hfit _].
  apply andb_prop in Hfit as [Hfit Ht]. apply andb_prop in Hfit as [Hs Hp].
  unfold fits_15_digits in Hs, Hp, Ht.
  apply Z.ltb_lt in Hs, Hp, Ht, Hpos.
  cbn [stored_order exercise_request ExerciseOrder.shares_to_exercise
       ExerciseOrder.exercise_price_per_share ExerciseOrder.total_exercise_cost
       NewExerciseOrder.shares_to_exercise NewExerciseOrder.exercise_price_per_share
       NewExerciseOrder.total_exercise_cost] in Hs, Hp, Ht, Hpos.
  repeat split; try assumption. lia.
Qed.

(** C5, against the claim.  The employee holds 500.00 and asks to exercise
    100 shares at 12.50, 1250.00 in total.  The page shows the
    insufficient-funds message and the store keeps no order. *)
Lemma underfunded_request_is_not_recorded :
  loadCashPortfolio 2 (Scenario.store_without_order 50000)
  = mkCashPortfolioState (Some 12%positive) (Some 50000) /\
  totalCost (Scenario.event 10000 (Some 125000)) = 1250%Q /\
  handleConfirmExercise (Some (Scenario.event 10000 (Some 125000)))
    (Some (loadCashPortfolio 2 (Scenario.store_without_order 50000)))
    (Some 20%positive) 3000 (Scenario.store_without_order 50000)
  = (Refused "Insufficient funds in your cash portfolio. Please deposit funds first.",
     Scenario.store_without_order 50000) /\
  exercise_orders (Scenario.store_without_order 50000) = ∅.
Proof. repeat split; vm_compute; reflexivity. Qed.

(** The funds check compares doubles.  A balance of 0.30 covers three
    shares at 0.10, yet the request is refused: the product of the
    doubles is 0.30000000000000004.  A balance of 30500050992.58 is short
    of 6393724.34 shares at 4770.3106, which cost 30500050992.580004, yet
    the check passes: the product of the doubles is the double of the
    balance. *)
Example funds_check_compares_doubles :
  ((30 # 100) == (300 # 100) * (1000 # 10000))%Q /\
  insufficient_funds (Some (mkCashPortfolioState (Some 12%positive) (Some 30)))
    (totalCost (Scenario.event 300 (Some 1000))) = true /\
  ((3050005099258 # 100) < (639372434 # 100) * (47703106 # 10000))%Q /\
  insufficient_funds (Some (mkCashPortfolioState (Some 12%positive) (Some 3050005099258)))
    (totalCost (Scenario.event 639372434 (Some 47703106))) = false.
Proof. repeat split; vm_compute; reflexivity. Qed.

(** C5, as amended.  For a signed-in employee whose cash balance is below
    the total exercise cost, [handleConfirmExercise] shows the
    insufficient-funds message and leaves the store as it was: no order is
    recorded.  The balance and the cost are compared as the page holds
    them, as doubles: the request is blocked whenever that comparison says
    so, and in any case when the balance is short of the exact cost by
    more than one part in 2^50.  An order is recorded only when the check
    passes, so only when the exact cost is within that margin of the
    balance, and then in status pending with [sufficient_funds = true]. *)
Theorem underfunded_request_blocked (exerciseEvent : row VestingEventWithDetails.t)
    (cashPortfolio : CashPortfolioState) (user : uuid) (employee : row Employee.t)
    (now : timestamp) (db : Db) :
  maybeSingle_employee user db = Some employee ->
  0 <= to_number (cp_cash_balance cashPortfolio) ->
  Z.abs (VestingEventWithDetails.shares_to_vest (cols exerciseEvent)) < 10 ^ 15 ->
  Z.abs (or0 (VestingEventWithDetails.exercise_price (cols exerciseEvent))) < 10 ^ 15 ->
  (((to_number (cp_cash_balance cashPortfolio) # 100) * (1 + 2 ^ (-50))
    < (VestingEventWithDetails.shares_to_vest (cols exerciseEvent) # 100)
      * (or0 (VestingEventWithDetails.exercise_price (cols exerciseEvent)) # 10000))%Q ->
   handleConfirmExercise (Some exerciseEvent) (Some cashPortfolio) (Some user) now db
   = (Refused "Insufficient funds in your cash portfolio. Please deposit funds first.", db))
  /\
  (Number_lessThan (Number_of_hundredths (to_number (cp_cash_balance cashPortfolio)))
     (totalCost exerciseEvent) = true ->
   handleConfirmExercise (Some exerciseEvent) (Some cashPortfolio) (Some user) now db
   = (Refused "Insufficient funds in your cash portfolio. Please deposit funds first.", db))
  /\
  (forall db',
     handleConfirmExercise (Some exerciseEvent) (Some cashPortfolio) (Some user) now db
     = (Succeeded, db') ->
     Number_lessThan (Number_of_hundredths (to_number (cp_cash_balance cashPortfolio)))
       (totalCost exerciseEvent) = false /\
     ((VestingEventWithDetails.shares_to_vest (cols exerciseEvent) # 100)
      * (or0 (VestingEventWithDetails.exercise_price (cols exerciseEvent)) # 10000)
      <= (to_number (cp_cash_balance cashPortfolio) # 100) * (1 + 2 ^ (-50)))%Q /\
     exists k o,
       exercise_orders db !! k = None /\
       exercise_orders db' !! k = Some o /\
       ExerciseOrder.status o = pending /\
       ExerciseOrder.sufficient_funds o = true /\
       ExerciseOrder.cash_balance_at_order o = cp_cash_balance cashPortfolio).
Proof.
  intros He Hbal Hshares Hprice.
  assert (Number_lessThan (Number_of_hundredths (to_number (cp_cash_balance cashPortfolio)))
            (totalCost exerciseEvent) = true ->
          handleConfirmExercise (Some exerciseEvent) (Some cashPortfolio) (Some user) now db
          = (Refused "Insufficient funds in your cash portfolio. Please deposit funds first.",
             db)) as Hcheck.
  { intros Hlt. unfold handleConfirmExercise. rewrite He.
    unfold insufficient_funds. rewrite Hlt. reflexivity. }
  split; [|split; [exact Hcheck|]].
  - intros Hshort. apply Hcheck.
    apply short_balance_is_insufficient; assumption.
  - intros db' Hrun.
    apply handleConfirmExercise_Succeeded in Hrun as (u & e & _ & _ & Hf & ->).
    unfold insufficient_funds in Hf.
    split; [exact Hf|]. split.
    + apply Qnot_lt_le. intros Hshort. unfold totalCost in Hf.
      rewrite (short_balance_is_insufficient _ _ _ Hbal Hshares Hprice Hshort) in Hf.
      discriminate.
    + destruct (new_order_lookup now
                  (exercise_request e exerciseEvent (Some cashPortfolio) now) db)
        as [Hnone Hsome].
      eexists _, _. split; [exact Hnone|]. split; [exact Hsome|].
      repeat split.
Qed.

Lemma underfunded_request_blocked_witness :
  maybeSingle_employee 20 (Scenario.store_without_order 50000)
  = Some (Row 2%positive (Employee.mk (Some 20%positive) 1%positive None)) /\
  ((50000 # 100) * (1 + 2 ^ (-50)) < (10000 # 100) * (125000 # 10000))%Q /\
  handleConfirmExercise (Some (Scenario.event 10000 (Some 125000)))
    (Some (mkCashPortfolioState (Some 12%positive) (Some 50000)))
    (Some 20%positive) 3000 (Scenario.store_without_order 50000)
  = (Refused "Insufficient funds in your cash portfolio. Please deposit funds first.",
     Scenario.store_without_order 50000).
Proof.
  split; [reflexivity|]. split; [reflexivity|].
  apply (underfunded_request_blocked (Scenario.event 10000 (Some 125000))
           (mkCashPortfolioState (Some 12%positive) (Some 50000)) 20%positive
           (Row 2%positive (Employee.mk (Some 20%positive) 1%positive None))
           3000 (Scenario.store_without_order 50000) eq_refl);
    [simpl; lia | simpl; lia | simpl; lia | reflexivity].
Defined.

(** C9, against the claim.  One share and a half at 0.35 each: the request
    is accepted and the stored order has quantity 1.50, price 0.3500 and
    total 0.52, while 1.50 × 0.35 is 0.525: the product of the doubles is
    0.5249999999999999.  Three shares at 0.3333 each are stored with total
    1.00, while 3.00 × 0.3333 is 0.9999. *)
Lemma stored_total_is_not_the_exact_product :
  fst (handleConfirmExercise (Some (Scenario.event 150 (Some 3500)))
         (Some (mkCashPortfolioState (Some 12%positive) (Some 200000)))
         (Some 20%positive) 3000 (Scenario.store_without_order 200000)) = Succeeded /\
  order_amounts
    (snd (handleConfirmExercise (Some (Scenario.event 150 (Some 3500)))
            (Some (mkCashPortfolioState (Some 12%positive) (Some 200000)))
            (Some 20%positive) 3000 (Scenario.store_without_order 200000)))
  = [(150, 3500, 52)] /\
  150 * 3500 = 525000 /\
  10000 * 52 = 520000 /\
  Number_toString (totalCost (Scenario.event 150 (Some 3500)))
  = (5249999999999999 # 10000000000000000)%Q /\
  fst (handleConfirmExercise (Some (Scenario.event 300 (Some 3333)))
         (Some (mkCashPortfolioState (Some 12%positive) (Some 200000)))
         (Some 20%positive) 3000 (Scenario.store_without_order 200000)) = Succeeded /\
  order_amounts
    (snd (handleConfirmExercise (Some (Scenario.event 300 (Some 3333)))
            (Some (mkCashPortfolioState (Some 12%positive) (Some 200000)))
            (Some 20%positive) 3000 (Scenario.store_without_order 200000)))
  = [(300, 3333, 100)] /\
  300 * 3333 = 999900 /\
  10000 * 100 = 1000000.
Proof. repeat split; vm_compute; reflexivity. Qed.

(** C9, as amended.  At creation the stored [total_exercise_cost] is what
    the [numeric(15,2)] column makes of the double product of
    [shares_to_exercise] and [exercise_price_per_share]: it is within one
    hundredth of their exact product, without being that product or its
    rounding in every case; 100 shares at 12.50 give exactly 1250.00. *)
Theorem total_exercise_cost_rounded (exerciseEvent : row VestingEventWithDetails.t)
    (cashPortfolio : option CashPortfolioState) (user : option uuid)
    (now : timestamp) (db db' : Db) :
  handleConfirmExercise (Some exerciseEvent) cashPortfolio user now db = (Succeeded, db') ->
  exists k o,
    exercise_orders db !! k = None /\
    exercise_orders db' !! k = Some o /\
    ExerciseOrder.shares_to_exercise o
    = VestingEventWithDetails.shares_to_vest (cols exerciseEvent) /\
    ExerciseOrder.exercise_price_per_share o
    = or0 (VestingEventWithDetails.exercise_price (cols exerciseEvent)) /\
    ExerciseOrder.total_exercise_cost o
    = numeric_15_2
        (Number_toString
           (Number_multiply
              (Number_of_hundredths (ExerciseOrder.shares_to_exercise o))
              (Number_of_ten_thousandths (ExerciseOrder.exercise_price_per_share o)))) /\
    -10000 <= 10000 * ExerciseOrder.total_exercise_cost o
              - ExerciseOrder.shares_to_exercise o * ExerciseOrder.exercise_price_per_share o
           <= 10000 /\
    (ExerciseOrder.shares_to_exercise o = 10000 ->
     ExerciseOrder.exercise_price_per_share o = 125000 ->
     ExerciseOrder.total_exercise_cost o = 125000).
Proof.
  intros Hrun.
  pose proof (handleConfirmExercise_accepted _ _ _ _ _ _ Hrun) as (Hs & Hp & Ht).
  apply handleConfirmExercise_Succeeded in Hrun as (u & e & _ & _ & _ & ->).
  destruct (new_order_lookup now (exercise_request e exerciseEvent cashPortfolio now) db)
    as [Hnone Hsome].
  eexists _, _. split; [exact Hnone|]. split; [exact Hsome|].
  cbn [stored_order exercise_request ExerciseOrder.shares_to_exercise
       ExerciseOrder.exercise_price_per_share ExerciseOrder.total_exercise_cost
       NewExerciseOrder.shares_to_exercise NewExerciseOrder.exercise_price_per_share
       NewExerciseOrder.total_exercise_cost].
  split; [reflexivity|]. split; [reflexivity|]. split; [reflexivity|].
  split; [apply stored_total_near; [lia | exact Hp | exact Ht]|].
  intros Hs' Hp'. unfold totalCost. rewrite Hs', Hp'. vm_compute. reflexivity.
Qed.

Lemma total_exercise_cost_rounded_witness :
  handleConfirmExercise (Some (Scenario.event 10000 (Some 125000)))
    (Some (mkCashPortfolioState (Some 12%positive) (Some 200000)))
    (Some 20%positive) 3000 (Scenario.store_without_order 200000)
  = (Succeeded,
     snd (handleConfirmExercise (Some (Scenario.event 10000 (Some 125000)))
            (Some (mkCashPortfolioState (Some 12%positive) (Some 200000)))
            (Some 20%positive) 3000 (Scenario.store_without_order 200000))) /\
  exists k o,
    exercise_orders
      (snd (handleConfirmExercise (Some (Scenario.event 10000 (Some 125000)))
              (Some (mkCashPortfolioState (Some 12%positive) (Some 200000)))
              (Some 20%positive) 3000 (Scenario.store_without_order 200000))) !! k
    = Some o /\
    ExerciseOrder.shares_to_exercise o = 10000 /\
    ExerciseOrder.exercise_price_per_share o = 125000 /\
    ExerciseOrder.total_exercise_cost o = 125000.
Proof.
  assert (handleConfirmExercise (Some (Scenario.event 10000 (Some 125000)))
            (Some (mkCashPortfolioState (Some 12%positive) (Some 200000)))
            (Some 20%positive) 3000 (Scenario.store_without_order 200000)
          = (Succeeded,
             snd (handleConfirmExercise (Some (Scenario.event 10000 (Some 125000)))
                    (Some (mkCashPortfolioState (Some 12%positive) (Some 200000)))
                    (Some 20%positive) 3000 (Scenario.store_without_order 200000))))
    as Hrun by (vm_compute; reflexivity).
  split; [exact Hrun|].
  destruct (total_exercise_cost_rounded _ _ _ _ _ _ Hrun)
    as (k & o & _ & Ho & Hs & Hp & _ & _ & Hex).
  exists k, o. split; [exact Ho|].
  split; [exact Hs|]. split; [exact Hp|].
  apply Hex; [exact Hs | exact Hp].
Defined.

(** C10.  A vesting event whose exercise price is null does not make the
    creation fail: the price is taken as 0, the cost is 0 and the funds
    check passes whatever (non-negative) balance the employee has; when the
    employee is signed in, the quantity is positive and no order exists yet
    for the event, the order is created with price 0 and total 0. *)
Theorem null_price_is_zero (exerciseEvent : row VestingEventWithDetails.t)
    (cashPortfolio : CashPortfolioState) (user : uuid) (employee : row Employee.t)
    (now : timestamp) (db : Db) :
  VestingEventWithDetails.exercise_price (cols exerciseEvent) = None ->
  maybeSingle_employee user db = Some employee ->
  0 <= to_number (cp_cash_balance cashPortfolio) < 10 ^ 15 ->
  0 < VestingEventWithDetails.shares_to_vest (cols exerciseEvent) < 10 ^ 15 ->
  (forall k o, exercise_orders db !! k = Some o ->
     ExerciseOrder.order_number o <> Serial (Employee.company_id (cols employee)) now /\
     ExerciseOrder.vesting_event_id o <> id exerciseEvent) ->
  totalCost exerciseEvent = 0%Q /\
  insufficient_funds (Some cashPortfolio) (totalCost exerciseEvent) = false /\
  exists k o db',
    handleConfirmExercise (Some exerciseEvent) (Some cashPortfolio) (Some user) now db
    = (Succeeded, db') /\
    exercise_orders db !! k = None /\
    exercise_orders db' !! k = Some o /\
    ExerciseOrder.vesting_event_id o = id exerciseEvent /\
    ExerciseOrder.shares_to_exercise o
    = VestingEventWithDetails.shares_to_vest (cols exerciseEvent) /\
    ExerciseOrder.exercise_price_per_share o = 0 /\
    ExerciseOrder.total_exercise_cost o = 0 /\
    ExerciseOrder.status o = pending.
Proof.
  intros Hnull He Hcash Hshares Hfree.
  assert (totalCost exerciseEvent = 0%Q) as Hcost.
  { unfold totalCost, Number_multiply. rewrite Hnull.
    change (Number_of_ten_thousandths (or0 None)) with 0%Q.
    apply Number_value_zero. ring. }
  assert (insufficient_funds (Some cashPortfolio) (totalCost exerciseEvent) = false) as Hf.
  { rewrite Hcost. unfold insufficient_funds, Number_lessThan.
    assert (0 <= Number_of_hundredths (to_number (cp_cash_balance cashPortfolio)))%Q as Hb.
    { apply Number_value_nonneg. unfold Qle. simpl. lia. }
    destruct (Qcompare_spec
                (Number_of_hundredths (to_number (cp_cash_balance cashPortfolio))) 0);
      [reflexivity | lra | reflexivity]. }
  split; [exact Hcost|]. split; [exact Hf|].
  pose (n := exercise_request employee exerciseEvent (Some cashPortfolio) now).
  assert (insert_exercise_orders now n db
          = (inr (Row (gen_random_uuid (exercise_orders db)) (stored_order now n)),
             with_exercise_orders
               (insert (gen_random_uuid (exercise_orders db)) (stored_order now n)) db))
    as Hins.
  { apply insert_exercise_orders_accepted; subst n;
      cbn [exercise_request NewExerciseOrder.shares_to_exercise
           NewExerciseOrder.exercise_price_per_share NewExerciseOrder.total_exercise_cost
           NewExerciseOrder.cash_balance_at_order NewExerciseOrder.order_number
           NewExerciseOrder.vesting_event_id state_cash_balance].
    - lia.
    - rewrite Hnull. simpl. lia.
    - rewrite Hcost. vm_compute. reflexivity.
    - unfold to_number in Hcash. unfold or0. lia.
    - lia.
    - exact Hfree. }
  destruct (new_order_lookup now n db) as [Hnone Hsome].
  eexists _, _, _.
  split; [exact (handleConfirmExercise_run _ _ _ _ _ _ _ _ He Hf Hins)|].
  split; [exact Hnone|]. split; [exact Hsome|].
  subst n.
  cbn [stored_order exercise_request ExerciseOrder.shares_to_exercise
       ExerciseOrder.exercise_price_per_share ExerciseOrder.total_exercise_cost
       ExerciseOrder.vesting_event_id ExerciseOrder.status
       NewExerciseOrder.shares_to_exercise NewExerciseOrder.exercise_price_per_share
       NewExerciseOrder.total_exercise_cost NewExerciseOrder.vesting_event_id
       NewExerciseOrder.status].
  rewrite Hnull, Hcost. repeat split.
Qed.

Lemma null_price_is_zero_witness :
  VestingEventWithDetails.exercise_price (cols (Scenario.event 10000 None)) = None /\
  exists k o db',
    handleConfirmExercise (Some (Scenario.event 10000 None))
      (Some (mkCashPortfolioState (Some 12%positive) (Some 0)))
      (Some 20%positive) 3000 (Scenario.store_without_order 0)
    = (Succeeded, db') /\
    exercise_orders db' !! k = Some o /\
    ExerciseOrder.exercise_price_per_share o = 0 /\
    ExerciseOrder.total_exercise_cost o = 0 /\
    ExerciseOrder.status o = pending.
Proof.
  split; [reflexivity|].
  destruct (null_price_is_zero (Scenario.event 10000 None)
              (mkCashPortfolioState (Some 12%positive) (Some 0)) 20%positive
              (Row 2%positive (Employee.mk (Some 20%positive) 1%positive None))
              3000 (Scenario.store_without_order 0))
    as (_ & _ & k & o & db' & Hrun & _ & Ho & _ & _ & Hp & Ht & Hs).
  - reflexivity.
  - reflexivity.
  - simpl. lia.
  - simpl. lia.
  - intros k o Hk. vm_compute in Hk. discriminate.
  - exists k, o, db'. auto.
Defined.

(** * Processing *)

(** ** Running a handler *)

Lemma bind_inv {A B} (m : M A) (k : A -> M B) (db db' : Db) (r : Result B) :
  bind m k db = (r, db') ->
  (exists e, m db = (Throw e, db') /\ r = Throw e) \/
  (exists a db1, m db = (Ok a, db1) /\ k a db1 = (r, db')).
Proof.
  unfold bind. destruct (m db) as [[a|e] db1]; intros H.
  - right. eauto.
  - left. injection H as <- <-. eauto.
Qed.

Lemma bind_Ok {A B} (m : M A) (k : A -> M B) (db db' : Db) (b : B) :
  bind m k db = (Ok b, db') ->
  exists a db1, m db = (Ok a, db1) /\ k a db1 = (Ok b, db').
Proof.
  intros [(e & _ & [=]) | H]%bind_inv. exact H.
Qed.

Lemma bind_run {A B} (m : M A) (k : A -> M B) (db db1 : Db) (a : A) :
  m db = (Ok a, db1) -> bind m k db = k a db1.
Proof. intros H. unfold bind. rewrite H. reflexivity. Qed.

Lemma require_inv {A} (x : option A) (e : Error) (db db' : Db) (r : Result A) :
  require x e db = (r, db') ->
  db' = db /\ (x = None /\ r = Throw e \/ exists a, x = Some a /\ r = Ok a).
Proof.
  unfold require. destruct x as [a|]; intros [= <- <-]; eauto.
Qed.

Lemma guard_inv (b : bool) (e : Error) (db db' : Db) (r : Result unit) :
  guard b e db = (r, db') ->
  db' = db /\ (b = true /\ r = Throw e \/ b = false /\ r = Ok tt).
Proof.
  unfold guard. destruct b; intros [= <- <-]; eauto.
Qed.

Lemma check_select_portfolios (columns : Portfolio.t -> Portfolio.t) (companyId : uuid)
    (db : Db) :
  check (select_portfolios columns companyId) db = (Ok (select_rows columns companyId db), db).
Proof. reflexivity. Qed.

(** ** What a select returns *)

Lemma select_rows_In (columns : Portfolio.t -> Portfolio.t) (companyId : uuid) (db : Db)
    (r : row Portfolio.t) :
  In r (select_rows columns companyId db) ->
  exists p, portfolios db !! id r = Some p /\ cols r = columns p /\
            Portfolio.company_id p = companyId.
Proof.
  unfold select_rows. rewrite in_map_iff.
  intros (r0 & <- & [Hin Hc]%filter_In).
  apply In_rows in Hin. apply Pos.eqb_eq in Hc.
  exists (cols r0). auto.
Qed.

(** A row that [find] returns is a row of the table, seen through the
    select list, and satisfies the predicate. *)
Ltac found_row H :=
  let Hin := fresh "Hin" in
  let Hp := fresh "Hp" in
  let p := fresh "p" in
  let Hk := fresh "Hk" in
  let Hc := fresh "Hc" in
  let Ht := fresh "Ht" in
  apply find_some in H as [Hin Hp];
  apply select_rows_In in Hin as (p & Hk & Hc & _);
  exists p; split; [exact Hk|]; split; [exact Hc|];
  repeat (apply andb_prop in Hp as [Hp _]);
  apply bool_decide_eq_true in Hp; rewrite Hc in Hp; exact Hp.

Lemma find_employee_cash_Some (employeeId companyId : uuid) (db : Db) (r : row Portfolio.t) :
  find_employee_cash employeeId (select_rows cash_columns companyId db) = Some r ->
  exists p, portfolios db !! id r = Some p /\ cols r = cash_columns p /\
            Portfolio.portfolio_type p = employee_cash.
Proof. intros H. found_row H. Qed.

Lemma find_company_cash_Some (companyId : uuid) (db : Db) (r : row Portfolio.t) :
  find_company_cash companyId (select_rows cash_columns companyId db) = Some r ->
  exists p, portfolios db !! id r = Some p /\ cols r = cash_columns p /\
            Portfolio.portfolio_type p = company_cash.
Proof. intros H. found_row H. Qed.

Lemma find_company_reserved_Some (companyId : uuid) (db : Db) (r : row Portfolio.t) :
  find_company_reserved companyId (select_rows share_columns companyId db) = Some r ->
  exists p, portfolios db !! id r = Some p /\ cols r = share_columns p /\
            Portfolio.portfolio_type p = company_reserved.
Proof. intros H. found_row H. Qed.

Lemma find_employee_vested_Some (companyId employeeId : uuid) (db : Db)
    (r : row Portfolio.t) :
  find_employee_vested companyId employeeId (select_rows share_columns companyId db) = Some r ->
  exists p, portfolios db !! id r = Some p /\ cols r = share_columns p /\
            Portfolio.portfolio_type p = employee_vested.
Proof. intros H. found_row H. Qed.

(** ** Updates of a portfolio *)

Lemma check_update_portfolios_inv (k : uuid) (u : PortfolioPatch) (db db' : Db)
    (r : Result unit) :
  check (update_portfolios k u) db = (r, db') ->
  (r = Throw (StoreError numeric_field_overflow) /\ db' = db /\
   fits_15_digits (or0 (new_cash_balance u)) = false) \/
  (r = Ok tt /\
   db' = match portfolios db !! k with
         | Some p => with_portfolios (insert k (apply_patch u p)) db
         | None => db
         end).
Proof.
  unfold check, update_portfolios.
  destruct (portfolios db !! k) as [p|].
  - destruct (fits_15_digits _) eqn:Hfit; intros [= <- <-]; auto.
  - intros [= <- <-]. auto.
Qed.

(** ** The cash leg *)

Lemma cash_settlement_Ok (user companyId employeeId : uuid) (now : timestamp)
    (order : row ExerciseOrder.t) (db db1 : Db) (u : unit) :
  cash_settlement user companyId employeeId now order db = (Ok u, db1) ->
  exists e c pe pc,
    find_employee_cash employeeId (select_rows cash_columns companyId db)
    = Some (Row e (cash_columns pe)) /\
    find_company_cash companyId (select_rows cash_columns companyId db)
    = Some (Row c (cash_columns pc)) /\
    portfolios db !! e = Some pe /\
    portfolios db !! c = Some pc /\
    e <> c /\
    0 < ExerciseOrder.total_exercise_cost (cols order)
      <= to_number (Portfolio.cash_balance pe) /\
    db1 = after_cash user companyId employeeId now order e c pe pc db.
Proof.
  unfold cash_settlement. intros H.
  apply bind_Ok in H as (l & d & Hsel & H).
  rewrite check_select_portfolios in Hsel. injection Hsel as <- <-.
  apply bind_Ok in H as (ecp & d & Hreq & H).
  apply require_inv in Hreq as (-> & [[_ [=]] | (ecp' & Hfe & [= <-])]).
  apply bind_Ok in H as (ccp & d & Hreq & H).
  apply require_inv in Hreq as (-> & [[_ [=]] | (ccp' & Hfc & [= <-])]).
  destruct (find_employee_cash_Some _ _ _ _ Hfe) as (pe & Hpe & Hce & Hte).
  destruct (find_company_cash_Some _ _ _ Hfc) as (pc & Hpc & Hcc & Htc).
  destruct ecp as [e ecols], ccp as [c ccols]. simpl in *. subst ecols ccols.
  assert (e <> c) as Hne.
  { intros ->. rewrite Hpe in Hpc. injection Hpc as ->. congruence. }
  apply bind_Ok in H as ([] & d & Hg & H).
  apply guard_inv in Hg as (-> & [[_ [=]] | [Hlt _]]).
  apply Z.ltb_ge in Hlt.
  apply bind_Ok in H as ([] & d & Hu & H).
  apply check_update_portfolios_inv in Hu as [([=] & _) | (_ & ->)].
  rewrite Hpe in H.
  apply bind_Ok in H as ([] & d & Hu & H).
  apply check_update_portfolios_inv in Hu as [([=] & _) | (_ & ->)].
  simpl in H. rewrite lookup_insert_ne in H by exact Hne. rewrite Hpc in H.
  unfold check, insert_cash_transfers in H. simpl in H.
  destruct (negb (fits_15_digits _)); [discriminate|].
  destruct (0 <? _) eqn:Hpos; [|discriminate]. simpl in H.
  destruct (exists_row _ _); [discriminate|].
  injection H as <-. apply Z.ltb_lt in Hpos.
  exists e, c, pe, pc. repeat split; try assumption.
  symmetry. exact H.
Qed.

Lemma cash_settlement_Throw (user companyId employeeId : uuid) (now : timestamp)
    (order : row ExerciseOrder.t) (db db' : Db) (e : Error) :
  cash_settlement user companyId employeeId now order db = (Throw e, db') ->
  In e [Employee_cash_portfolio_not_found; Company_cash_portfolio_not_found;
        Insufficient_cash_balance_in_employee_portfolio;
        StoreError numeric_field_overflow; StoreError check_violation;
        StoreError unique_violation].
Proof.
  unfold cash_settlement. intros H.
  apply bind_inv in H as [(e0 & Hm & _) | (l & d & _ & H)];
    [rewrite check_select_portfolios in Hm; discriminate|].
  apply bind_inv in H as [(e0 & (_ & [[_ [= <-]] | (? & _ & [=])])%require_inv & [= ->])
                         | (ecp & d1 & _ & H)]; [simpl; auto|].
  apply bind_inv in H as [(e0 & (_ & [[_ [= <-]] | (? & _ & [=])])%require_inv & [= ->])
                         | (ccp & d2 & _ & H)]; [simpl; auto|].
  apply bind_inv in H as [(e0 & (_ & [[_ [= <-]] | [_ [=]]])%guard_inv & [= ->])
                         | (? & d3 & _ & H)]; [simpl; auto|].
  apply bind_inv in H as [(e0 & [([= <-] & _) | ([=] & _)]%check_update_portfolios_inv & [= ->])
                         | (? & d4 & _ & H)]; [simpl; auto|].
  apply bind_inv in H as [(e0 & [([= <-] & _) | ([=] & _)]%check_update_portfolios_inv & [= ->])
                         | (? & d5 & _ & H)]; [simpl; auto|].
  unfold check, insert_cash_transfers in H.
  repeat (match type of H with context [if ?b then _ else _] => destruct b end;
          try (injection H as <- _; simpl; auto 7)).
  discriminate.
Qed.

(** ** The share leg *)

Lemma check_update_shares (k : uuid) (total available : option Z) (now : timestamp)
    (db : Db) :
  check (update_portfolios k (mkPatch None total available now)) db
  = (Ok tt, updated k (mkPatch None total available now) db).
Proof.
  unfold check, update_portfolios, updated.
  destruct (portfolios db !! k); reflexivity.
Qed.

Lemma create_employee_vested_run (companyId employeeId : uuid) (db : Db) :
  create_employee_vested companyId employeeId db
  = (Ok (Row (gen_random_uuid (portfolios db)) (new_vested companyId employeeId db)),
     with_portfolios
       (insert (gen_random_uuid (portfolios db)) (new_vested companyId employeeId db)) db).
Proof.
  unfold create_employee_vested, new_vested, bind, data_only, single_employee, check,
    insert_portfolios.
  destruct (employees db !! employeeId); reflexivity.
Qed.

Lemma share_transfer_run (companyId employeeId : uuid) (now : timestamp)
    (order : row ExerciseOrder.t) (db : Db) :
  share_transfer companyId employeeId now order db
  = match find_company_reserved companyId (select_rows share_columns companyId db) with
    | None => (Throw Company_reserved_portfolio_not_found, db)
    | Some fromPortfolio =>
      let '(toPortfolio, db1) := toPortfolio_of companyId employeeId db in
      if to_number (Portfolio.available_shares (cols fromPortfolio))
         <? ExerciseOrder.shares_to_exercise (cols order)
      then (Throw Insufficient_shares_in_company_reserved_portfolio, db1)
      else (Ok tt, after_shares companyId employeeId now order fromPortfolio toPortfolio db1)
    end.
Proof.
  unfold share_transfer, toPortfolio_of.
  rewrite (bind_run _ _ _ _ _ (check_select_portfolios _ _ _)).
  destruct (find_company_reserved _ _) as [fromPortfolio|]; [|reflexivity].
  rewrite (bind_run _ _ db db fromPortfolio) by reflexivity.
  destruct (find_employee_vested _ _ _) as [toPortfolio|].
  - rewrite (bind_run _ _ db db toPortfolio) by reflexivity.
    unfold guard. destruct (_ <? _); [reflexivity|].
    rewrite (bind_run _ _ db db tt) by reflexivity.
    rewrite (bind_run _ _ _ _ _ (check_update_shares _ _ _ _ _)).
    rewrite (bind_run _ _ _ _ _ (check_update_shares _ _ _ _ _)).
    reflexivity.
  - rewrite (bind_run _ _ _ _ _ (create_employee_vested_run _ _ _)).
    unfold guard. destruct (_ <? _); [reflexivity|].
    erewrite (bind_run _ _ _ _ tt) by reflexivity.
    rewrite (bind_run _ _ _ _ _ (check_update_shares _ _ _ _ _)).
    rewrite (bind_run _ _ _ _ _ (check_update_shares _ _ _ _ _)).
    reflexivity.
Qed.

Lemma share_leg_frame_refl (db : Db) : share_leg_frame db db.
Proof. split; eauto. Qed.

Lemma share_leg_frame_trans (db1 db2 db3 : Db) :
  share_leg_frame db1 db2 -> share_leg_frame db2 db3 -> share_leg_frame db1 db3.
Proof.
  intros [Hg1 Ho1 Hc1 He1 Hp1] [Hg2 Ho2 Hc2 He2 Hp2].
  split; try congruence.
  intros k p Hk. destruct (Hp1 k p Hk) as (p' & Hk' & Hc').
  destruct (Hp2 k p' Hk') as (p'' & Hk'' & Hc''). exists p''. split; congruence.
Qed.

Lemma share_leg_frame_updated (k : uuid) (total available : option Z) (now : timestamp)
    (db : Db) :
  share_leg_frame db (updated k (mkPatch None total available now) db).
Proof.
  unfold updated. destruct (portfolios db !! k) as [p|] eqn:Hk;
    [|apply share_leg_frame_refl].
  split; try reflexivity.
  intros k' p' Hk'. simpl. destruct (decide (k = k')) as [<-|Hne].
  - rewrite lookup_insert_eq. rewrite Hk in Hk'. injection Hk' as <-. eauto.
  - rewrite lookup_insert_ne by exact Hne. eauto.
Qed.

Lemma share_leg_frame_new (p : Portfolio.t) (db : Db) :
  share_leg_frame db (with_portfolios (insert (gen_random_uuid (portfolios db)) p) db).
Proof.
  split; try reflexivity.
  intros k p' Hk. simpl. exists p'. split; [|reflexivity].
  rewrite lookup_insert_ne; [exact Hk|].
  intros <-. rewrite gen_random_uuid_fresh in Hk. discriminate.
Qed.

Lemma toPortfolio_of_frame (companyId employeeId : uuid) (db : Db) :
  share_leg_frame db (snd (toPortfolio_of companyId employeeId db)) /\
  share_transfers (snd (toPortfolio_of companyId employeeId db)) = share_transfers db /\
  (forall k p, portfolios db !! k = Some p ->
     portfolios (snd (toPortfolio_of companyId employeeId db)) !! k = Some p) /\
  (forall k p, portfolios (snd (toPortfolio_of companyId employeeId db)) !! k = Some p ->
     portfolios db !! k = None -> p = new_vested companyId employeeId db).
Proof.
  unfold toPortfolio_of. destruct (find_employee_vested _ _ _); simpl.
  - split; [apply share_leg_frame_refl|]. split; [reflexivity|].
    split; [auto|]. intros k p H1 H2. congruence.
  - split; [apply share_leg_frame_new|]. split; [reflexivity|]. split.
    + intros k p Hk. rewrite lookup_insert_ne; [exact Hk|].
      intros <-. rewrite gen_random_uuid_fresh in Hk. discriminate.
    + intros k p Hk Hnone. destruct (decide (gen_random_uuid (portfolios db) = k)) as [<-|Hne].
      * rewrite lookup_insert_eq in Hk. congruence.
      * rewrite lookup_insert_ne in Hk by exact Hne. congruence.
Qed.

Lemma share_transfer_frame (companyId employeeId : uuid) (now : timestamp)
    (order : row ExerciseOrder.t) (db db' : Db) (r : Result unit) :
  share_transfer companyId employeeId now order db = (r, db') ->
  share_leg_frame db db'.
Proof.
  rewrite share_transfer_run.
  destruct (find_company_reserved _ _) as [fromPortfolio|];
    [|intros [= <- <-]; apply share_leg_frame_refl].
  destruct (toPortfolio_of_frame companyId employeeId db) as (Hf & _).
  destruct (toPortfolio_of companyId employeeId db) as [toPortfolio db1]. simpl in Hf.
  destruct (_ <? _); intros [= <- <-]; [exact Hf|].
  eapply share_leg_frame_trans; [exact Hf|].
  unfold after_shares.
  eapply share_leg_frame_trans; [apply share_leg_frame_updated|].
  eapply share_leg_frame_trans; [apply share_leg_frame_updated|].
  split; try reflexivity. eauto.
Qed.

(** A share leg that throws has moved no share: the portfolios that were
    there are as they were, no share transfer was recorded, and the only
    row that may have been added is an empty vested portfolio. *)
Lemma share_transfer_Throw (companyId employeeId : uuid) (now : timestamp)
    (order : row ExerciseOrder.t) (db db' : Db) (e : Error) :
  share_transfer companyId employeeId now order db = (Throw e, db') ->
  (e = Company_reserved_portfolio_not_found \/
   e = Insufficient_shares_in_company_reserved_portfolio) /\
  share_transfers db' = share_transfers db /\
  (forall k p, portfolios db !! k = Some p -> portfolios db' !! k = Some p) /\
  (forall k p, portfolios db' !! k = Some p -> portfolios db !! k = None ->
     p = new_vested companyId employeeId db).
Proof.
  rewrite share_transfer_run.
  destruct (find_company_reserved _ _) as [fromPortfolio|].
  - destruct (toPortfolio_of_frame companyId employeeId db) as (_ & Hs & Hold & Hnew).
    destruct (toPortfolio_of companyId employeeId db) as [toPortfolio db1]. simpl in *.
    destruct (_ <? _); intros [= <- <-]. auto.
  - intros [= <- <-]. repeat split; auto. intros k p H1 H2. congruence.
Qed.

(** ** What the share leg writes *)

Lemma updated_lookup (k k' : uuid) (u : PortfolioPatch) (db : Db) :
  portfolios (updated k u db) !! k'
  = if decide (k = k') then apply_patch u <$> portfolios db !! k
    else portfolios db !! k'.
Proof.
  unfold updated. destruct (portfolios db !! k) as [p|] eqn:Hk; case_decide; subst; simpl.
  - apply lookup_insert_eq.
  - apply lookup_insert_ne. assumption.
  - exact Hk.
  - reflexivity.
Qed.

Lemma toPortfolio_of_row (companyId employeeId : uuid) (db : Db) :
  exists p,
    portfolios (snd (toPortfolio_of companyId employeeId db))
    !! id (fst (toPortfolio_of companyId employeeId db)) = Some p /\
    Portfolio.portfolio_type p = employee_vested /\
    or0 (Portfolio.total_shares (cols (fst (toPortfolio_of companyId employeeId db)))) = 0 /\
    or0 (Portfolio.available_shares (cols (fst (toPortfolio_of companyId employeeId db))))
    = or0 (portfolios db !! id (fst (toPortfolio_of companyId employeeId db))
           ≫= Portfolio.available_shares).
Proof.
  unfold toPortfolio_of.
  destruct (find_employee_vested _ _ _) as [r|] eqn:Hfind; simpl.
  - destruct (find_employee_vested_Some _ _ _ _ Hfind) as (p & Hk & Hc & Ht).
    exists p. rewrite Hk, Hc. auto.
  - exists (new_vested companyId employeeId db).
    rewrite lookup_insert_eq, gen_random_uuid_fresh. auto.
Qed.

(** When the share leg succeeds, the company's reserved portfolio has
    exactly the quantity less available, and the employee's vested
    portfolio has the quantity more available; its [total_shares] is the
    quantity itself, whatever it was before. *)
Lemma share_transfer_Ok (companyId employeeId : uuid) (now : timestamp)
    (order : row ExerciseOrder.t) (db db2 : Db) (u : unit) :
  share_transfer companyId employeeId now order db = (Ok u, db2) ->
  exists f t pf pf' pt',
    portfolios db !! f = Some pf /\
    Portfolio.portfolio_type pf = company_reserved /\
    portfolios db2 !! f = Some pf' /\
    Portfolio.available_shares pf'
    = Some (to_number (Portfolio.available_shares pf)
            - ExerciseOrder.shares_to_exercise (cols order)) /\
    Portfolio.total_shares pf' = Portfolio.total_shares pf /\
    portfolios db2 !! t = Some pt' /\
    Portfolio.portfolio_type pt' = employee_vested /\
    Portfolio.available_shares pt'
    = Some (or0 (portfolios db !! t ≫= Portfolio.available_shares)
            + ExerciseOrder.shares_to_exercise (cols order)) /\
    Portfolio.total_shares pt' = Some (ExerciseOrder.shares_to_exercise (cols order)).
Proof.
  rewrite share_transfer_run.
  destruct (find_company_reserved _ _) as [fromPortfolio|] eqn:Hfrom; [|discriminate].
  destruct (find_company_reserved_Some _ _ _ Hfrom) as (pf & Hf & Hfc & Hft).
  destruct (toPortfolio_of_row companyId employeeId db) as (pt & Ht & Htt & Htot & Hav).
  destruct (toPortfolio_of_frame companyId employeeId db) as (_ & _ & Hold & _).
  destruct (toPortfolio_of companyId employeeId db) as [toPortfolio db1]. simpl in *.
  destruct (_ <? _); [discriminate|]. intros [= Hdb2]. subst db2.
  assert (id fromPortfolio <> id toPortfolio) as Hne.
  { intros Heq. rewrite <- Heq, (Hold _ _ Hf) in Ht. injection Ht as <-. congruence. }
  exists (id fromPortfolio), (id toPortfolio), pf.
  eexists _, _.
  split; [exact Hf|]. split; [exact Hft|].
  unfold after_shares. simpl.
  rewrite !updated_lookup.
  repeat (case_decide; try congruence).
  rewrite (Hold _ _ Hf), Ht. simpl.
  split; [reflexivity|]. rewrite Hfc. simpl.
  split; [reflexivity|]. split; [reflexivity|].
  split; [reflexivity|]. simpl.
  split; [exact Htt|].
  rewrite Htot, Hav. split; reflexivity.
Qed.

(** ** Closing the order *)

Lemma close_order_run (user : uuid) (now : timestamp) (order : row ExerciseOrder.t)
    (db : Db) :
  close_order user now order db = (Ok tt, closed user now order db).
Proof. reflexivity. Qed.

(** ** The handler, leg by leg *)

Lemma handleProcess_unfold (user : option uuid) (now : timestamp)
    (order : row ExerciseOrder.t) (db : Db) :
  handleProcess true user now order db
  = match user, grants db !! ExerciseOrder.grant_id (cols order) with
    | None, _ => (Failed User_not_found, db)
    | Some _, None => (Failed (StoreError no_rows_returned), db)
    | Some u, Some g =>
      let companyId := companyId_of (Row (ExerciseOrder.grant_id (cols order)) g) order in
      let employeeId := ExerciseOrder.employee_id (cols order) in
      match cash_settlement u companyId employeeId now order db with
      | (Throw e, db') => (Failed e, db')
      | (Ok _, db1) =>
        match share_transfer companyId employeeId now order db1 with
        | (Throw e, db') => (Failed e, db')
        | (Ok _, db2) => (Succeeded, closed u now order db2)
        end
      end
    end.
Proof.
  unfold handleProcess, try_catch. simpl negb. cbv iota.
  destruct user as [u|]; [|reflexivity].
  rewrite (bind_run _ _ db db u) by reflexivity.
  unfold bind at 1, check, single_grant.
  destruct (grants db !! _) as [g|]; [|reflexivity].
  cbv zeta. unfold bind.
  destruct (cash_settlement _ _ _ _ _ _) as [[[]|e] db1]; [|reflexivity].
  destruct (share_transfer _ _ _ _ _) as [[[]|e] db2]; reflexivity.
Qed.

(** ** Conservation of cash *)

Lemma cash_lookup (db : Db) (k : uuid) (p : Portfolio.t) :
  portfolios db !! k = Some p -> cash db k = to_number (Portfolio.cash_balance p).
Proof. intros H. unfold cash. rewrite H. reflexivity. Qed.

Lemma after_cash_lookup (user companyId employeeId : uuid) (now : timestamp)
    (order : row ExerciseOrder.t) (e c : uuid) (pe pc : Portfolio.t) (db : Db) :
  e <> c ->
  portfolios (after_cash user companyId employeeId now order e c pe pc db) !! e
  = Some (debit (ExerciseOrder.total_exercise_cost (cols order)) now pe) /\
  portfolios (after_cash user companyId employeeId now order e c pe pc db) !! c
  = Some (credit (ExerciseOrder.total_exercise_cost (cols order)) now pc).
Proof.
  intros Hne. unfold after_cash. simpl. split.
  - rewrite lookup_insert_ne by auto. apply lookup_insert_eq.
  - apply lookup_insert_eq.
Qed.

(** C2.  When [handleProcess] succeeds, the employee cash portfolio it
    selected holds exactly [total_exercise_cost] less than before, the
    company cash portfolio it selected exactly as much more, and the sum of
    the two balances is what it was. *)
Theorem process_conserves_cash (user : option uuid) (now : timestamp)
    (order : row ExerciseOrder.t) (db db' : Db) :
  handleProcess true user now order db = (Succeeded, db') ->
  exists g e c pe pc,
    grants db !! ExerciseOrder.grant_id (cols order) = Some g /\
    find_employee_cash (ExerciseOrder.employee_id (cols order))
      (select_rows cash_columns
         (companyId_of (Row (ExerciseOrder.grant_id (cols order)) g) order) db)
    = Some (Row e (cash_columns pe)) /\
    find_company_cash (companyId_of (Row (ExerciseOrder.grant_id (cols order)) g) order)
      (select_rows cash_columns
         (companyId_of (Row (ExerciseOrder.grant_id (cols order)) g) order) db)
    = Some (Row c (cash_columns pc)) /\
    cash db' e = cash db e - ExerciseOrder.total_exercise_cost (cols order) /\
    cash db' c = cash db c + ExerciseOrder.total_exercise_cost (cols order) /\
    cash db' e + cash db' c = cash db e + cash db c.
Proof.
  rewrite handleProcess_unfold.
  destruct user as [u|]; [|discriminate].
  destruct (grants db !! _) as [g|] eqn:Hg; [|discriminate].
  cbv zeta.
  destruct (cash_settlement _ _ _ _ _ _) as [[[]|e0] db1] eqn:Hcash; [|discriminate].
  destruct (share_transfer _ _ _ _ _) as [[[]|e0] db2] eqn:Hshare; [|discriminate].
  intros [= <-].
  apply cash_settlement_Ok in Hcash as (e & c & pe & pc & Hfe & Hfc & Hpe & Hpc & Hne & _ & ->).
  apply share_transfer_frame in Hshare as [_ _ _ _ Hframe].
  destruct (after_cash_lookup u
              (companyId_of (Row (ExerciseOrder.grant_id (cols order)) g) order)
              (ExerciseOrder.employee_id (cols order)) now order e c pe pc db Hne)
    as [He1 Hc1].
  destruct (Hframe e _ He1) as (pe' & He2 & Hcash_e).
  destruct (Hframe c _ Hc1) as (pc' & Hc2 & Hcash_c).
  assert (cash (closed u now order db2) e
          = cash db e - ExerciseOrder.total_exercise_cost (cols order)) as Ee.
  { rewrite (cash_lookup db e pe Hpe). unfold cash. simpl.
    rewrite He2. simpl. rewrite Hcash_e. reflexivity. }
  assert (cash (closed u now order db2) c
          = cash db c + ExerciseOrder.total_exercise_cost (cols order)) as Ec.
  { rewrite (cash_lookup db c pc Hpc). unfold cash. simpl.
    rewrite Hc2. simpl. rewrite Hcash_c. reflexivity. }
  exists g, e, c, pe, pc. repeat split; try assumption. lia.
Qed.

Lemma process_conserves_cash_witness :
  handleProcess true (Some 99%positive) 5000 (Row 5%positive (Scenario.order approved))
    (Scenario.store 200000 approved vs_pending_exercise)
  = (Succeeded,
     snd (handleProcess true (Some 99%positive) 5000
            (Row 5%positive (Scenario.order approved))
            (Scenario.store 200000 approved vs_pending_exercise))) /\
  cash (Scenario.store 200000 approved vs_pending_exercise) 12 = 200000 /\
  cash (Scenario.store 200000 approved vs_pending_exercise) 11 = 50000 /\
  cash (snd (handleProcess true (Some 99%positive) 5000
               (Row 5%positive (Scenario.order approved))
               (Scenario.store 200000 approved vs_pending_exercise))) 12 = 75000 /\
  cash (snd (handleProcess true (Some 99%positive) 5000
               (Row 5%positive (Scenario.order approved))
               (Scenario.store 200000 approved vs_pending_exercise))) 11 = 175000.
Proof.
  assert (handleProcess true (Some 99%positive) 5000
            (Row 5%positive (Scenario.order approved))
            (Scenario.store 200000 approved vs_pending_exercise)
          = (Succeeded,
             snd (handleProcess true (Some 99%positive) 5000
                    (Row 5%positive (Scenario.order approved))
                    (Scenario.store 200000 approved vs_pending_exercise))))
    as Hrun by (vm_compute; reflexivity).
  split; [exact Hrun|].
  split; [reflexivity|]. split; [reflexivity|].
  destruct (process_conserves_cash _ _ _ _ _ Hrun)
    as (g & e & c & pe & pc & Hg & Hfe & Hfc & He & Hc & _).
  vm_compute in Hg. injection Hg as <-.
  vm_compute in Hfe. injection Hfe as <- _.
  vm_compute in Hfc. injection Hfc as <- _.
  split; [exact He | exact Hc].
Defined.

(** The settlement of order 5 when the employee holds 2000.00 and the
    company 500.00: 750.00 and 1750.00 afterwards, the vesting event
    exercised, one processed settlement transfer and one exercise share
    transfer on record. *)
Example settlement_of_order_5 :
  fst (handleProcess true (Some 99%positive) 5000 (Row 5%positive (Scenario.order approved))
         (Scenario.store 200000 approved vs_pending_exercise)) = Succeeded /\
  Scenario.cash_of 12
    (snd (handleProcess true (Some 99%positive) 5000
            (Row 5%positive (Scenario.order approved))
            (Scenario.store 200000 approved vs_pending_exercise))) = Some 75000 /\
  Scenario.cash_of 11
    (snd (handleProcess true (Some 99%positive) 5000
            (Row 5%positive (Scenario.order approved))
            (Scenario.store 200000 approved vs_pending_exercise))) = Some 175000 /\
  Scenario.event_status_of 4
    (snd (handleProcess true (Some 99%positive) 5000
            (Row 5%positive (Scenario.order approved))
            (Scenario.store 200000 approved vs_pending_exercise))) = Some vs_exercised /\
  map (fun r => (CashTransfer.transfer_type (cols r), CashTransfer.status (cols r),
                 CashTransfer.exercise_order_id (cols r), CashTransfer.amount (cols r)))
      (rows (cash_transfers
               (snd (handleProcess true (Some 99%positive) 5000
                       (Row 5%positive (Scenario.order approved))
                       (Scenario.store 200000 approved vs_pending_exercise)))))
  = [(exercise_settlement, ct_processed, Some 5%positive, 125000)] /\
  map (fun r => (ShareTransfer.transfer_type (cols r),
                 ShareTransfer.shares_transferred (cols r)))
      (rows (share_transfers
               (snd (handleProcess true (Some 99%positive) 5000
                       (Row 5%positive (Scenario.order approved))
                       (Scenario.store 200000 approved vs_pending_exercise)))))
  = [(st_exercise, 10000)].
Proof. repeat split; vm_compute; reflexivity. Qed.

(** ** Failure after the cash leg *)

(** C4.  When [handleProcess] fails in the share leg, after the cash steps
    have completed (the company has too few available shares, or no
    reserved portfolio), nothing is rolled back: the employee's cash stays
    debited, the company's credited, and the exercise_settlement transfer
    stays recorded, while the stored order keeps its status, the vesting
    event is as it was and no share has moved. *)
Theorem failed_share_leg_keeps_cash_moved (user : option uuid) (now : timestamp)
    (order : row ExerciseOrder.t) (db db' : Db) (e : Error) :
  handleProcess true user now order db = (Failed e, db') ->
  e = Insufficient_shares_in_company_reserved_portfolio \/
  e = Company_reserved_portfolio_not_found ->
  exists u g ecp ccp pe pc t,
    user = Some u /\
    grants db !! ExerciseOrder.grant_id (cols order) = Some g /\
    find_employee_cash (ExerciseOrder.employee_id (cols order))
      (select_rows cash_columns
         (companyId_of (Row (ExerciseOrder.grant_id (cols order)) g) order) db)
    = Some (Row ecp (cash_columns pe)) /\
    find_company_cash (companyId_of (Row (ExerciseOrder.grant_id (cols order)) g) order)
      (select_rows cash_columns
         (companyId_of (Row (ExerciseOrder.grant_id (cols order)) g) order) db)
    = Some (Row ccp (cash_columns pc)) /\
    (* the cash movement persists *)
    cash db' ecp = cash db ecp - ExerciseOrder.total_exercise_cost (cols order) /\
    cash db' ccp = cash db ccp + ExerciseOrder.total_exercise_cost (cols order) /\
    cash_transfers db !! t = None /\
    cash_transfers db' !! t
    = Some (settlement_record u
              (companyId_of (Row (ExerciseOrder.grant_id (cols order)) g) order)
              (ExerciseOrder.employee_id (cols order)) now order ecp ccp) /\
    (* the order and its vesting event are as they were *)
    exercise_orders db' = exercise_orders db /\
    vesting_events db' = vesting_events db /\
    (* no share has moved *)
    share_transfers db' = share_transfers db /\
    (forall k p, portfolios db !! k = Some p ->
       exists p', portfolios db' !! k = Some p' /\
         Portfolio.total_shares p' = Portfolio.total_shares p /\
         Portfolio.available_shares p' = Portfolio.available_shares p /\
         Portfolio.locked_shares p' = Portfolio.locked_shares p) /\
    (forall k p', portfolios db' !! k = Some p' -> portfolios db !! k = None ->
       Portfolio.total_shares p' = Some 0 /\ Portfolio.available_shares p' = Some 0).
Proof.
  rewrite handleProcess_unfold. intros Hrun He.
  destruct user as [u|]; [|injection Hrun as <- <-; destruct He; discriminate].
  destruct (grants db !! _) as [g|] eqn:Hg;
    [|injection Hrun as <- <-; destruct He; discriminate].
  cbv zeta in Hrun.
  destruct (cash_settlement _ _ _ _ _ _) as [[[]|e0] db1] eqn:Hcash.
  2:{ injection Hrun as <- <-. apply cash_settlement_Throw in Hcash.
      simpl in Hcash. destruct He; subst e0; intuition discriminate. }
  destruct (share_transfer _ _ _ _ _) as [[[]|e0] db2] eqn:Hshare; [discriminate|].
  injection Hrun as <- <-.
  apply cash_settlement_Ok in Hcash
    as (ecp & ccp & pe & pc & Hfe & Hfc & Hpe & Hpc & Hne & _ & ->).
  pose proof (share_transfer_frame _ _ _ _ _ _ _ Hshare) as [_ Ho Hct Hev Hframe].
  apply share_transfer_Throw in Hshare as (_ & Hst & Hold & Hnew).
  destruct (after_cash_lookup u
              (companyId_of (Row (ExerciseOrder.grant_id (cols order)) g) order)
              (ExerciseOrder.employee_id (cols order)) now order ecp ccp pe pc db Hne)
    as [He1 Hc1].
  exists u, g, ecp, ccp, pe, pc, (gen_random_uuid (cash_transfers db)).
  split; [reflexivity|]. split; [reflexivity|].
  split; [exact Hfe|]. split; [exact Hfc|].
  split.
  { rewrite (cash_lookup db ecp pe Hpe), (cash_lookup db2 ecp _ (Hold _ _ He1)).
    reflexivity. }
  split.
  { rewrite (cash_lookup db ccp pc Hpc), (cash_lookup db2 ccp _ (Hold _ _ Hc1)).
    reflexivity. }
  split; [apply gen_random_uuid_fresh|].
  split; [rewrite Hct; simpl; apply lookup_insert_eq|].
  split; [rewrite Ho; reflexivity|].
  split; [rewrite Hev; reflexivity|].
  split; [rewrite Hst; reflexivity|].
  split.
  - intros k p Hk.
    destruct (decide (k = ccp)) as [->|Hc]; [|destruct (decide (k = ecp)) as [->|Hk']].
    + exists (credit (ExerciseOrder.total_exercise_cost (cols order)) now pc).
      split; [apply Hold; exact Hc1|]. rewrite Hpc in Hk. injection Hk as <-. auto.
    + exists (debit (ExerciseOrder.total_exercise_cost (cols order)) now pe).
      split; [apply Hold; exact He1|]. rewrite Hpe in Hk. injection Hk as <-. auto.
    + exists p. split; [|auto]. apply Hold. unfold after_cash. simpl.
      rewrite !lookup_insert_ne by auto. exact Hk.
  - intros k p' Hk Hnone.
    assert (portfolios
              (after_cash u
                 (companyId_of (Row (ExerciseOrder.grant_id (cols order)) g) order)
                 (ExerciseOrder.employee_id (cols order)) now order ecp ccp pe pc db)
            !! k = None) as Hnone1.
    { unfold after_cash. simpl. rewrite !lookup_insert_ne; [exact Hnone | |];
        intros <-; congruence. }
    rewrite (Hnew k p' Hk Hnone1). split; reflexivity.
Qed.

Lemma failed_share_leg_keeps_cash_moved_witness :
  handleProcess true (Some 99%positive) 5000 (Row 5%positive (Scenario.order approved))
    (Scenario.store_short_of_shares 200000 approved)
  = (Failed Insufficient_shares_in_company_reserved_portfolio,
     snd (handleProcess true (Some 99%positive) 5000
            (Row 5%positive (Scenario.order approved))
            (Scenario.store_short_of_shares 200000 approved))) /\
  cash (snd (handleProcess true (Some 99%positive) 5000
               (Row 5%positive (Scenario.order approved))
               (Scenario.store_short_of_shares 200000 approved))) 12 = 75000 /\
  cash (snd (handleProcess true (Some 99%positive) 5000
               (Row 5%positive (Scenario.order approved))
               (Scenario.store_short_of_shares 200000 approved))) 11 = 175000 /\
  Scenario.status_of 5
    (snd (handleProcess true (Some 99%positive) 5000
            (Row 5%positive (Scenario.order approved))
            (Scenario.store_short_of_shares 200000 approved))) = Some approved.
Proof.
  assert (handleProcess true (Some 99%positive) 5000
            (Row 5%positive (Scenario.order approved))
            (Scenario.store_short_of_shares 200000 approved)
          = (Failed Insufficient_shares_in_company_reserved_portfolio,
             snd (handleProcess true (Some 99%positive) 5000
                    (Row 5%positive (Scenario.order approved))
                    (Scenario.store_short_of_shares 200000 approved))))
    as Hrun by (vm_compute; reflexivity).
  split; [exact Hrun|].
  destruct (failed_share_leg_keeps_cash_moved _ _ _ _ _ _ Hrun (or_introl eq_refl))
    as (u & g & e & c & pe & pc & t & _ & Hg & Hfe & Hfc & He & Hc & _ & _ & Ho & _).
  vm_compute in Hg. injection Hg as <-.
  vm_compute in Hfe. injection Hfe as <- _.
  vm_compute in Hfc. injection Hfc as <- _.
  split; [exact He|]. split; [exact Hc|].
  unfold Scenario.status_of. rewrite Ho. reflexivity.
Defined.

(** ** Conservation of shares *)

Lemma after_cash_available (user companyId employeeId : uuid) (now : timestamp)
    (order : row ExerciseOrder.t) (e c : uuid) (pe pc : Portfolio.t) (db : Db) (k : uuid) :
  portfolios db !! e = Some pe ->
  portfolios db !! c = Some pc ->
  portfolios (after_cash user companyId employeeId now order e c pe pc db) !! k
    ≫= Portfolio.available_shares
  = portfolios db !! k ≫= Portfolio.available_shares.
Proof.
  intros He Hc. unfold after_cash. simpl.
  destruct (decide (c = k)) as [<-|Hck].
  - rewrite lookup_insert_eq, Hc. reflexivity.
  - rewrite lookup_insert_ne by exact Hck.
    destruct (decide (e = k)) as [<-|Hek].
    + rewrite lookup_insert_eq, He. reflexivity.
    + rewrite lookup_insert_ne by exact Hek. reflexivity.
Qed.

(** What a successful [handleProcess] does to the two share portfolios.
    The company's reserved portfolio keeps its [total_shares] and has the
    quantity less in [available_shares]; the employee's vested portfolio
    has the quantity more in [available_shares], and its [total_shares] is
    set to the quantity: the amount it held before is not counted. *)
Lemma process_moves_shares (user : option uuid) (now : timestamp)
    (order : row ExerciseOrder.t) (db db' : Db) :
  handleProcess true user now order db = (Succeeded, db') ->
  exists f t pf pf' pt',
    portfolios db !! f = Some pf /\
    Portfolio.portfolio_type pf = company_reserved /\
    portfolios db' !! f = Some pf' /\
    Portfolio.available_shares pf'
    = Some (to_number (Portfolio.available_shares pf)
            - ExerciseOrder.shares_to_exercise (cols order)) /\
    Portfolio.total_shares pf' = Portfolio.total_shares pf /\
    portfolios db' !! t = Some pt' /\
    Portfolio.portfolio_type pt' = employee_vested /\
    Portfolio.available_shares pt'
    = Some (or0 (portfolios db !! t ≫= Portfolio.available_shares)
            + ExerciseOrder.shares_to_exercise (cols order)) /\
    Portfolio.total_shares pt' = Some (ExerciseOrder.shares_to_exercise (cols order)).
Proof.
  rewrite handleProcess_unfold.
  destruct user as [u|]; [|discriminate].
  destruct (grants db !! _) as [g|] eqn:Hg; [|discriminate].
  cbv zeta.
  destruct (cash_settlement _ _ _ _ _ _) as [[[]|e0] db1] eqn:Hcash; [|discriminate].
  destruct (share_transfer _ _ _ _ _) as [[[]|e0] db2] eqn:Hshare; [|discriminate].
  intros [= <-].
  apply cash_settlement_Ok in Hcash as (e & c & pe & pc & Hfe & Hfc & Hpe & Hpc & Hne & _ & ->).
  destruct (find_employee_cash_Some _ _ _ _ Hfe) as (pe0 & Hpe0 & _ & Hte).
  destruct (find_company_cash_Some _ _ _ Hfc) as (pc0 & Hpc0 & _ & Htc).
  simpl in Hpe0, Hpc0. rewrite Hpe in Hpe0. rewrite Hpc in Hpc0.
  injection Hpe0 as <-. injection Hpc0 as <-.
  apply share_transfer_Ok in Hshare
    as (f & t & pf & pf' & pt' & Hf & Hft & Hf' & Hfa & Hftot & Ht' & Htt & Hta & Httot).
  rewrite (after_cash_available _ _ _ _ _ _ _ _ _ _ t Hpe Hpc) in Hta.
  exists f, t, pf, pf', pt'.
  assert (portfolios db !! f = Some pf) as Hf0.
  { unfold after_cash in Hf. simpl in Hf.
    destruct (decide (c = f)) as [<-|Hcf].
    { rewrite lookup_insert_eq in Hf. injection Hf as <-. simpl in Hft. congruence. }
    rewrite lookup_insert_ne in Hf by exact Hcf.
    destruct (decide (e = f)) as [<-|Hef].
    { rewrite lookup_insert_eq in Hf. injection Hf as <-. simpl in Hft. congruence. }
    rewrite lookup_insert_ne in Hf by exact Hef. exact Hf. }
  repeat split; assumption.
Qed.

(** C3, at an input where the code departs from the claim.  The employee
    already has a vested portfolio (13) with 50 shares in total, none of
    them available.  Processing order 5 (100 shares) succeeds and takes 100
    shares from the company's available shares, but the employee's
    [total_shares] becomes 100, not 150: step 2 selects the portfolio
    without [total_shares], so step 3 adds the quantity to 0. *)
Theorem process_overwrites_total_shares :
  fst (handleProcess true (Some 99%positive) 5000 (Row 5%positive (Scenario.order approved))
         (Scenario.store_with_vested 200000 approved)) = Succeeded /\
  Scenario.available_of 10 (Scenario.store_with_vested 200000 approved) = Some 100000 /\
  Scenario.available_of 10
    (snd (handleProcess true (Some 99%positive) 5000
            (Row 5%positive (Scenario.order approved))
            (Scenario.store_with_vested 200000 approved))) = Some 90000 /\
  Scenario.available_of 13 (Scenario.store_with_vested 200000 approved) = Some 0 /\
  Scenario.available_of 13
    (snd (handleProcess true (Some 99%positive) 5000
            (Row 5%positive (Scenario.order approved))
            (Scenario.store_with_vested 200000 approved))) = Some 10000 /\
  Scenario.total_of 13 (Scenario.store_with_vested 200000 approved) = Some 5000 /\
  Scenario.total_of 13
    (snd (handleProcess true (Some 99%positive) 5000
            (Row 5%positive (Scenario.order approved))
            (Scenario.store_with_vested 200000 approved))) = Some 10000.
Proof. repeat split; vm_compute; reflexivity. Qed.

(** ** The stored order is never read *)

Lemma cash_settlement_ignores_orders (user companyId employeeId : uuid) (now : timestamp)
    (order : row ExerciseOrder.t)
    (f : gmap positive ExerciseOrder.t -> gmap positive ExerciseOrder.t) (db : Db) :
  cash_settlement user companyId employeeId now order (with_exercise_orders f db)
  = (fst (cash_settlement user companyId employeeId now order db),
     with_exercise_orders f (snd (cash_settlement user companyId employeeId now order db))).
Proof.
  unfold cash_settlement, bind, check, require, guard, ret, throw, select_portfolios,
    update_portfolios, insert_cash_transfers, select_rows.
  destruct db as [g e p o c s v]. simpl.
  repeat (case_match; simplify_eq; simpl in *; try reflexivity).
Qed.

Lemma share_transfer_ignores_orders (companyId employeeId : uuid) (now : timestamp)
    (order : row ExerciseOrder.t)
    (f : gmap positive ExerciseOrder.t -> gmap positive ExerciseOrder.t) (db : Db) :
  share_transfer companyId employeeId now order (with_exercise_orders f db)
  = (fst (share_transfer companyId employeeId now order db),
     with_exercise_orders f (snd (share_transfer companyId employeeId now order db))).
Proof.
  unfold share_transfer, create_employee_vested, bind, check, data_only, require, guard,
    ret, throw, select_portfolios, update_portfolios, insert_share_transfers,
    insert_portfolios, single_employee, select_rows.
  destruct db as [g e p o c s v]. simpl.
  repeat (case_match; simplify_eq; simpl in *; try reflexivity).
Qed.

Lemma handleProcess_ignores_orders (user : option uuid) (now : timestamp)
    (order : row ExerciseOrder.t) (t : gmap positive ExerciseOrder.t) (db : Db) :
  fst (handleProcess true user now order (with_exercise_orders (fun _ => t) db))
  = fst (handleProcess true user now order db) /\
  portfolios (snd (handleProcess true user now order (with_exercise_orders (fun _ => t) db)))
  = portfolios (snd (handleProcess true user now order db)) /\
  cash_transfers (snd (handleProcess true user now order (with_exercise_orders (fun _ => t) db)))
  = cash_transfers (snd (handleProcess true user now order db)) /\
  share_transfers (snd (handleProcess true user now order (with_exercise_orders (fun _ => t) db)))
  = share_transfers (snd (handleProcess true user now order db)) /\
  vesting_events (snd (handleProcess true user now order (with_exercise_orders (fun _ => t) db)))
  = vesting_events (snd (handleProcess true user now order db)).
Proof.
  rewrite !handleProcess_unfold.
  destruct user as [u|]; [|repeat split].
  change (grants (with_exercise_orders (fun _ => t) db)) with (grants db).
  destruct (grants db !! _) as [g|]; [|repeat split].
  cbv zeta. rewrite cash_settlement_ignores_orders.
  destruct (cash_settlement _ _ _ _ _ db) as [[[]|e] db1]; simpl; [|repeat split].
  rewrite share_transfer_ignores_orders.
  destruct (share_transfer _ _ _ _ db1) as [[[]|e] db2]; simpl; repeat split.
Qed.

(** C1, against the claim.  Order 5 is approved and the employee holds
    3000.00.  A first [handleProcess] succeeds and stores the status
    processed.  A second one, sent with the same order row, succeeds as
    well: 2500.00 have left the employee's portfolio, 200 shares the
    company's, and two settlement transfers are recorded. *)
Lemma second_process_settles_again :
  fst (handleProcess true (Some 99%positive) 5000 (Row 5%positive (Scenario.order approved))
         (Scenario.store 300000 approved vs_pending_exercise)) = Succeeded /\
  Scenario.status_of 5
    (snd (handleProcess true (Some 99%positive) 5000
            (Row 5%positive (Scenario.order approved))
            (Scenario.store 300000 approved vs_pending_exercise))) = Some processed /\
  fst (handleProcess true (Some 99%positive) 6000 (Row 5%positive (Scenario.order approved))
         (snd (handleProcess true (Some 99%positive) 5000
                 (Row 5%positive (Scenario.order approved))
                 (Scenario.store 300000 approved vs_pending_exercise)))) = Succeeded /\
  Scenario.cash_of 12
    (snd (handleProcess true (Some 99%positive) 6000
            (Row 5%positive (Scenario.order approved))
            (snd (handleProcess true (Some 99%positive) 5000
                    (Row 5%positive (Scenario.order approved))
                    (Scenario.store 300000 approved vs_pending_exercise))))) = Some 50000 /\
  Scenario.cash_of 11
    (snd (handleProcess true (Some 99%positive) 6000
            (Row 5%positive (Scenario.order approved))
            (snd (handleProcess true (Some 99%positive) 5000
                    (Row 5%positive (Scenario.order approved))
                    (Scenario.store 300000 approved vs_pending_exercise))))) = Some 300000 /\
  Scenario.available_of 10
    (snd (handleProcess true (Some 99%positive) 6000
            (Row 5%positive (Scenario.order approved))
            (snd (handleProcess true (Some 99%positive) 5000
                    (Row 5%positive (Scenario.order approved))
                    (Scenario.store 300000 approved vs_pending_exercise))))) = Some 80000 /\
  size (cash_transfers
          (snd (handleProcess true (Some 99%positive) 6000
                  (Row 5%positive (Scenario.order approved))
                  (snd (handleProcess true (Some 99%positive) 5000
                          (Row 5%positive (Scenario.order approved))
                          (Scenario.store 300000 approved vs_pending_exercise))))))
  = 2%nat.
Proof. repeat split; vm_compute; reflexivity. Qed.

(** C1, as amended.  The page offers Process only on a row whose loaded
    status is approved, and a successful [handleProcess] stores the status
    processed, so the row loaded afterwards is not offered again.  The
    handler itself never reads the stored order, and its status update is
    keyed by [id] alone: its outcome and what it does to portfolios and
    transfers are the same whatever the [exercise_orders] table holds. *)
Theorem process_is_gated_by_the_page (user : option uuid) (now : timestamp)
    (order : row ExerciseOrder.t) (db : Db) :
  (In Process (row_actions order) <-> ExerciseOrder.status (cols order) = approved) /\
  (forall db' o',
     handleProcess true user now order db = (Succeeded, db') ->
     exercise_orders db' !! id order = Some o' ->
     ExerciseOrder.status o' = processed /\
     row_actions (Row (id order) o') = []) /\
  (forall t,
     fst (handleProcess true user now order (with_exercise_orders (fun _ => t) db))
     = fst (handleProcess true user now order db) /\
     portfolios (snd (handleProcess true user now order
                        (with_exercise_orders (fun _ => t) db)))
     = portfolios (snd (handleProcess true user now order db)) /\
     cash_transfers (snd (handleProcess true user now order
                            (with_exercise_orders (fun _ => t) db)))
     = cash_transfers (snd (handleProcess true user now order db)) /\
     share_transfers (snd (handleProcess true user now order
                             (with_exercise_orders (fun _ => t) db)))
     = share_transfers (snd (handleProcess true user now order db))).
Proof.
  split; [apply row_actions_Process|]. split.
  - intros db' o'. rewrite handleProcess_unfold.
    destruct user as [u|]; [|discriminate].
    destruct (grants db !! _) as [g|]; [|discriminate].
    cbv zeta.
    destruct (cash_settlement _ _ _ _ _ _) as [[[]|e0] db1]; [|discriminate].
    destruct (share_transfer _ _ _ _ _) as [[[]|e0] db2]; [|discriminate].
    intros [= <-]. simpl. rewrite lookup_alter_eq.
    destruct (exercise_orders db2 !! id order) as [o|]; [|discriminate].
    intros [= <-]. split; reflexivity.
  - intros t. pose proof (handleProcess_ignores_orders user now order t db). tauto.
Qed.

(** * The cache of [queryCache.ts] *)

Lemma startsWith_spec (s p : js_string) :
  QueryCache.startsWith s p = true <-> exists b, s = p ++ b.
Proof.
  revert s. induction p as [|c p IH]; intros s; simpl.
  - split; [|destruct s; reflexivity]. intros _. exists s. reflexivity.
  - destruct s as [|d s].
    + split; [discriminate|]. intros (b & [=]).
    + change (QueryCache.startsWith (d :: s) (c :: p))
        with (N.eqb c d && QueryCache.startsWith s p).
      rewrite andb_true_iff, N.eqb_eq, IH. split.
      * intros (-> & b & ->). eauto.
      * intros (b & [= -> ->]). eauto.
Qed.

Lemma includes_spec (s p : js_string) :
  QueryCache.includes s p = true <-> exists a b, s = a ++ p ++ b.
Proof.
  induction s as [|d s IH].
  - change (QueryCache.includes [] p) with (QueryCache.startsWith [] p || false).
    rewrite orb_false_r, startsWith_spec. split.
    + intros (b & ->). exists [], b. reflexivity.
    + intros (a & b & H). destruct a as [|x a]; [|discriminate]. eauto.
  - change (QueryCache.includes (d :: s) p)
      with (QueryCache.startsWith (d :: s) p || QueryCache.includes s p).
    rewrite orb_true_iff, IH, startsWith_spec. split.
    + intros [(b & ->) | (a & b & ->)].
      * exists [], b. reflexivity.
      * exists (d :: a), b. reflexivity.
    + intros (a & b & H). destruct a as [|x a].
      * left. exists b. exact H.
      * right. injection H as -> ->. eauto.
Qed.

Lemma clearCache_lookup {T} (c : N) (p : js_string)
    (cache : gmap (list N) (QueryCache.entry T)) (key : js_string) :
  QueryCache.clearCache (Some (c :: p)) cache !! key
  = if QueryCache.includes key (c :: p) then None else cache !! key.
Proof.
  unfold QueryCache.clearCache. cbn [truthy].
  destruct (QueryCache.includes key (c :: p)) eqn:Hinc.
  - apply map_lookup_filter_None. right. intros e _. cbn [fst]. congruence.
  - destruct (cache !! key) as [e|] eqn:Hk.
    + apply map_lookup_filter_Some. split; [exact Hk | exact Hinc].
    + apply map_lookup_filter_None. left. exact Hk.
Qed.

(** X1.  [queryCache.ts], [setCached] then [getCached]: a value that was
    stored is read back, and the cache is left as it was, as long as no
    more than [CACHE_TTL] milliseconds have passed on the clock, the
    300000th included. *)
Theorem getCached_after_setCached {T} (key : js_string) (d : T) (stored now : Z)
    (cache : gmap (list N) (QueryCache.entry T)) :
  now - stored <= QueryCache.CACHE_TTL ->
  QueryCache.getCached key now (QueryCache.setCached key d stored cache)
  = (Some d, QueryCache.setCached key d stored cache).
Proof.
  intros Hfresh. unfold QueryCache.getCached, QueryCache.setCached.
  rewrite lookup_insert_eq. cbn [QueryCache.timestamp QueryCache.data].
  destruct (Z.ltb_spec QueryCache.CACHE_TTL (now - stored)); [lia | reflexivity].
Qed.

Lemma getCached_after_setCached_witness :
  QueryCache.getCached [107%N] 300000 (QueryCache.setCached [107%N] 42 0 ∅)
  = (Some 42, QueryCache.setCached [107%N] 42 0 ∅).
Proof.
  apply getCached_after_setCached. unfold QueryCache.CACHE_TTL. lia.
Defined.

(** X2.  [queryCache.ts], [getCached] on an entry older than [CACHE_TTL]:
    it answers null and deletes the entry, so that every later read of the
    key misses, whatever the clock says then, until the key is set again. *)
Theorem getCached_expired {T} (key : js_string) (d : T) (stored now : Z)
    (cache : gmap (list N) (QueryCache.entry T)) :
  cache !! key = Some (QueryCache.Entry d stored) ->
  QueryCache.CACHE_TTL < now - stored ->
  QueryCache.getCached key now cache = (None, delete key cache) /\
  forall later,
    QueryCache.getCached key later (snd (QueryCache.getCached key now cache))
    = (None, delete key cache).
Proof.
  intros Hk Hold.
  assert (QueryCache.getCached key now cache = (None, delete key cache)) as E.
  { unfold QueryCache.getCached. rewrite Hk. cbn [QueryCache.timestamp].
    destruct (Z.ltb_spec QueryCache.CACHE_TTL (now - stored)); [reflexivity | lia]. }
  split; [exact E|]. intros later. rewrite E. cbn [snd].
  unfold QueryCache.getCached. rewrite lookup_delete_eq. reflexivity.
Qed.

Lemma getCached_expired_witness :
  QueryCache.getCached [107%N] 300001 (QueryCache.setCached [107%N] 42 0 ∅)
  = (None, delete [107%N] (QueryCache.setCached [107%N] 42 0 ∅)) /\
  forall later,
    QueryCache.getCached [107%N] later
      (snd (QueryCache.getCached [107%N] 300001 (QueryCache.setCached [107%N] 42 0 ∅)))
    = (None, delete [107%N] (QueryCache.setCached [107%N] 42 0 ∅)).
Proof.
  apply (getCached_expired [107%N] 42 0 300001).
  - unfold QueryCache.setCached. apply lookup_insert_eq.
  - unfold QueryCache.CACHE_TTL. lia.
Defined.

(** X3.  [queryCache.ts], [getCached]: a read, whether it hits, misses or
    expires its entry, leaves what every other key holds. *)
Theorem getCached_keeps_other_keys {T} (key other : js_string) (now : Z)
    (cache : gmap (list N) (QueryCache.entry T)) :
  other <> key ->
  snd (QueryCache.getCached key now cache) !! other = cache !! other.
Proof.
  intros Hne. unfold QueryCache.getCached.
  destruct (cache !! key) as [cached|]; [|reflexivity].
  destruct (_ <? _); [|reflexivity].
  cbn [snd]. apply lookup_delete_ne. congruence.
Qed.

Lemma getCached_keeps_other_keys_witness :
  snd (QueryCache.getCached [107%N] 300001
         (QueryCache.setCached [108%N] 7 0 (QueryCache.setCached [107%N] 42 0 ∅)))
    !! [108%N]
  = QueryCache.setCached [108%N] 7 0 (QueryCache.setCached [107%N] 42 0 ∅) !! [108%N].
Proof.
  apply getCached_keeps_other_keys. discriminate.
Defined.

(** X4.  [queryCache.ts], [clearCache] with a non-empty pattern: the
    entries that stay are exactly those whose key does not contain the
    pattern as a substring, wherever in the key it may occur; they stay
    as they were. *)
Theorem clearCache_removes_keys_including {T} (c : N) (p : js_string)
    (cache : gmap (list N) (QueryCache.entry T)) (key : js_string)
    (e : QueryCache.entry T) :
  QueryCache.clearCache (Some (c :: p)) cache !! key = Some e
  <-> cache !! key = Some e /\ forall a b, key = a ++ (c :: p) ++ b -> False.
Proof.
  rewrite clearCache_lookup.
  destruct (QueryCache.includes key (c :: p)) eqn:Hinc.
  - apply includes_spec in Hinc as (a & b & Hkey). split; [discriminate|].
    intros [_ Hno]. destruct (Hno a b Hkey).
  - split; [|tauto]. intros Hk. split; [exact Hk|].
    intros a b Hkey.
    assert (QueryCache.includes key (c :: p) = true) as Hyes
      by (apply includes_spec; eauto).
    congruence.
Qed.

Lemma join_cons (x : js_string) (l : list js_string) :
  exists b, QueryCache.join [58%N] (x :: l) = x ++ b.
Proof.
  destruct l as [|y l]; simpl.
  - exists []. rewrite app_nil_r. reflexivity.
  - eauto.
Qed.

(** X5.  [queryCache.ts], [invalidateCache] after [createCacheKey]: to
    invalidate a prefix removes every key that was made with that prefix,
    whatever its parts; with the empty prefix it removes every key. *)
Theorem invalidateCache_prefix {T} (prefix : js_string) (parts : list QueryCache.part)
    (cache : gmap (list N) (QueryCache.entry T)) :
  QueryCache.invalidateCache prefix cache !! QueryCache.createCacheKey prefix parts = None /\
  QueryCache.invalidateCache [] cache = ∅.
Proof.
  split; [|reflexivity].
  unfold QueryCache.invalidateCache. destruct prefix as [|c p]; [reflexivity|].
  rewrite clearCache_lookup.
  assert (QueryCache.includes (QueryCache.createCacheKey (c :: p) parts) (c :: p) = true)
    as -> by (apply includes_spec; exists []; unfold QueryCache.createCacheKey; eauto).
  reflexivity.
Qed.

Lemma createCacheKey_filter (prefix : js_string) (parts : list QueryCache.part) :
  QueryCache.createCacheKey prefix parts
  = prefix ++ [58%N]
    ++ QueryCache.join [58%N]
         (map QueryCache.toString (List.filter QueryCache.Boolean parts)).
Proof. reflexivity. Qed.

(** X6.  [queryCache.ts], [createCacheKey]: a falsy part (the number 0,
    the empty string, null, undefined) leaves no trace in the key, so the
    key of parts with such a part is the key of the parts without it. *)
Theorem createCacheKey_drops_falsy_part (prefix : js_string)
    (before : list QueryCache.part) (x : QueryCache.part) (after : list QueryCache.part) :
  QueryCache.Boolean x = false ->
  QueryCache.createCacheKey prefix (before ++ x :: after)
  = QueryCache.createCacheKey prefix (before ++ after).
Proof.
  intros Hx. rewrite !createCacheKey_filter.
  rewrite !List.filter_app. cbn [List.filter]. rewrite Hx. reflexivity.
Qed.

Lemma createCacheKey_drops_falsy_part_witness :
  QueryCache.createCacheKey [117%N] [QueryCache.text [97%N]; QueryCache.number 0;
                                     QueryCache.number 12]
  = QueryCache.createCacheKey [117%N] [QueryCache.text [97%N]; QueryCache.number 12].
Proof.
  apply (createCacheKey_drops_falsy_part [117%N] [QueryCache.text [97%N]]
           (QueryCache.number 0) [QueryCache.number 12]).
  reflexivity.
Defined.

(** X7.  [queryCache.ts], [createCacheKey]: the separator is not escaped.
    A string part that holds a colon gives the key of the two parts on
    either side of it. *)
Theorem createCacheKey_colon_in_part (prefix a b : js_string)
    (parts : list QueryCache.part) :
  truthy a = true -> truthy b = true ->
  QueryCache.createCacheKey prefix (QueryCache.text (a ++ [58%N] ++ b) :: parts)
  = QueryCache.createCacheKey prefix (QueryCache.text a :: QueryCache.text b :: parts).
Proof.
  intros Ha Hb. rewrite !createCacheKey_filter. cbn [List.filter QueryCache.Boolean].
  rewrite Ha, Hb.
  assert (truthy (a ++ [58%N] ++ b) = true) as -> by (destruct a; [discriminate | reflexivity]).
  cbn [map QueryCache.toString].
  do 2 f_equal.
  destruct (map QueryCache.toString (List.filter QueryCache.Boolean parts)) as [|y l].
  - reflexivity.
  - cbn [QueryCache.join]. rewrite <- !app_assoc. reflexivity.
Qed.

Lemma createCacheKey_colon_in_part_witness :
  QueryCache.createCacheKey [117%N] [QueryCache.text ([97%N] ++ [58%N] ++ [98%N])]
  = QueryCache.createCacheKey [117%N] [QueryCache.text [97%N]; QueryCache.text [98%N]].
Proof.
  apply (createCacheKey_colon_in_part [117%N] [97%N] [98%N] []); reflexivity.
Defined.

(** * Blank reasons *)

Lemma trimStart_nil (s : js_string) :
  trimStart s = [] -> forallb is_white_space s = true.
Proof.
  induction s as [|c s IH]; simpl; [reflexivity|].
  destruct (is_white_space c); [exact IH | discriminate].
Qed.

Lemma trimStart_forallb (s : js_string) :
  forallb is_white_space (trimStart s) = true -> forallb is_white_space s = true.
Proof.
  induction s as [|c s IH]; simpl; [reflexivity|].
  destruct (is_white_space c) eqn:Hc; [exact IH|].
  simpl. rewrite Hc. discriminate.
Qed.

Lemma forallb_rev {A} (f : A -> bool) (l : list A) :
  forallb f (rev l) = forallb f l.
Proof.
  induction l as [|x l IH]; simpl; [reflexivity|].
  rewrite forallb_app, IH. simpl. rewrite andb_true_r. apply andb_comm.
Qed.

(** [s.trim()] is empty exactly when [s] is made of white space. *)
Lemma truthy_trim (s : js_string) :
  truthy (trim s) = negb (forallb is_white_space s).
Proof.
  destruct (forallb is_white_space s) eqn:Hs.
  - rewrite (trim_white s Hs). reflexivity.
  - destruct (trim s) as [|c t] eqn:Ht; [|reflexivity].
    unfold trim, trimEnd in Ht.
    assert (trimStart (rev (trimStart s)) = []) as H.
    { rewrite <- (rev_involutive (trimStart (rev (trimStart s)))), Ht. reflexivity. }
    apply trimStart_nil in H. rewrite forallb_rev in H.
    apply trimStart_forallb in H. congruence.
Qed.

(** * Deposits: [CashTransfers.tsx] *)

Lemma deposit_approval_unfold (user : option uuid) (now : timestamp)
    (transfer : row CashTransfer.t) (db : Db) :
  CashTransfers.handleApprove true user now transfer db
  = match user, CashTransfer.to_portfolio_id (cols transfer) with
    | None, _ => (Failed User_not_found, db)
    | Some _, None => (Failed (StoreError invalid_text_representation), db)
    | Some _, Some k =>
      match portfolios db !! k with
      | None => (Failed (StoreError no_rows_returned), db)
      | Some p =>
        if fits_15_digits
             (or0 (Portfolio.cash_balance p) + CashTransfer.amount (cols transfer))
        then (Succeeded,
              with_cash_transfers
                (alter (CashTransfers.set_status ct_processed) (id transfer))
                (with_portfolios
                   (insert k (credit (CashTransfer.amount (cols transfer)) now p)) db))
        else (Failed (StoreError numeric_field_overflow), db)
      end
    end.
Proof.
  unfold CashTransfers.handleApprove, try_catch, bind, require, ret, throw, check,
    CashTransfers.single_portfolio, update_portfolios, CashTransfers.update_cash_transfers.
  simpl negb. cbv iota.
  destruct user as [u|]; [|reflexivity].
  destruct (CashTransfer.to_portfolio_id (cols transfer)) as [k|]; [|reflexivity].
  simpl. destruct (portfolios db !! k) as [p|] eqn:Hk; [|reflexivity].
  simpl. rewrite Hk. simpl.
  destruct (fits_15_digits _); reflexivity.
Qed.

Lemma deposit_approval_run (user : uuid) (now : timestamp)
    (transfer : row CashTransfer.t) (db : Db) (k : uuid) (p : Portfolio.t) :
  CashTransfer.to_portfolio_id (cols transfer) = Some k ->
  portfolios db !! k = Some p ->
  fits_15_digits (or0 (Portfolio.cash_balance p) + CashTransfer.amount (cols transfer)) = true ->
  CashTransfers.handleApprove true (Some user) now transfer db
  = (Succeeded,
     with_cash_transfers (alter (CashTransfers.set_status ct_processed) (id transfer))
       (with_portfolios (insert k (credit (CashTransfer.amount (cols transfer)) now p)) db)).
Proof.
  intros Hto Hk Hfit. rewrite deposit_approval_unfold, Hto, Hk, Hfit. reflexivity.
Qed.

Lemma cash_credited (k : uuid) (amount : Z) (now : timestamp) (p : Portfolio.t)
    (f : gmap positive CashTransfer.t -> gmap positive CashTransfer.t) (db : Db) :
  portfolios db !! k = Some p ->
  cash (with_cash_transfers f (with_portfolios (insert k (credit amount now p)) db)) k
  = cash db k + amount.
Proof.
  intros Hk. unfold cash. simpl. rewrite lookup_insert_eq, Hk. reflexivity.
Qed.

(** X8.  [CashTransfers.tsx], [handleApprove]: when the administrator is
    signed in, the transfer names a portfolio of the store and the sum
    fits the column, the approval succeeds; the portfolio's cash has grown
    by the amount of the transfer, no other portfolio has changed, and the
    transfer is stored as processed. *)
Theorem deposit_approval_credits_amount (user : uuid) (now : timestamp)
    (transfer : row CashTransfer.t) (db : Db) (k : uuid) (p : Portfolio.t) :
  CashTransfer.to_portfolio_id (cols transfer) = Some k ->
  portfolios db !! k = Some p ->
  fits_15_digits (or0 (Portfolio.cash_balance p) + CashTransfer.amount (cols transfer)) = true ->
  exists db',
    CashTransfers.handleApprove true (Some user) now transfer db = (Succeeded, db') /\
    cash db' k = cash db k + CashTransfer.amount (cols transfer) /\
    (forall other, other <> k -> portfolios db' !! other = portfolios db !! other) /\
    CashTransfer.status <$> cash_transfers db' !! id transfer
    = (fun _ => ct_processed) <$> cash_transfers db !! id transfer.
Proof.
  intros Hto Hk Hfit. eexists. split; [apply (deposit_approval_run _ _ _ _ k p); assumption|].
  split; [apply cash_credited; exact Hk|]. split.
  - intros other Hne. simpl. apply lookup_insert_ne. congruence.
  - simpl. rewrite lookup_alter_eq.
    destruct (cash_transfers db !! id transfer); reflexivity.
Qed.

Lemma deposit_approval_credits_amount_witness :
  exists db',
    CashTransfers.handleApprove true (Some 99%positive) 5000
      (Row 7%positive (Desk.deposit (Some 12%positive) ct_pending)) (Desk.store ct_pending)
    = (Succeeded, db') /\
    cash db' 12 = cash (Desk.store ct_pending) 12 + 25000 /\
    (forall other, other <> 12%positive ->
       portfolios db' !! other = portfolios (Desk.store ct_pending) !! other) /\
    CashTransfer.status <$> cash_transfers db' !! 7%positive
    = (fun _ => ct_processed) <$> cash_transfers (Desk.store ct_pending) !! 7%positive.
Proof.
  apply (deposit_approval_credits_amount 99 5000
           (Row 7%positive (Desk.deposit (Some 12%positive) ct_pending))
           (Desk.store ct_pending) 12 (Scenario.employee_money 10000));
    reflexivity.
Defined.

(** X9.  [CashTransfers.tsx], [handleApprove]: all or nothing.  Whenever
    the approval does not run to its success message (declined
    confirmation, nobody signed in, no portfolio, a sum that overflows the
    column) the store is what it was. *)
Theorem deposit_approval_all_or_nothing (confirm : bool) (user : option uuid)
    (now : timestamp) (transfer : row CashTransfer.t) (db : Db) :
  fst (CashTransfers.handleApprove confirm user now transfer db) = Succeeded \/
  snd (CashTransfers.handleApprove confirm user now transfer db) = db.
Proof.
  destruct confirm; [|right; reflexivity].
  rewrite deposit_approval_unfold.
  destruct user as [u|]; [|right; reflexivity].
  destruct (CashTransfer.to_portfolio_id (cols transfer)) as [k|]; [|right; reflexivity].
  destruct (portfolios db !! k) as [p|]; [|right; reflexivity].
  destruct (fits_15_digits _); [left | right]; reflexivity.
Qed.

(** X10.  [CashTransfers.tsx], [handleApprove] on a transfer that has no
    portfolio to credit: when [to_portfolio_id] is null the select is
    refused with the uuid syntax error 22P02, when it names no portfolio
    [single()] answers its no-rows error; either way the handler fails
    with that error and nothing is written, so the transfer keeps its
    status. *)
Theorem deposit_approval_without_portfolio (user : uuid) (now : timestamp)
    (transfer : row CashTransfer.t) (db : Db) :
  CashTransfer.to_portfolio_id (cols transfer) ≫= (portfolios db !!.) = None ->
  CashTransfers.handleApprove true (Some user) now transfer db
  = (Failed (StoreError
               match CashTransfer.to_portfolio_id (cols transfer) with
               | None => invalid_text_representation
               | Some _ => no_rows_returned
               end),
     db).
Proof.
  intros Hno. rewrite deposit_approval_unfold.
  destruct (CashTransfer.to_portfolio_id (cols transfer)) as [k|]; [|reflexivity].
  simpl in Hno. rewrite Hno. reflexivity.
Qed.

Lemma deposit_approval_without_portfolio_witness :
  CashTransfers.handleApprove true (Some 99%positive) 5000
    (Row 7%positive (Desk.deposit None ct_pending)) (Desk.store ct_pending)
  = (Failed (StoreError invalid_text_representation), Desk.store ct_pending) /\
  CashTransfers.handleApprove true (Some 99%positive) 5000
    (Row 7%positive (Desk.deposit (Some 77%positive) ct_pending)) (Desk.store ct_pending)
  = (Failed (StoreError no_rows_returned), Desk.store ct_pending).
Proof.
  split.
  - apply (deposit_approval_without_portfolio 99 5000
             (Row 7%positive (Desk.deposit None ct_pending)) (Desk.store ct_pending)).
    reflexivity.
  - apply (deposit_approval_without_portfolio 99 5000
             (Row 7%positive (Desk.deposit (Some 77%positive) ct_pending))
             (Desk.store ct_pending)).
    reflexivity.
Defined.

(** X11.  [CashTransfers.tsx], [handleApprove] twice on the same row: the
    handler reads neither the row's status nor the stored one, so a second
    approval sent with the row as the page first loaded it succeeds like
    the first, and the portfolio is credited twice. *)
Theorem deposit_approved_twice_is_credited_twice (user user' : uuid) (now now' : timestamp)
    (transfer : row CashTransfer.t) (db : Db) (k : uuid) (p : Portfolio.t) :
  CashTransfer.to_portfolio_id (cols transfer) = Some k ->
  portfolios db !! k = Some p ->
  fits_15_digits (or0 (Portfolio.cash_balance p) + CashTransfer.amount (cols transfer)) = true ->
  fits_15_digits (or0 (Portfolio.cash_balance p) + 2 * CashTransfer.amount (cols transfer))
  = true ->
  exists db1 db2,
    CashTransfers.handleApprove true (Some user) now transfer db = (Succeeded, db1) /\
    CashTransfers.handleApprove true (Some user') now' transfer db1 = (Succeeded, db2) /\
    cash db2 k = cash db k + 2 * CashTransfer.amount (cols transfer).
Proof.
  intros Hto Hk Hfit Hfit2. eexists. eexists.
  split; [apply (deposit_approval_run _ _ _ _ k p); assumption|].
  split.
  - apply (deposit_approval_run _ _ _ _ k
             (credit (CashTransfer.amount (cols transfer)) now p)).
    + exact Hto.
    + simpl. apply lookup_insert_eq.
    + simpl. replace (_ + _ + _)
        with (or0 (Portfolio.cash_balance p) + 2 * CashTransfer.amount (cols transfer))
        by (unfold or0; simpl; lia).
      exact Hfit2.
  - rewrite cash_credited by (simpl; apply lookup_insert_eq).
    rewrite cash_credited by exact Hk. lia.
Qed.

Lemma deposit_approved_twice_is_credited_twice_witness :
  exists db1 db2,
    CashTransfers.handleApprove true (Some 99%positive) 5000
      (Row 7%positive (Desk.deposit (Some 12%positive) ct_pending)) (Desk.store ct_pending)
    = (Succeeded, db1) /\
    CashTransfers.handleApprove true (Some 98%positive) 6000
      (Row 7%positive (Desk.deposit (Some 12%positive) ct_pending)) db1
    = (Succeeded, db2) /\
    cash db2 12 = cash (Desk.store ct_pending) 12 + 2 * 25000.
Proof.
  apply (deposit_approved_twice_is_credited_twice 99 98 5000 6000
           (Row 7%positive (Desk.deposit (Some 12%positive) ct_pending))
           (Desk.store ct_pending) 12 (Scenario.employee_money 10000));
    reflexivity.
Defined.

Lemma deposit_rejection_unfold (transferToReject : row CashTransfer.t)
    (rejectionReason : js_string) (user : option uuid) (now : timestamp) (db : Db) :
  CashTransfers.handleReject (Some transferToReject) rejectionReason user now db
  = if forallb is_white_space rejectionReason
    then (Refused "Please provide a rejection reason", db)
    else match user with
         | None => (Failed User_not_found, db)
         | Some _ =>
           (Succeeded,
            with_cash_transfers
              (alter (CashTransfers.set_status ct_rejected) (id transferToReject)) db)
         end.
Proof.
  unfold CashTransfers.handleReject. rewrite truthy_trim, negb_involutive.
  destruct (forallb _ _); [reflexivity|].
  destruct user; reflexivity.
Qed.

(** X12.  [CashTransfers.tsx], [handleReject]: a reason of white space
    only is refused with the validation message and nothing is written;
    any other reason, with an administrator signed in, is accepted, and
    then the status of that one transfer becomes rejected while
    portfolios, orders and every other transfer stay as they were. *)
Theorem deposit_rejection_touches_one_status (transferToReject : row CashTransfer.t)
    (rejectionReason : js_string) (user : uuid) (now : timestamp) (db : Db) :
  exists outcome db',
    CashTransfers.handleReject (Some transferToReject) rejectionReason (Some user) now db
    = (outcome, db') /\
    (if forallb is_white_space rejectionReason
     then outcome = Refused "Please provide a rejection reason" /\ db' = db
     else outcome = Succeeded /\
          CashTransfer.status <$> cash_transfers db' !! id transferToReject
          = (fun _ => ct_rejected) <$> cash_transfers db !! id transferToReject) /\
    portfolios db' = portfolios db /\
    exercise_orders db' = exercise_orders db /\
    forall other, other <> id transferToReject ->
      cash_transfers db' !! other = cash_transfers db !! other.
Proof.
  rewrite deposit_rejection_unfold.
  destruct (forallb _ _); eexists; eexists; (split; [reflexivity|]).
  - repeat split; reflexivity.
  - split; [split; [reflexivity|]|].
    + simpl. rewrite lookup_alter_eq.
      destruct (cash_transfers db !! id transferToReject); reflexivity.
    + repeat split. intros other Hne. simpl. apply lookup_alter_ne. congruence.
Qed.

(** X13.  [CashTransfers.tsx], [handleApprove] then [handleReject]: a
    rejection that follows an approval of the same row marks the transfer
    rejected and takes nothing back; the portfolio keeps the credit. *)
Theorem deposit_rejected_after_approval_keeps_credit (user user' : uuid)
    (now now' : timestamp) (transfer : row CashTransfer.t) (rejectionReason : js_string)
    (db : Db) (k : uuid) (p : Portfolio.t) (c : CashTransfer.t) :
  CashTransfer.to_portfolio_id (cols transfer) = Some k ->
  portfolios db !! k = Some p ->
  fits_15_digits (or0 (Portfolio.cash_balance p) + CashTransfer.amount (cols transfer)) = true ->
  cash_transfers db !! id transfer = Some c ->
  forallb is_white_space rejectionReason = false ->
  exists db1 db2,
    CashTransfers.handleApprove true (Some user) now transfer db = (Succeeded, db1) /\
    CashTransfers.handleReject (Some transfer) rejectionReason (Some user') now' db1
    = (Succeeded, db2) /\
    CashTransfer.status <$> cash_transfers db2 !! id transfer = Some ct_rejected /\
    cash db2 k = cash db k + CashTransfer.amount (cols transfer).
Proof.
  intros Hto Hk Hfit Hc Hreason. eexists. eexists.
  split; [apply (deposit_approval_run _ _ _ _ k p); assumption|].
  split; [rewrite deposit_rejection_unfold, Hreason; reflexivity|].
  split.
  - simpl. rewrite !lookup_alter_eq, Hc. reflexivity.
  - unfold cash. simpl. rewrite lookup_insert_eq, Hk. reflexivity.
Qed.

Lemma deposit_rejected_after_approval_keeps_credit_witness :
  exists db1 db2,
    CashTransfers.handleApprove true (Some 99%positive) 5000
      (Row 7%positive (Desk.deposit (Some 12%positive) ct_pending)) (Desk.store ct_pending)
    = (Succeeded, db1) /\
    CashTransfers.handleReject
      (Some (Row 7%positive (Desk.deposit (Some 12%positive) ct_pending)))
      [110; 111]%N (Some 98%positive) 6000 db1
    = (Succeeded, db2) /\
    CashTransfer.status <$> cash_transfers db2 !! 7%positive = Some ct_rejected /\
    cash db2 12 = cash (Desk.store ct_pending) 12 + 25000.
Proof.
  apply (deposit_rejected_after_approval_keeps_credit 99 98 5000 6000
           (Row 7%positive (Desk.deposit (Some 12%positive) ct_pending)) [110; 111]%N
           (Desk.store ct_pending) 12 (Scenario.employee_money 10000)
           (Desk.deposit (Some 12%positive) ct_pending));
    reflexivity.
Defined.

(** * Sorted lists *)

Section SortingFacts.

Context {A : Type} (key : A -> Z).

Lemma insert_by_Permutation (x : A) (l : list A) :
  Permutation (insert_by key x l) (x :: l).
Proof.
  induction l as [|y l IH]; simpl; [reflexivity|].
  destruct (key x <=? key y); [reflexivity|].
  rewrite IH. apply perm_swap.
Qed.

Lemma sort_by_Permutation (l : list A) : Permutation (sort_by key l) l.
Proof.
  induction l as [|x l IH]; simpl; [reflexivity|].
  rewrite insert_by_Permutation, IH. reflexivity.
Qed.

Lemma sort_by_In (x : A) (l : list A) : In x (sort_by key l) <-> In x l.
Proof.
  split; apply Permutation_in; [|symmetry]; apply sort_by_Permutation.
Qed.

Lemma insert_by_sorted (x : A) (l : list A) :
  StronglySorted (fun a b => key a <= key b) l ->
  StronglySorted (fun a b => key a <= key b) (insert_by key x l).
Proof.
  induction 1 as [|y l Hl IH Hy]; simpl.
  - constructor; constructor.
  - destruct (Z.leb_spec (key x) (key y)) as [Hle|Hgt].
    + constructor; [constructor; assumption|].
      constructor; [exact Hle|].
      eapply Forall_impl; [exact Hy|]. simpl. intros z Hz. lia.
    + constructor; [exact IH|].
      eapply Permutation_Forall; [symmetry; apply insert_by_Permutation|].
      constructor; [lia | exact Hy].
Qed.

Lemma sort_by_sorted (l : list A) :
  StronglySorted (fun a b => key a <= key b) (sort_by key l).
Proof.
  induction l as [|x l IH]; simpl; [constructor|].
  apply insert_by_sorted. exact IH.
Qed.

End SortingFacts.

Lemma StronglySorted_weaken {A} (R R' : A -> A -> Prop) (l : list A) :
  (forall a b, R a b -> R' a b) -> StronglySorted R l -> StronglySorted R' l.
Proof.
  intros HR. induction 1 as [|x l Hl IH Hx]; constructor; [exact IH|].
  eapply Forall_impl; [exact Hx|]. apply HR.
Qed.

Lemma NoDup_rows {A} (t : gmap positive A) : NoDup (rows t).
Proof.
  unfold rows. apply NoDup_fmap_2; [|apply NoDup_map_to_list].
  intros [k a] [k' a'] [= -> ->]. reflexivity.
Qed.

Lemma NoDup_filter' {A} (f : A -> bool) (l : list A) : NoDup l -> NoDup (List.filter f l).
Proof.
  induction 1 as [|x l Hx Hl IH]; simpl; [constructor|].
  destruct (f x); [|exact IH].
  constructor; [|exact IH]. rewrite list_elem_of_In, filter_In, <- list_elem_of_In. tauto.
Qed.

(** * The list of orders: [ExerciseOrders.tsx] *)

Lemma loadExerciseOrders_In (user company_id : uuid) (selectedStatus : status_filter)
    (db : Db) :
  exists orders,
    loadExerciseOrders (Some user) (Some company_id) selectedStatus db = Some orders /\
    forall r, In r orders <->
      exercise_orders db !! id r = Some (cols r) /\
      ExerciseOrder.company_id (cols r) = company_id /\
      matches selectedStatus (ExerciseOrder.status (cols r)) = true.
Proof.
  eexists. split; [reflexivity|].
  intros r. rewrite sort_by_In, filter_In, In_rows, andb_true_iff, Pos.eqb_eq. tauto.
Qed.

(** X14.  [ExerciseOrders.tsx], [loadExerciseOrders]: for a signed-in
    administrator of a company the list holds exactly the stored orders
    of that company whose status passes the filter, each once, the newest
    first. *)
Theorem loadExerciseOrders_lists_company_orders (user company_id : uuid)
    (selectedStatus : status_filter) (db : Db) :
  exists orders,
    loadExerciseOrders (Some user) (Some company_id) selectedStatus db = Some orders /\
    (forall r, In r orders <->
       exercise_orders db !! id r = Some (cols r) /\
       ExerciseOrder.company_id (cols r) = company_id /\
       matches selectedStatus (ExerciseOrder.status (cols r)) = true) /\
    NoDup orders /\
    StronglySorted
      (fun a b => ExerciseOrder.created_at (cols b) <= ExerciseOrder.created_at (cols a))
      orders.
Proof.
  destruct (loadExerciseOrders_In user company_id selectedStatus db) as (orders & E & Hin).
  exists orders. split; [exact E|]. split; [exact Hin|].
  injection E as <-. split.
  - rewrite sort_by_Permutation. apply NoDup_filter', NoDup_rows.
  - eapply StronglySorted_weaken; [|apply sort_by_sorted].
    simpl. intros a b. lia.
Qed.

Lemma count_status_0 (s : order_status) (orders : list (row ExerciseOrder.t)) :
  Forall (fun o => ExerciseOrder.status (cols o) <> s) orders ->
  count_status s orders = 0%nat.
Proof.
  unfold count_status. induction 1 as [|o l Ho Hl IH]; simpl; [reflexivity|].
  rewrite bool_decide_eq_false_2 by exact Ho. exact IH.
Qed.

Lemma count_status_all (s : order_status) (orders : list (row ExerciseOrder.t)) :
  Forall (fun o => ExerciseOrder.status (cols o) = s) orders ->
  count_status s orders = length orders.
Proof.
  unfold count_status. induction 1 as [|o l Ho Hl IH]; simpl; [reflexivity|].
  rewrite bool_decide_eq_true_2 by exact Ho. simpl. rewrite IH. reflexivity.
Qed.

Lemma loadExerciseOrders_only (user companyUser : option uuid) (s : order_status)
    (db : Db) (orders : list (row ExerciseOrder.t)) :
  loadExerciseOrders user companyUser (only s) db = Some orders ->
  Forall (fun o => ExerciseOrder.status (cols o) = s) orders.
Proof.
  unfold loadExerciseOrders. destruct user as [u|]; [|discriminate].
  destruct companyUser as [c|]; [|discriminate]. intros [= <-].
  apply List.Forall_forall. intros r [_ Hf]%sort_by_In%filter_In.
  apply andb_prop in Hf as [_ Hs]. apply bool_decide_eq_true in Hs. exact Hs.
Qed.

(** X15.  [ExerciseOrders.tsx], [statusCounts] after [loadExerciseOrders]
    under a status filter: the counters are taken from the filtered list,
    so the counter of the selected status and the counter "all" both show
    the length of the list and every other counter shows 0. *)
Theorem statusCounts_under_filter (user companyUser : option uuid) (s : order_status)
    (db : Db) (orders : list (row ExerciseOrder.t)) :
  loadExerciseOrders user companyUser (only s) db = Some orders ->
  statusCounts orders
  = mkStatusCounts (length orders)
      (if decide (s = pending) then length orders else 0%nat)
      (if decide (s = approved) then length orders else 0%nat)
      (if decide (s = rejected) then length orders else 0%nat)
      (if decide (s = processed) then length orders else 0%nat).
Proof.
  intros Hall%loadExerciseOrders_only. unfold statusCounts.
  assert (forall s', count_status s' orders
                     = if decide (s = s') then length orders else 0%nat) as Hcount.
  { intros s'. case_decide as Hs.
    - subst s'. apply count_status_all. exact Hall.
    - apply count_status_0. eapply Forall_impl; [exact Hall|].
      simpl. intros o Ho. congruence. }
  rewrite !Hcount. reflexivity.
Qed.

Lemma statusCounts_under_filter_witness :
  statusCounts [Row 6%positive Desk.later_order]
  = mkStatusCounts (length [Row 6%positive Desk.later_order])
      (if decide (approved = pending) then length [Row 6%positive Desk.later_order] else 0%nat)
      (if decide (approved = approved) then length [Row 6%positive Desk.later_order] else 0%nat)
      (if decide (approved = rejected) then length [Row 6%positive Desk.later_order] else 0%nat)
      (if decide (approved = processed) then length [Row 6%positive Desk.later_order] else 0%nat).
Proof.
  apply (statusCounts_under_filter (Some 99%positive) (Some 1%positive) approved
           Desk.two_orders).
  vm_compute. reflexivity.
Defined.

(** X16.  [ExerciseOrders.tsx], [statusCounts]: the counter "all" is the
    sum of the four status counters and of the cancelled orders, which
    have no counter of their own. *)
Theorem statusCounts_all_is_the_sum (orders : list (row ExerciseOrder.t)) :
  count_all (statusCounts orders)
  = (count_pending (statusCounts orders) + count_approved (statusCounts orders)
     + count_rejected (statusCounts orders) + count_processed (statusCounts orders)
     + count_status cancelled orders)%nat.
Proof.
  unfold statusCounts, count_status. simpl.
  induction orders as [|o l IH]; simpl; [reflexivity|].
  rewrite IH.
  destruct (ExerciseOrder.status (cols o)); simpl; lia.
Qed.

Lemma handleProcess_orders (user : option uuid) (now : timestamp)
    (order : row ExerciseOrder.t) (db db' : Db) :
  handleProcess true user now order db = (Succeeded, db') ->
  exists u, user = Some u /\
    exercise_orders db'
    = alter (processed_patch u now) (id order) (exercise_orders db).
Proof.
  rewrite handleProcess_unfold.
  destruct user as [u|]; [|discriminate].
  destruct (grants db !! _) as [g|]; [|discriminate].
  cbv zeta.
  destruct (cash_settlement _ _ _ _ _ _) as [[[]|e0] db1] eqn:Hcash; [|discriminate].
  destruct (share_transfer _ _ _ _ _) as [[[]|e0] db2] eqn:Hshare; [|discriminate].
  intros [= <-]. exists u. split; [reflexivity|].
  apply cash_settlement_Ok in Hcash as (e & c & pe & pc & _ & _ & _ & _ & _ & _ & ->).
  apply share_transfer_frame in Hshare as [_ Horders _ _ _].
  simpl. rewrite Horders. reflexivity.
Qed.

(** X17.  [ExerciseOrders.tsx], [handleProcess] then [loadExerciseOrders]:
    once an order of the store has been processed, the reloaded list of
    processed orders shows it, with the administrator and the time of
    processing, and the reloaded list of approved orders does not. *)
Theorem processed_order_changes_list (user : option uuid) (viewer : uuid)
    (now : timestamp) (order : row ExerciseOrder.t) (o : ExerciseOrder.t) (db db' : Db) :
  handleProcess true user now order db = (Succeeded, db') ->
  exercise_orders db !! id order = Some o ->
  exists admin processed_orders approved_orders,
    user = Some admin /\
    loadExerciseOrders (Some viewer) (Some (ExerciseOrder.company_id o)) (only processed) db'
    = Some processed_orders /\
    loadExerciseOrders (Some viewer) (Some (ExerciseOrder.company_id o)) (only approved) db'
    = Some approved_orders /\
    In (Row (id order) (processed_patch admin now o)) processed_orders /\
    ExerciseOrder.processed_by (processed_patch admin now o) = Some admin /\
    ExerciseOrder.processed_at (processed_patch admin now o) = Some now /\
    forall r, In r approved_orders -> id r = id order -> False.
Proof.
  intros (admin & -> & Horders)%handleProcess_orders Ho.
  destruct (loadExerciseOrders_In viewer (ExerciseOrder.company_id o)
              (only processed) db') as (l1 & E1 & H1).
  destruct (loadExerciseOrders_In viewer (ExerciseOrder.company_id o)
              (only approved) db') as (l2 & E2 & H2).
  exists admin, l1, l2. repeat split; try assumption.
  - apply H1. rewrite Horders. simpl. rewrite lookup_alter_eq, Ho. simpl.
    repeat split.
  - intros r Hin Hid. apply H2 in Hin as (Hr & _ & Hs).
    rewrite Horders, Hid, lookup_alter_eq, Ho in Hr. injection Hr as Hr.
    rewrite <- Hr in Hs. discriminate.
Qed.

Lemma processed_order_changes_list_witness :
  exists admin processed_orders approved_orders,
    Some 99%positive = Some admin /\
    loadExerciseOrders (Some 98%positive)
      (Some (ExerciseOrder.company_id (Scenario.order approved))) (only processed)
      (snd (handleProcess true (Some 99%positive) 5000
              (Row 5%positive (Scenario.order approved))
              (Scenario.store 200000 approved vs_pending_exercise)))
    = Some processed_orders /\
    loadExerciseOrders (Some 98%positive)
      (Some (ExerciseOrder.company_id (Scenario.order approved))) (only approved)
      (snd (handleProcess true (Some 99%positive) 5000
              (Row 5%positive (Scenario.order approved))
              (Scenario.store 200000 approved vs_pending_exercise)))
    = Some approved_orders /\
    In (Row (id (Row 5%positive (Scenario.order approved)))
          (processed_patch admin 5000 (Scenario.order approved)))
       processed_orders /\
    ExerciseOrder.processed_by (processed_patch admin 5000 (Scenario.order approved))
    = Some admin /\
    ExerciseOrder.processed_at (processed_patch admin 5000 (Scenario.order approved))
    = Some 5000 /\
    forall r, In r approved_orders ->
      id r = id (Row 5%positive (Scenario.order approved)) -> False.
Proof.
  apply (processed_order_changes_list (Some 99%positive) 98 5000
           (Row 5%positive (Scenario.order approved)) (Scenario.order approved)
           (Scenario.store 200000 approved vs_pending_exercise)).
  - vm_compute. reflexivity.
  - reflexivity.
Defined.

(** * The list of vesting events: [EmployeeVestingEvents.tsx] *)

(** X18.  [EmployeeVestingEvents.tsx], [loadVestingEvents]: what is shown
    is, of the events that were fetched for the company, exactly those of
    the one employee record of the signed-in user that pass the status
    filter and the event-type filter, in the order of their vesting dates,
    the earliest first. *)
Theorem loadVestingEvents_lists_own_events (user : uuid)
    (allEvents : list EmployeeVestingEvents.listed)
    (selectedStatus : option vesting_event_status) (selectedEventType : option string)
    (db : Db) (events : list EmployeeVestingEvents.listed) :
  EmployeeVestingEvents.loadVestingEvents (Some user) allEvents selectedStatus
    selectedEventType db = Some events ->
  exists employee,
    maybeSingle_employee user db = Some employee /\
    (forall e, In e events <->
       In e allEvents /\
       EmployeeVestingEvents.employee_id e = id employee /\
       (forall s, selectedStatus = Some s ->
          VestingEventWithDetails.status (cols (EmployeeVestingEvents.event e)) = s) /\
       (forall t, selectedEventType = Some t -> EmployeeVestingEvents.event_type e = t)) /\
    StronglySorted
      (fun a b => EmployeeVestingEvents.vesting_date a <= EmployeeVestingEvents.vesting_date b)
      events.
Proof.
  unfold EmployeeVestingEvents.loadVestingEvents.
  destruct (maybeSingle_employee user db) as [employee|]; [|discriminate].
  intros [= <-]. exists employee. split; [reflexivity|]. split; [|apply sort_by_sorted].
  intros e. rewrite sort_by_In.
  destruct selectedEventType as [t|], selectedStatus as [s|];
    rewrite ?filter_In, ?Pos.eqb_eq, ?bool_decide_eq_true, ?String.eqb_eq;
    split.
  - intros (((Hin & He) & Hs) & Ht). repeat split; try assumption; congruence.
  - intros (Hin & He & Hs & Ht). repeat split; auto.
  - intros ((Hin & He) & Ht). repeat split; try assumption; congruence.
  - intros (Hin & He & Hs & Ht). repeat split; auto.
  - intros ((Hin & He) & Hs). repeat split; try assumption; congruence.
  - intros (Hin & He & Hs & Ht). repeat split; auto.
  - intros (Hin & He). repeat split; try assumption; congruence.
  - intros (Hin & He & Hs & Ht). repeat split; auto.
Qed.

Lemma loadVestingEvents_lists_own_events_witness :
  exists employee,
    maybeSingle_employee 20 (Scenario.store 200000 pending vs_pending_exercise)
    = Some employee /\
    (forall e,
       In e [Desk.listed_event 8 2 100 vs_vested;
             Desk.listed_event 4 2 300 vs_pending_exercise] <->
       In e Desk.allEvents /\
       EmployeeVestingEvents.employee_id e = id employee /\
       (forall s, @None vesting_event_status = Some s ->
          VestingEventWithDetails.status (cols (EmployeeVestingEvents.event e)) = s) /\
       (forall t, Some "time_based"%string = Some t ->
          EmployeeVestingEvents.event_type e = t)) /\
    StronglySorted
      (fun a b => EmployeeVestingEvents.vesting_date a <= EmployeeVestingEvents.vesting_date b)
      [Desk.listed_event 8 2 100 vs_vested;
       Desk.listed_event 4 2 300 vs_pending_exercise].
Proof.
  apply (loadVestingEvents_lists_own_events 20 Desk.allEvents None
           (Some "time_based"%string)
           (Scenario.store 200000 pending vs_pending_exercise)).
  vm_compute. reflexivity.
Defined.

(** * More on [handleProcess] *)

Lemma handleProcess_Succeeded (user : option uuid) (now : timestamp)
    (order : row ExerciseOrder.t) (db db' : Db) :
  handleProcess true user now order db = (Succeeded, db') ->
  exists u g e c pe pc db2,
    user = Some u /\
    grants db !! ExerciseOrder.grant_id (cols order) = Some g /\
    portfolios db !! e = Some pe /\
    portfolios db !! c = Some pc /\
    0 < ExerciseOrder.total_exercise_cost (cols order)
      <= to_number (Portfolio.cash_balance pe) /\
    share_transfer (companyId_of (Row (ExerciseOrder.grant_id (cols order)) g) order)
      (ExerciseOrder.employee_id (cols order)) now order
      (after_cash u (companyId_of (Row (ExerciseOrder.grant_id (cols order)) g) order)
         (ExerciseOrder.employee_id (cols order)) now order e c pe pc db)
    = (Ok tt, db2) /\
    db' = closed u now order db2.
Proof.
  rewrite handleProcess_unfold.
  destruct user as [u|]; [|discriminate].
  destruct (grants db !! _) as [g|] eqn:Hg; [|discriminate].
  cbv zeta.
  destruct (cash_settlement _ _ _ _ _ _) as [[[]|e0] db1] eqn:Hcash; [|discriminate].
  destruct (share_transfer _ _ _ _ _) as [[[]|e0] db2] eqn:Hshare; [|discriminate].
  intros [= <-].
  apply cash_settlement_Ok in Hcash as (e & c & pe & pc & _ & _ & Hpe & Hpc & _ & Hcost & ->).
  exists u, g, e, c, pe, pc, db2. repeat split; try assumption; apply Hcost.
Qed.

(** X19.  [ExerciseOrders.tsx], [handleProcess]: an order is only ever
    processed when its total cost is positive and within the employee's
    cash.  An order of cost 0, such as one on an event with no exercise
    price, cannot be settled: the settlement record is refused by [CHECK
    (amount > 0)]. *)
Theorem processing_needs_positive_cost (confirm : bool) (user : option uuid)
    (now : timestamp) (order : row ExerciseOrder.t) (db db' : Db) :
  handleProcess confirm user now order db = (Succeeded, db') ->
  0 < ExerciseOrder.total_exercise_cost (cols order) /\
  exists e pe,
    portfolios db !! e = Some pe /\
    Portfolio.portfolio_type pe = employee_cash /\
    ExerciseOrder.total_exercise_cost (cols order) <= to_number (Portfolio.cash_balance pe).
Proof.
  destruct confirm; [|discriminate].
  rewrite handleProcess_unfold.
  destruct user as [u|]; [|discriminate].
  destruct (grants db !! _) as [g|] eqn:Hg; [|discriminate].
  cbv zeta.
  destruct (cash_settlement _ _ _ _ _ _) as [[[]|e0] db1] eqn:Hcash; [|discriminate].
  intros _.
  apply cash_settlement_Ok in Hcash as (e & c & pe & pc & Hfe & _ & Hpe & _ & _ & Hcost & _).
  split; [apply Hcost|]. exists e, pe. split; [exact Hpe|]. split; [|apply Hcost].
  destruct (find_employee_cash_Some _ _ _ _ Hfe) as (pe0 & Hpe0 & _ & Hte).
  simpl in Hpe0. congruence.
Qed.

Lemma processing_needs_positive_cost_witness :
  0 < ExerciseOrder.total_exercise_cost (cols (Row 5%positive (Scenario.order approved))) /\
  exists e pe,
    portfolios (Scenario.store 200000 approved vs_pending_exercise) !! e = Some pe /\
    Portfolio.portfolio_type pe = employee_cash /\
    ExerciseOrder.total_exercise_cost (cols (Row 5%positive (Scenario.order approved)))
    <= to_number (Portfolio.cash_balance pe).
Proof.
  apply (processing_needs_positive_cost true (Some 99%positive) 5000
           (Row 5%positive (Scenario.order approved))
           (Scenario.store 200000 approved vs_pending_exercise)
           (snd (handleProcess true (Some 99%positive) 5000
                   (Row 5%positive (Scenario.order approved))
                   (Scenario.store 200000 approved vs_pending_exercise)))).
  vm_compute. reflexivity.
Defined.

Lemma cash_settlement_refused (user companyId employeeId : uuid) (now : timestamp)
    (order : row ExerciseOrder.t) (db db' : Db) (e : Error) :
  cash_settlement user companyId employeeId now order db = (Throw e, db') ->
  db' = db \/ exists pg, e = StoreError pg /\ pg <> no_rows_returned.
Proof.
  unfold cash_settlement. intros H.
  apply bind_inv in H as [(e0 & Hm & _) | (l & d & Hsel & H)];
    [rewrite check_select_portfolios in Hm; discriminate|].
  rewrite check_select_portfolios in Hsel. injection Hsel as <- <-.
  apply bind_inv in H as [(e0 & (-> & _)%require_inv & _)
                         | (ecp & d1 & (-> & _)%require_inv & H)]; [auto|].
  apply bind_inv in H as [(e0 & (-> & _)%require_inv & _)
                         | (ccp & d2 & (-> & _)%require_inv & H)]; [auto|].
  apply bind_inv in H as [(e0 & (-> & _)%guard_inv & _)
                         | (? & d3 & (-> & _)%guard_inv & H)]; [auto|].
  right.
  apply bind_inv in H as [(e0 & [([= ->] & _) | ([=] & _)]%check_update_portfolios_inv & [= ->])
                         | (? & d4 & _ & H)]; [eexists; split; [reflexivity | discriminate]|].
  apply bind_inv in H as [(e0 & [([= ->] & _) | ([=] & _)]%check_update_portfolios_inv & [= ->])
                         | (? & d5 & _ & H)]; [eexists; split; [reflexivity | discriminate]|].
  unfold check, insert_cash_transfers in H.
  repeat (match type of H with context [if ?b then _ else _] => destruct b end;
          try (injection H as <- _; eexists; split; [reflexivity | discriminate])).
  discriminate.
Qed.

(** X20.  [ExerciseOrders.tsx], [handleProcess]: when the handler fails
    because nobody is signed in, the grant is not found, a cash portfolio
    is missing or the employee's cash is short of the cost, it has
    written nothing. *)
Theorem process_refusals_write_nothing (user : option uuid) (now : timestamp)
    (order : row ExerciseOrder.t) (db db' : Db) (e : Error) :
  handleProcess true user now order db = (Failed e, db') ->
  In e [User_not_found; StoreError no_rows_returned;
        Employee_cash_portfolio_not_found; Company_cash_portfolio_not_found;
        Insufficient_cash_balance_in_employee_portfolio] ->
  db' = db.
Proof.
  rewrite handleProcess_unfold.
  destruct user as [u|]; [|intros [= _ <-]; reflexivity].
  destruct (grants db !! _) as [g|] eqn:Hg; [|intros [= _ <-]; reflexivity].
  cbv zeta.
  destruct (cash_settlement _ _ _ _ _ _) as [[[]|e0] db1] eqn:Hcash.
  - destruct (share_transfer _ _ _ _ _) as [[[]|e0] db2] eqn:Hshare; [discriminate|].
    intros [= <- <-] Hin.
    apply share_transfer_Throw in Hshare as ([-> | ->] & _);
      simpl in Hin; intuition discriminate.
  - intros [= <- <-] Hin.
    apply cash_settlement_refused in Hcash as [-> | (pg & -> & Hpg)]; [reflexivity|].
    simpl in Hin. intuition (try discriminate). congruence.
Qed.

Lemma process_refusals_write_nothing_witness :
  snd (handleProcess true (Some 99%positive) 5000 (Row 5%positive (Scenario.order approved))
         (Scenario.store 50000 approved vs_pending_exercise))
  = Scenario.store 50000 approved vs_pending_exercise.
Proof.
  apply (process_refusals_write_nothing (Some 99%positive) 5000
           (Row 5%positive (Scenario.order approved))
           (Scenario.store 50000 approved vs_pending_exercise) _
           Insufficient_cash_balance_in_employee_portfolio).
  - vm_compute. reflexivity.
  - simpl. auto 6.
Defined.

Lemma share_transfers_updated (k : uuid) (u : PortfolioPatch) (db : Db) :
  share_transfers (updated k u db) = share_transfers db.
Proof. unfold updated. destruct (portfolios db !! k); reflexivity. Qed.

Lemma share_transfer_record (companyId employeeId : uuid) (now : timestamp)
    (order : row ExerciseOrder.t) (db db2 : Db) (u : unit) :
  share_transfer companyId employeeId now order db = (Ok u, db2) ->
  exists f t,
    share_transfers db2
    = <[gen_random_uuid (share_transfers db) :=
          ShareTransfer.mk (Serial companyId now) companyId
            (ExerciseOrder.grant_id (cols order)) employeeId f t
            (ExerciseOrder.shares_to_exercise (cols order)) st_exercise
            (now / 86400000) now false]> (share_transfers db).
Proof.
  rewrite share_transfer_run.
  destruct (find_company_reserved _ _) as [fromPortfolio|]; [|discriminate].
  destruct (toPortfolio_of_frame companyId employeeId db) as (_ & Hs & _ & _).
  destruct (toPortfolio_of companyId employeeId db) as [toPortfolio db1]. simpl in Hs.
  destruct (_ <? _); [discriminate|]. intros [= Hdb2]. subst db2.
  exists (id fromPortfolio), (id toPortfolio).
  unfold after_shares. cbv zeta. unfold with_share_transfers. cbn [share_transfers].
  rewrite !share_transfers_updated, Hs. reflexivity.
Qed.

(** X21.  [ExerciseOrders.tsx], [handleProcess]: a processed order leaves
    one new cash transfer, the processed settlement of the order's cost
    made out by the administrator, and one new share transfer, the
    exercise of the order's quantity under its grant; no other transfer is
    added, changed or removed. *)
Theorem process_records_both_transfers (user : option uuid) (now : timestamp)
    (order : row ExerciseOrder.t) (db db' : Db) :
  handleProcess true user now order db = (Succeeded, db') ->
  exists kc c ks s,
    cash_transfers db !! kc = None /\
    cash_transfers db' = <[kc := c]> (cash_transfers db) /\
    CashTransfer.transfer_type c = exercise_settlement /\
    CashTransfer.exercise_order_id c = Some (id order) /\
    CashTransfer.amount c = ExerciseOrder.total_exercise_cost (cols order) /\
    CashTransfer.status c = ct_processed /\
    CashTransfer.created_by c = user /\
    share_transfers db !! ks = None /\
    share_transfers db' = <[ks := s]> (share_transfers db) /\
    ShareTransfer.transfer_type s = st_exercise /\
    ShareTransfer.grant_id s = ExerciseOrder.grant_id (cols order) /\
    ShareTransfer.employee_id s = ExerciseOrder.employee_id (cols order) /\
    ShareTransfer.shares_transferred s = ExerciseOrder.shares_to_exercise (cols order).
Proof.
  intros (u & g & e & c & pe & pc & db2 & -> & _ & _ & _ & _ & Hshare & ->)%handleProcess_Succeeded.
  pose proof (share_transfer_frame _ _ _ _ _ _ _ Hshare) as [_ _ Hct _ _].
  apply share_transfer_record in Hshare as (f & t & Hst).
  eexists _, _, _, _.
  split; [apply (gen_random_uuid_fresh (cash_transfers db))|].
  split; [simpl; rewrite Hct; reflexivity|].
  do 5 (split; [reflexivity|]).
  split; [apply (gen_random_uuid_fresh (share_transfers db))|].
  split; [simpl; rewrite Hst; reflexivity|].
  repeat split.
Qed.

Lemma process_records_both_transfers_witness :
  exists kc c ks s,
    cash_transfers (Scenario.store 200000 approved vs_pending_exercise) !! kc = None /\
    cash_transfers
      (snd (handleProcess true (Some 99%positive) 5000
              (Row 5%positive (Scenario.order approved))
              (Scenario.store 200000 approved vs_pending_exercise)))
    = <[kc := c]> (cash_transfers (Scenario.store 200000 approved vs_pending_exercise)) /\
    CashTransfer.transfer_type c = exercise_settlement /\
    CashTransfer.exercise_order_id c = Some (id (Row 5%positive (Scenario.order approved))) /\
    CashTransfer.amount c
    = ExerciseOrder.total_exercise_cost (cols (Row 5%positive (Scenario.order approved))) /\
    CashTransfer.status c = ct_processed /\
    CashTransfer.created_by c = Some 99%positive /\
    share_transfers (Scenario.store 200000 approved vs_pending_exercise) !! ks = None /\
    share_transfers
      (snd (handleProcess true (Some 99%positive) 5000
              (Row 5%positive (Scenario.order approved))
              (Scenario.store 200000 approved vs_pending_exercise)))
    = <[ks := s]> (share_transfers (Scenario.store 200000 approved vs_pending_exercise)) /\
    ShareTransfer.transfer_type s = st_exercise /\
    ShareTransfer.grant_id s
    = ExerciseOrder.grant_id (cols (Row 5%positive (Scenario.order approved))) /\
    ShareTransfer.employee_id s
    = ExerciseOrder.employee_id (cols (Row 5%positive (Scenario.order approved))) /\
    ShareTransfer.shares_transferred s
    = ExerciseOrder.shares_to_exercise (cols (Row 5%positive (Scenario.order approved))).
Proof.
  apply (process_records_both_transfers (Some 99%positive) 5000
           (Row 5%positive (Scenario.order approved))
           (Scenario.store 200000 approved vs_pending_exercise)).
  vm_compute. reflexivity.
Defined.

Lemma handleProcess_events (user : option uuid) (now : timestamp)
    (order : row ExerciseOrder.t) (db db' : Db) :
  handleProcess true user now order db = (Succeeded, db') ->
  vesting_events db'
  = alter (fun _ => VestingEvent.mk vs_exercised (Some now))
      (ExerciseOrder.vesting_event_id (cols order)) (vesting_events db).
Proof.
  intros (u & g & e & c & pe & pc & db2 & -> & _ & _ & _ & _ & Hshare & ->)%handleProcess_Succeeded.
  apply share_transfer_frame in Hshare as [_ _ _ Hev _].
  simpl. rewrite Hev. reflexivity.
Qed.

(** X22.  [ExerciseOrders.tsx], [handleProcess] then [handleReject]: a
    rejection sent for an order that has been processed is accepted.  The
    order becomes rejected and its vesting event pending_exercise again,
    while the cash and the shares stay where the settlement put them and
    its two transfers stay on record. *)
Theorem reject_after_process_keeps_settlement (user : option uuid) (now now' : timestamp)
    (order : row ExerciseOrder.t) (o : ExerciseOrder.t) (rejectionReason : js_string)
    (db db1 : Db) :
  handleProcess true user now order db = (Succeeded, db1) ->
  exercise_orders db !! id order = Some o ->
  forallb is_white_space rejectionReason = false ->
  exists db2,
    handleReject (Some order) rejectionReason now' db1 = (Succeeded, db2) /\
    ExerciseOrder.status <$> exercise_orders db2 !! id order = Some rejected /\
    VestingEvent.status <$> vesting_events db2 !! ExerciseOrder.vesting_event_id (cols order)
    = (fun _ => vs_pending_exercise)
      <$> vesting_events db !! ExerciseOrder.vesting_event_id (cols order) /\
    portfolios db2 = portfolios db1 /\
    cash_transfers db2 = cash_transfers db1 /\
    share_transfers db2 = share_transfers db1.
Proof.
  intros Hrun Ho Hreason.
  destruct (handleProcess_orders _ _ _ _ _ Hrun) as (u & -> & Horders).
  pose proof (handleProcess_events _ _ _ _ _ Hrun) as Hevents.
  eexists. split.
  { apply handleReject_run. rewrite truthy_trim, Hreason. reflexivity. }
  simpl. rewrite Horders, Hevents, !lookup_alter_eq, Ho.
  repeat split.
  destruct (vesting_events db !! _); reflexivity.
Qed.

Lemma reject_after_process_keeps_settlement_witness :
  exists db2,
    handleReject (Some (Row 5%positive (Scenario.order approved))) [110; 111]%N 6000
      (snd (handleProcess true (Some 99%positive) 5000
              (Row 5%positive (Scenario.order approved))
              (Scenario.store 200000 approved vs_pending_exercise)))
    = (Succeeded, db2) /\
    ExerciseOrder.status
      <$> exercise_orders db2 !! id (Row 5%positive (Scenario.order approved))
    = Some rejected /\
    VestingEvent.status
      <$> vesting_events db2
          !! ExerciseOrder.vesting_event_id (cols (Row 5%positive (Scenario.order approved)))
    = (fun _ => vs_pending_exercise)
      <$> vesting_events (Scenario.store 200000 approved vs_pending_exercise)
          !! ExerciseOrder.vesting_event_id (cols (Row 5%positive (Scenario.order approved))) /\
    portfolios db2
    = portfolios (snd (handleProcess true (Some 99%positive) 5000
                         (Row 5%positive (Scenario.order approved))
                         (Scenario.store 200000 approved vs_pending_exercise))) /\
    cash_transfers db2
    = cash_transfers (snd (handleProcess true (Some 99%positive) 5000
                             (Row 5%positive (Scenario.order approved))
                             (Scenario.store 200000 approved vs_pending_exercise))) /\
    share_transfers db2
    = share_transfers (snd (handleProcess true (Some 99%positive) 5000
                              (Row 5%positive (Scenario.order approved))
                              (Scenario.store 200000 approved vs_pending_exercise))).
Proof.
  apply (reject_after_process_keeps_settlement (Some 99%positive) 5000 6000
           (Row 5%positive (Scenario.order approved)) (Scenario.order approved)
           [110; 111]%N (Scenario.store 200000 approved vs_pending_exercise)).
  - vm_compute. reflexivity.
  - reflexivity.
  - reflexivity.
Defined.

Lemma quiet_requests (r : request) (db : Db) :
  writes_portfolios r = false -> portfolios (snd (serve r db)) = portfolios db.
Proof.
  destruct r as [ev cp user now | confirm now order | otr reason now
                | confirm user now order | confirm user now transfer
                | ttr reason user now]; simpl; try discriminate; intros _.
  - unfold handleConfirmExercise.
    destruct ev as [ev|], user as [user|]; try reflexivity.
    destruct (maybeSingle_employee user db); [|reflexivity].
    destruct (insufficient_funds _ _); [reflexivity|].
    unfold try_catch, bind, check, unchecked, insert_exercise_orders.
    repeat (match goal with |- context [if ?b then _ else _] => destruct b end;
            try reflexivity).
  - destruct confirm; reflexivity.
  - unfold handleReject. destruct otr; [|reflexivity].
    destruct (negb _); reflexivity.
  - unfold CashTransfers.handleReject. destruct ttr; [|reflexivity].
    destruct (negb _); [reflexivity|].
    destruct user; reflexivity.
Qed.

(** X23.  All six handlers: only [handleProcess] and the approval of a
    deposit write to [portfolios].  To ask for an exercise, to approve or
    reject an order and to reject a deposit leave every portfolio and the
    share transfers as they were; in particular an accepted exercise order
    reserves none of the cash it was checked against. *)
Theorem only_settlements_write_portfolios (r : request) (db : Db) :
  writes_portfolios r = false ->
  portfolios (snd (serve r db)) = portfolios db /\
  share_transfers (snd (serve r db)) = share_transfers db.
Proof.
  intros Hr. split; [apply quiet_requests, Hr|].
  destruct r as [ev cp user now | confirm now order | otr reason now
                | confirm user now order | confirm user now transfer
                | ttr reason user now]; simpl; try discriminate.
  - unfold handleConfirmExercise.
    destruct ev as [ev|], user as [user|]; try reflexivity.
    destruct (maybeSingle_employee user db); [|reflexivity].
    destruct (insufficient_funds _ _); [reflexivity|].
    unfold try_catch, bind, check, unchecked, insert_exercise_orders.
    repeat (match goal with |- context [if ?b then _ else _] => destruct b end;
            try reflexivity).
  - destruct confirm; reflexivity.
  - unfold handleReject. destruct otr; [|reflexivity].
    destruct (negb _); reflexivity.
  - unfold CashTransfers.handleReject. destruct ttr; [|reflexivity].
    destruct (negb _); [reflexivity|].
    destruct user; reflexivity.
Qed.

Lemma only_settlements_write_portfolios_witness :
  portfolios
    (snd (serve (ConfirmExercise (Some (Scenario.event 10000 (Some 125000)))
                   (Some (loadCashPortfolio 2 (Scenario.store_without_order 200000)))
                   (Some 20%positive) 3000)
            (Scenario.store_without_order 200000)))
  = portfolios (Scenario.store_without_order 200000) /\
  share_transfers
    (snd (serve (ConfirmExercise (Some (Scenario.event 10000 (Some 125000)))
                   (Some (loadCashPortfolio 2 (Scenario.store_without_order 200000)))
                   (Some 20%positive) 3000)
            (Scenario.store_without_order 200000)))
  = share_transfers (Scenario.store_without_order 200000).
Proof.
  apply only_settlements_write_portfolios. reflexivity.
Defined.

(** * What every sequence of requests keeps *)

Section Keeps.

Variable I : Db -> Prop.

Lemma keeps_ret {A} (a : A) : keeps I (ret a) (fun a' => a' = a).
Proof. intros db HI. split; [exact HI|]. intros a' [= <-]. reflexivity. Qed.

Lemma keeps_throw {A} (e : Error) (Q : A -> Prop) : keeps I (throw e) Q.
Proof. intros db HI. split; [exact HI | discriminate]. Qed.

Lemma keeps_bind {A B} (m : M A) (k : A -> M B) (Q : A -> Prop) (R : B -> Prop) :
  keeps I m Q -> (forall a, Q a -> keeps I (k a) R) -> keeps I (bind m k) R.
Proof.
  intros Hm Hk db HI. unfold bind.
  destruct (Hm db HI) as [HI' HQ].
  destruct (m db) as [[a|e] db1]; simpl in *.
  - apply Hk; [apply HQ; reflexivity | exact HI'].
  - split; [exact HI' | discriminate].
Qed.

Lemma keeps_weaken {A} (m : M A) (Q Q' : A -> Prop) :
  keeps I m Q -> (forall a, Q a -> Q' a) -> keeps I m Q'.
Proof. intros Hm HQ db HI. destruct (Hm db HI). split; auto. Qed.

Lemma keeps_require {A} (x : option A) (e : Error) :
  keeps I (require x e) (fun a => x = Some a).
Proof.
  intros db HI. destruct x as [a|]; simpl; (split; [exact HI|]).
  - intros a' [= <-]. reflexivity.
  - discriminate.
Qed.

Lemma keeps_guard (b : bool) (e : Error) :
  keeps I (guard b e) (fun _ => b = false).
Proof.
  intros db HI. destruct b; simpl; (split; [exact HI|]); [discriminate | reflexivity].
Qed.

Lemma keeps_check {A} (c : Call A) (Q : A -> Prop) :
  (forall db, I db -> I (snd (c db)) /\ forall a, fst (c db) = inr a -> Q a) ->
  keeps I (check c) Q.
Proof.
  intros Hc db HI. unfold check. destruct (Hc db HI) as [HI' HQ].
  destruct (c db) as [[e|a] db1]; simpl in *; (split; [exact HI'|]).
  - discriminate.
  - intros a' [= <-]. apply HQ. reflexivity.
Qed.

Lemma keeps_check_True {A} (c : Call A) :
  (forall db, I db -> I (snd (c db))) -> keeps I (check c) (fun _ => True).
Proof. intros Hc. apply keeps_check. intros db HI. split; [apply Hc, HI | trivial]. Qed.

Lemma keeps_unchecked {A} (c : Call A) :
  (forall db, I db -> I (snd (c db))) -> keeps I (unchecked c) (fun _ => True).
Proof. intros Hc db HI. split; [apply Hc, HI | trivial]. Qed.

Lemma keeps_data_only {A} (c : Call A) :
  (forall db, I db -> I (snd (c db))) -> keeps I (data_only c) (fun _ => True).
Proof.
  intros Hc db HI. unfold data_only. specialize (Hc db HI).
  destruct (c db) as [[e|a] db1]; simpl in *; auto.
Qed.

Lemma keeps_try_catch (body : M unit) (Q : unit -> Prop) (db : Db) :
  keeps I body Q -> I db -> I (snd (try_catch body db)).
Proof.
  intros Hb HI. unfold try_catch. destruct (Hb db HI) as [HI' _].
  destruct (body db) as [[a|e] db1]; exact HI'.
Qed.

End Keeps.

(** ** The declared constraints *)

Lemma orders_constrained_alter (f : ExerciseOrder.t -> ExerciseOrder.t) (k : uuid)
    (t : gmap positive ExerciseOrder.t) :
  (forall o, ExerciseOrder.order_number (f o) = ExerciseOrder.order_number o /\
             ExerciseOrder.vesting_event_id (f o) = ExerciseOrder.vesting_event_id o /\
             ExerciseOrder.shares_to_exercise (f o) = ExerciseOrder.shares_to_exercise o) ->
  orders_constrained t -> orders_constrained (alter f k t).
Proof.
  intros Hf (Hn & Hv & Hs).
  assert (forall k1 o1, alter f k t !! k1 = Some o1 ->
            exists o, t !! k1 = Some o /\
              ExerciseOrder.order_number o1 = ExerciseOrder.order_number o /\
              ExerciseOrder.vesting_event_id o1 = ExerciseOrder.vesting_event_id o /\
              ExerciseOrder.shares_to_exercise o1 = ExerciseOrder.shares_to_exercise o)
    as Hback.
  { intros k1 o1 [(-> & o & Ho & ->) | (_ & Ho)]%lookup_alter_Some.
    - exists o. split; [exact Ho | apply Hf].
    - exists o1. auto. }
  split; [|split].
  - intros k1 k2 o1 o2 (o1' & H1 & E1 & _)%Hback (o2' & H2 & E2 & _)%Hback E.
    apply (Hn k1 k2 o1' o2' H1 H2). congruence.
  - intros k1 k2 o1 o2 (o1' & H1 & _ & E1 & _)%Hback (o2' & H2 & _ & E2 & _)%Hback E.
    apply (Hv k1 k2 o1' o2' H1 H2). congruence.
  - intros k1 o1 (o1' & H1 & _ & _ & E1)%Hback. rewrite E1. apply (Hs k1 o1' H1).
Qed.

Lemma orders_constrained_insert (k : uuid) (o : ExerciseOrder.t)
    (t : gmap positive ExerciseOrder.t) :
  (forall k' o', t !! k' = Some o' ->
     ExerciseOrder.order_number o' <> ExerciseOrder.order_number o /\
     ExerciseOrder.vesting_event_id o' <> ExerciseOrder.vesting_event_id o) ->
  0 < ExerciseOrder.shares_to_exercise o ->
  orders_constrained t -> orders_constrained (<[k := o]> t).
Proof.
  intros Hfree Hpos (Hn & Hv & Hs). split; [|split].
  - intros k1 k2 o1 o2 [[<- <-] | [N1 H1]]%lookup_insert_Some
      [[<- <-] | [N2 H2]]%lookup_insert_Some E; try reflexivity.
    + destruct (Hfree _ _ H2) as [Hne _]. congruence.
    + destruct (Hfree _ _ H1) as [Hne _]. congruence.
    + apply (Hn k1 k2 o1 o2 H1 H2 E).
  - intros k1 k2 o1 o2 [[<- <-] | [N1 H1]]%lookup_insert_Some
      [[<- <-] | [N2 H2]]%lookup_insert_Some E; try reflexivity.
    + destruct (Hfree _ _ H2) as [_ Hne]. congruence.
    + destruct (Hfree _ _ H1) as [_ Hne]. congruence.
    + apply (Hv k1 k2 o1 o2 H1 H2 E).
  - intros k1 o1 [[<- <-] | [N1 H1]]%lookup_insert_Some; [exact Hpos | apply (Hs k1 o1 H1)].
Qed.

Lemma transfers_constrained_alter (s : cash_transfer_status) (k : uuid)
    (t : gmap positive CashTransfer.t) :
  transfers_constrained t -> transfers_constrained (alter (CashTransfers.set_status s) k t).
Proof.
  intros (Hn & Hs).
  assert (forall k1 c1, alter (CashTransfers.set_status s) k t !! k1 = Some c1 ->
            exists c, t !! k1 = Some c /\
              CashTransfer.transfer_number c1 = CashTransfer.transfer_number c /\
              CashTransfer.amount c1 = CashTransfer.amount c)
    as Hback.
  { intros k1 c1 [(-> & c & Hc & ->) | (_ & Hc)]%lookup_alter_Some.
    - exists c. auto.
    - exists c1. auto. }
  split.
  - intros k1 k2 c1 c2 (c1' & H1 & E1 & _)%Hback (c2' & H2 & E2 & _)%Hback E.
    apply (Hn k1 k2 c1' c2' H1 H2). congruence.
  - intros k1 c1 (c1' & H1 & _ & E1)%Hback. rewrite E1. apply (Hs k1 c1' H1).
Qed.

Lemma transfers_constrained_insert (k : uuid) (c : CashTransfer.t)
    (t : gmap positive CashTransfer.t) :
  (forall k' c', t !! k' = Some c' ->
     CashTransfer.transfer_number c' <> CashTransfer.transfer_number c) ->
  0 < CashTransfer.amount c ->
  transfers_constrained t -> transfers_constrained (<[k := c]> t).
Proof.
  intros Hfree Hpos (Hn & Hs). split.
  - intros k1 k2 c1 c2 [[<- <-] | [N1 H1]]%lookup_insert_Some
      [[<- <-] | [N2 H2]]%lookup_insert_Some E; try reflexivity.
    + specialize (Hfree _ _ H2). congruence.
    + specialize (Hfree _ _ H1). congruence.
    + apply (Hn k1 k2 c1 c2 H1 H2 E).
  - intros k1 c1 [[<- <-] | [N1 H1]]%lookup_insert_Some; [exact Hpos | apply (Hs k1 c1 H1)].
Qed.

Lemma constraints_hold_same (db db' : Db) :
  exercise_orders db' = exercise_orders db ->
  cash_transfers db' = cash_transfers db ->
  constraints_hold db -> constraints_hold db'.
Proof. unfold constraints_hold. intros -> ->. trivial. Qed.

Lemma update_portfolios_tables (k : uuid) (u : PortfolioPatch) (db : Db) :
  exercise_orders (snd (update_portfolios k u db)) = exercise_orders db /\
  cash_transfers (snd (update_portfolios k u db)) = cash_transfers db.
Proof.
  unfold update_portfolios. destruct (portfolios db !! k); [|auto].
  destruct (fits_15_digits _); auto.
Qed.

Lemma update_portfolios_constraints (k : uuid) (u : PortfolioPatch) (db : Db) :
  constraints_hold db -> constraints_hold (snd (update_portfolios k u db)).
Proof.
  destruct (update_portfolios_tables k u db). apply constraints_hold_same; assumption.
Qed.

Lemma update_exercise_orders_constraints (k : uuid)
    (f : ExerciseOrder.t -> ExerciseOrder.t) (db : Db) :
  (forall o, ExerciseOrder.order_number (f o) = ExerciseOrder.order_number o /\
             ExerciseOrder.vesting_event_id (f o) = ExerciseOrder.vesting_event_id o /\
             ExerciseOrder.shares_to_exercise (f o) = ExerciseOrder.shares_to_exercise o) ->
  constraints_hold db -> constraints_hold (snd (update_exercise_orders k f db)).
Proof.
  intros Hf [Ho Ht]. split; [|exact Ht]. simpl. apply orders_constrained_alter; assumption.
Qed.

Lemma insert_cash_transfers_constraints (c : CashTransfer.t) (db : Db) :
  constraints_hold db -> constraints_hold (snd (insert_cash_transfers c db)).
Proof.
  intros [Ho Ht]. unfold insert_cash_transfers.
  destruct (negb (fits_15_digits _)); [split; assumption|].
  destruct (0 <? _) eqn:Hpos; [|split; assumption]. simpl.
  destruct (exists_row _ _) eqn:Hex; [split; assumption|].
  split; [exact Ho|]. simpl. apply transfers_constrained_insert.
  - intros k' c' Hk' E.
    assert (exists_row
              (fun c' => bool_decide (CashTransfer.transfer_number c'
                                      = CashTransfer.transfer_number c))
              (cash_transfers db) = true) as Hyes.
    { apply exists_row_true. exists k', c'. split; [exact Hk'|].
      apply bool_decide_eq_true. exact E. }
    congruence.
  - apply Z.ltb_lt. exact Hpos.
  - exact Ht.
Qed.

Lemma insert_exercise_orders_constraints (now : timestamp) (n : NewExerciseOrder.t)
    (db : Db) :
  constraints_hold db -> constraints_hold (snd (insert_exercise_orders now n db)).
Proof.
  intros [Ho Ht]. unfold insert_exercise_orders. cbv zeta.
  destruct (negb (_ && _ && _ && _)); [split; assumption|].
  destruct (0 <? _) eqn:Hpos; [|split; assumption]. simpl negb. cbv iota.
  destruct (exists_row _ _ || exists_row _ _) eqn:Hex; [split; assumption|].
  apply orb_false_elim in Hex as [Hn Hv].
  split; [|exact Ht]. simpl. apply orders_constrained_insert.
  - intros k' o' Hk'. split; intros E.
    + assert (exists_row
                (fun o' => bool_decide (ExerciseOrder.order_number o'
                                        = ExerciseOrder.order_number (stored_order now n)))
                (exercise_orders db) = true) as Hyes.
      { apply exists_row_true. exists k', o'. split; [exact Hk'|].
        apply bool_decide_eq_true. exact E. }
      congruence.
    + assert (exists_row
                (fun o' => Pos.eqb (ExerciseOrder.vesting_event_id o')
                                   (ExerciseOrder.vesting_event_id (stored_order now n)))
                (exercise_orders db) = true) as Hyes.
      { apply exists_row_true. exists k', o'. split; [exact Hk'|].
        apply Pos.eqb_eq. exact E. }
      congruence.
  - apply Z.ltb_lt. exact Hpos.
  - exact Ho.
Qed.

Lemma create_employee_vested_constraints (companyId employeeId : uuid) :
  keeps constraints_hold (create_employee_vested companyId employeeId) (fun _ => True).
Proof.
  unfold create_employee_vested.
  eapply keeps_bind.
  { apply keeps_data_only. intros db H. unfold single_employee.
    destruct (employees db !! _); exact H. }
  intros employee _. apply keeps_check_True. intros db H. exact H.
Qed.

Lemma cash_settlement_constraints (user companyId employeeId : uuid) (now : timestamp)
    (order : row ExerciseOrder.t) :
  keeps constraints_hold (cash_settlement user companyId employeeId now order)
    (fun _ => True).
Proof.
  unfold cash_settlement.
  eapply keeps_bind; [apply keeps_check_True; intros db H; exact H|]. intros l _.
  eapply keeps_bind; [apply keeps_require|]. intros ecp _.
  eapply keeps_bind; [apply keeps_require|]. intros ccp _.
  eapply keeps_bind; [apply keeps_guard|]. intros _ _.
  eapply keeps_bind; [apply keeps_check_True, update_portfolios_constraints|]. intros _ _.
  eapply keeps_bind; [apply keeps_check_True, update_portfolios_constraints|]. intros _ _.
  apply keeps_check_True, insert_cash_transfers_constraints.
Qed.

Lemma share_transfer_constraints (companyId employeeId : uuid) (now : timestamp)
    (order : row ExerciseOrder.t) :
  keeps constraints_hold (share_transfer companyId employeeId now order) (fun _ => True).
Proof.
  unfold share_transfer.
  eapply keeps_bind; [apply keeps_check_True; intros db H; exact H|]. intros l _.
  eapply keeps_bind; [apply keeps_require|]. intros fromPortfolio _.
  apply (keeps_bind _ _ _ (fun _ => True)).
  { destruct (find_employee_vested _ _ _) as [p|].
    - eapply keeps_weaken; [apply keeps_ret | trivial].
    - apply create_employee_vested_constraints. }
  intros toPortfolio _.
  eapply keeps_bind; [apply keeps_guard|]. intros _ _.
  eapply keeps_bind; [apply keeps_check_True, update_portfolios_constraints|]. intros _ _.
  eapply keeps_bind; [apply keeps_check_True, update_portfolios_constraints|]. intros _ _.
  apply keeps_check_True. intros db H. exact H.
Qed.

Lemma close_order_constraints (user : uuid) (now : timestamp) (order : row ExerciseOrder.t) :
  keeps constraints_hold (close_order user now order) (fun _ => True).
Proof.
  unfold close_order.
  eapply keeps_bind.
  { apply keeps_check_True. intros db. apply update_exercise_orders_constraints.
    intros o. repeat split. }
  intros _ _. apply keeps_check_True. intros db H. exact H.
Qed.

Lemma serve_constraints (r : request) (db : Db) :
  constraints_hold db -> constraints_hold (snd (serve r db)).
Proof.
  intros H.
  destruct r as [ev cp user now | confirm now order | otr reason now
                | confirm user now order | confirm user now transfer
                | ttr reason user now]; simpl.
  - unfold handleConfirmExercise.
    destruct ev as [ev|], user as [user|]; try exact H.
    destruct (maybeSingle_employee user db); [|exact H].
    destruct (insufficient_funds _ _); [exact H|].
    eapply keeps_try_catch; [|exact H].
    eapply keeps_bind; [apply keeps_check_True, insert_exercise_orders_constraints|].
    intros _ _. apply keeps_unchecked. intros db' H'. exact H'.
  - unfold handleApprove. destruct (negb confirm); [exact H|].
    eapply keeps_try_catch; [|exact H].
    apply keeps_check_True. intros db'. apply update_exercise_orders_constraints.
    intros o. repeat split.
  - unfold handleReject. destruct otr as [otr|]; [|exact H].
    destruct (negb _); [exact H|].
    eapply keeps_try_catch; [|exact H].
    eapply keeps_bind.
    { apply keeps_check_True. intros db'. apply update_exercise_orders_constraints.
      intros o. repeat split. }
    intros _ _. apply keeps_unchecked. intros db' H'. exact H'.
  - unfold handleProcess. destruct (negb confirm); [exact H|].
    eapply keeps_try_catch; [|exact H].
    eapply keeps_bind; [apply keeps_require|]. intros u _.
    eapply keeps_bind.
    { apply keeps_check_True. intros db' H'. unfold single_grant.
      destruct (grants db' !! _); exact H'. }
    intros grant _.
    eapply keeps_bind; [apply cash_settlement_constraints|]. intros _ _.
    eapply keeps_bind; [apply share_transfer_constraints|]. intros _ _.
    apply close_order_constraints.
  - unfold CashTransfers.handleApprove. destruct (negb confirm); [exact H|].
    eapply keeps_try_catch; [|exact H].
    eapply keeps_bind; [apply keeps_require|]. intros u _.
    eapply keeps_bind.
    { apply keeps_check_True. intros db' H'. unfold CashTransfers.single_portfolio.
      destruct (CashTransfer.to_portfolio_id _) as [k|]; [|exact H'].
      destruct (portfolios db' !! k); exact H'. }
    intros portfolio _.
    eapply keeps_bind; [apply keeps_check_True, update_portfolios_constraints|]. intros _ _.
    apply keeps_check_True. intros db' [Ho Ht]. split; [exact Ho|].
    simpl. apply transfers_constrained_alter. exact Ht.
  - unfold CashTransfers.handleReject. destruct ttr as [ttr|]; [|exact H].
    destruct (negb _); [exact H|].
    eapply keeps_try_catch; [|exact H].
    eapply keeps_bind; [apply keeps_require|]. intros u _.
    apply keeps_check_True. intros db' [Ho Ht]. split; [exact Ho|].
    simpl. apply transfers_constrained_alter. exact Ht.
Qed.

(** X24.  The six handlers over the store of the migrations: whatever
    requests are served, in whatever order and with whatever outcome, the
    stored orders keep distinct order numbers, distinct vesting events and
    positive quantities, and the stored cash transfers keep distinct
    transfer numbers and positive amounts. *)
Theorem replay_keeps_constraints (requests : list request) (db : Db) :
  constraints_hold db -> constraints_hold (replay requests db).
Proof.
  revert db. unfold replay.
  induction requests as [|r requests IH]; intros db H; simpl; [exact H|].
  apply IH, serve_constraints, H.
Qed.

Lemma replay_keeps_constraints_witness :
  constraints_hold
    (replay
       [ConfirmExercise (Some (Scenario.event 10000 (Some 125000)))
          (Some (loadCashPortfolio 2 (Scenario.store_without_order 200000)))
          (Some 20%positive) 3000;
        ConfirmExercise (Some (Scenario.event 10000 (Some 125000)))
          (Some (loadCashPortfolio 2 (Scenario.store_without_order 200000)))
          (Some 20%positive) 3500;
        ProcessOrder true (Some 99%positive) 5000 (Row 5%positive (Scenario.order approved));
        ProcessOrder true (Some 99%positive) 5000 (Row 5%positive (Scenario.order approved))]
       (Scenario.store_without_order 200000)).
Proof.
  apply replay_keeps_constraints.
  split; repeat split; intros *; simpl; rewrite ?lookup_empty; discriminate.
Defined.

(** ** No negative cash *)

Lemma cash_never_negative_same (db db' : Db) :
  portfolios db' = portfolios db -> cash_never_negative db -> cash_never_negative db'.
Proof. unfold cash_never_negative. intros ->. trivial. Qed.

Lemma update_portfolios_cash (k : uuid) (u : PortfolioPatch) (db : Db) :
  (forall x, new_cash_balance u = Some x -> 0 <= x) ->
  cash_never_negative db -> cash_never_negative (snd (update_portfolios k u db)).
Proof.
  intros Hx H. unfold update_portfolios.
  destruct (portfolios db !! k) as [p|] eqn:Hk; [|exact H].
  destruct (fits_15_digits _); [|exact H].
  intros k' p'. simpl. intros [[<- <-] | [_ Hk']]%lookup_insert_Some.
  - simpl. destruct (new_cash_balance u) as [x|]; simpl.
    + apply Hx. reflexivity.
    + apply (H k p Hk).
  - apply (H k' p' Hk').
Qed.

Lemma insert_portfolios_cash (p : Portfolio.t) (db : Db) :
  0 <= to_number (Portfolio.cash_balance p) ->
  cash_never_negative db -> cash_never_negative (snd (insert_portfolios p db)).
Proof.
  intros Hp H k' p'. simpl.
  intros [[<- <-] | [_ Hk']]%lookup_insert_Some; [exact Hp | apply (H k' p' Hk')].
Qed.

Lemma insert_cash_transfers_portfolios (c : CashTransfer.t) (db : Db) :
  portfolios (snd (insert_cash_transfers c db)) = portfolios db.
Proof.
  unfold insert_cash_transfers.
  repeat (match goal with |- context [if ?b then _ else _] => destruct b end;
          try reflexivity).
Qed.

Lemma select_cash (companyId : uuid) :
  keeps cash_never_negative (check (select_portfolios cash_columns companyId))
    (fun l => forall r, In r l -> 0 <= to_number (Portfolio.cash_balance (cols r))).
Proof.
  apply keeps_check. intros db H. split; [exact H|].
  intros l [= <-] r (p & Hk & -> & _)%select_rows_In. apply (H _ _ Hk).
Qed.

Lemma cash_settlement_cash (user companyId employeeId : uuid) (now : timestamp)
    (order : row ExerciseOrder.t) :
  0 <= ExerciseOrder.total_exercise_cost (cols order) ->
  keeps cash_never_negative (cash_settlement user companyId employeeId now order)
    (fun _ => True).
Proof.
  intros Hcost. unfold cash_settlement.
  eapply keeps_bind; [apply select_cash|]. intros l Hl.
  eapply keeps_bind; [apply keeps_require|]. intros ecp [Hecp _]%find_some.
  eapply keeps_bind; [apply keeps_require|]. intros ccp [Hccp _]%find_some.
  eapply keeps_bind; [apply keeps_guard|]. intros _ Hg%Z.ltb_ge.
  apply Hl in Hecp, Hccp.
  eapply keeps_bind.
  { apply keeps_check_True. intros db. apply update_portfolios_cash.
    intros x [= <-]. lia. }
  intros _ _.
  eapply keeps_bind.
  { apply keeps_check_True. intros db. apply update_portfolios_cash.
    intros x [= <-]. unfold or0, to_number in *. lia. }
  intros _ _.
  apply keeps_check_True. intros db.
  apply cash_never_negative_same, insert_cash_transfers_portfolios.
Qed.

Lemma create_employee_vested_cash (companyId employeeId : uuid) :
  keeps cash_never_negative (create_employee_vested companyId employeeId) (fun _ => True).
Proof.
  unfold create_employee_vested.
  eapply keeps_bind.
  { apply keeps_data_only. intros db H. unfold single_employee.
    destruct (employees db !! _); exact H. }
  intros employee _. apply keeps_check_True. intros db.
  apply insert_portfolios_cash. simpl. lia.
Qed.

Lemma share_transfer_cash (companyId employeeId : uuid) (now : timestamp)
    (order : row ExerciseOrder.t) :
  keeps cash_never_negative (share_transfer companyId employeeId now order)
    (fun _ => True).
Proof.
  unfold share_transfer.
  eapply keeps_bind; [apply keeps_check_True; intros db H; exact H|]. intros l _.
  eapply keeps_bind; [apply keeps_require|]. intros fromPortfolio _.
  apply (keeps_bind _ _ _ (fun _ => True)).
  { destruct (find_employee_vested _ _ _) as [p|].
    - eapply keeps_weaken; [apply keeps_ret | trivial].
    - apply create_employee_vested_cash. }
  intros toPortfolio _.
  eapply keeps_bind; [apply keeps_guard|]. intros _ _.
  eapply keeps_bind.
  { apply keeps_check_True. intros db. apply update_portfolios_cash. intros x [=]. }
  intros _ _.
  eapply keeps_bind.
  { apply keeps_check_True. intros db. apply update_portfolios_cash. intros x [=]. }
  intros _ _.
  apply keeps_check_True. intros db H. exact H.
Qed.

Lemma serve_cash (r : request) (db : Db) :
  carries_no_negative_amount r ->
  cash_never_negative db -> cash_never_negative (snd (serve r db)).
Proof.
  intros Hr H.
  destruct (writes_portfolios r) eqn:Hw.
  - destruct r as [ev cp user now | confirm now order | otr reason now
                  | confirm user now order | confirm user now transfer
                  | ttr reason user now]; try discriminate; simpl in *.
    + unfold handleProcess. destruct (negb confirm); [exact H|].
      eapply keeps_try_catch; [|exact H].
      eapply keeps_bind; [apply keeps_require|]. intros u _.
      eapply keeps_bind.
      { apply keeps_check_True. intros db' H'. unfold single_grant.
        destruct (grants db' !! _); exact H'. }
      intros grant _.
      eapply keeps_bind; [apply cash_settlement_cash, Hr|]. intros _ _.
      eapply keeps_bind; [apply share_transfer_cash|]. intros _ _.
      unfold close_order.
      eapply keeps_bind; [apply keeps_check_True; intros db' H'; exact H'|]. intros _ _.
      apply keeps_check_True. intros db' H'. exact H'.
    + unfold CashTransfers.handleApprove. destruct (negb confirm); [exact H|].
      eapply keeps_try_catch; [|exact H].
      eapply keeps_bind; [apply keeps_require|]. intros u _.
      eapply (keeps_bind _ _ _
                (fun p => 0 <= to_number (Portfolio.cash_balance (cols p)))).
      { apply keeps_check. intros db' H'. unfold CashTransfers.single_portfolio.
        destruct (CashTransfer.to_portfolio_id _) as [k|]; [|split; [exact H' | discriminate]].
        destruct (portfolios db' !! k) as [p|] eqn:Hk; simpl; (split; [exact H'|]);
          [|discriminate].
        intros a [= <-]. simpl. apply (H' k p Hk). }
      intros portfolio Hp.
      eapply keeps_bind.
      { apply keeps_check_True. intros db'. apply update_portfolios_cash.
        intros x [= <-]. unfold or0, to_number in *. lia. }
      intros _ _. apply keeps_check_True. intros db' H'. exact H'.
  - apply (cash_never_negative_same db); [|exact H].
    apply quiet_requests, Hw.
Qed.

(** X25.  The six handlers: when no portfolio has a negative cash
    balance and the rows that the requests carry have no negative cost or
    amount, no sequence of requests, whatever the outcome of each, makes a
    cash balance negative.  [handleProcess] debits only what the balance
    it has just read covers. *)
Theorem replay_keeps_cash_non_negative (requests : list request) (db : Db) :
  Forall carries_no_negative_amount requests ->
  cash_never_negative db ->
  cash_never_negative (replay requests db).
Proof.
  intros Hall. revert db. unfold replay.
  induction Hall as [|r requests Hr _ IH]; intros db H; simpl; [exact H|].
  apply IH, serve_cash; assumption.
Qed.

Lemma replay_keeps_cash_non_negative_witness :
  cash_never_negative
    (replay
       [ProcessOrder true (Some 99%positive) 5000 (Row 5%positive (Scenario.order approved));
        ProcessOrder true (Some 99%positive) 6000 (Row 5%positive (Scenario.order approved));
        ApproveTransfer true (Some 99%positive) 7000
          (Row 7%positive (Desk.deposit (Some 12%positive) ct_pending))]
       (Scenario.store 200000 approved vs_pending_exercise)).
Proof.
  apply replay_keeps_cash_non_negative.
  - repeat constructor; simpl; lia.
  - intros k p Hk. simpl in Hk.
    repeat (apply lookup_insert_Some in Hk as [[_ <-] | [_ Hk]]; [simpl; lia|]).
    rewrite lookup_empty in Hk. discriminate.
Defined.

(** * The balance that a request is checked against *)

(** X26.  [EmployeeVestingEvents.tsx], [loadCashPortfolio], and
    [ExerciseOrders.tsx], [handleProcess] step 1: when the page has loaded
    a cash portfolio for the employee, and that portfolio is of the
    company of the order, it is the portfolio that processing looks up and
    debits, and the balance shown is its stored balance. *)
Theorem loadCashPortfolio_is_the_portfolio_debited (employeeId companyId k : uuid)
    (balance : option Z) (p : Portfolio.t) (db : Db) :
  loadCashPortfolio employeeId db = mkCashPortfolioState (Some k) balance ->
  portfolios db !! k = Some p ->
  Portfolio.company_id p = companyId ->
  find_employee_cash employeeId (select_rows cash_columns companyId db)
  = Some (Row k (cash_columns p)) /\
  Portfolio.cash_balance p = balance.
Proof.
  unfold loadCashPortfolio. intros Hload Hk Hc.
  destruct (List.filter _ (rows (portfolios db))) as [|r [|r' l]] eqn:Hf; try discriminate.
  injection Hload as <- <-.
  assert (In r (List.filter
                  (fun p => is_id (Portfolio.employee_id (cols p)) employeeId
                            && bool_decide (Portfolio.portfolio_type (cols p) = employee_cash))
                  (rows (portfolios db)))) as Hr by (rewrite Hf; left; reflexivity).
  apply filter_In in Hr as [Hr Hp]. apply In_rows in Hr. rewrite Hk in Hr.
  injection Hr as Hr. split; [|rewrite Hr; reflexivity].
  apply andb_prop in Hp as [He Ht].
  unfold find_employee_cash.
  destruct (find _ (select_rows cash_columns companyId db)) as [r1|] eqn:Hfind.
  - apply find_some in Hfind as [Hin Hp1].
    unfold select_rows in Hin. apply in_map_iff in Hin as (r0 & <- & Hin).
    apply filter_In in Hin as [Hin _]. simpl in Hp1.
    apply andb_prop in Hp1 as [Ht1 He1].
    assert (In r0 [r]) as Hr0.
    { rewrite <- Hf. apply filter_In. split; [exact Hin|]. rewrite He1. simpl.
      apply bool_decide_eq_true in Ht1. apply bool_decide_eq_true. exact Ht1. }
    destruct Hr0 as [<-|[]]. simpl. rewrite Hr. reflexivity.
  - exfalso.
    assert (In (Row (id r) (cash_columns p)) (select_rows cash_columns companyId db)) as Hin.
    { unfold select_rows. apply in_map_iff. exists r. split; [rewrite Hr; reflexivity|].
      apply filter_In. split.
      - apply In_rows. rewrite Hk, Hr. reflexivity.
      - rewrite <- Hr, Hc. apply Pos.eqb_refl. }
    apply (find_none _ _ Hfind) in Hin. simpl in Hin.
    rewrite <- Hr in He, Ht. rewrite He in Hin.
    apply bool_decide_eq_true in Ht. rewrite bool_decide_eq_true_2 in Hin by exact Ht.
    discriminate.
Qed.

Lemma loadCashPortfolio_is_the_portfolio_debited_witness :
  find_employee_cash 2
    (select_rows cash_columns 1 (Scenario.store 200000 approved vs_pending_exercise))
  = Some (Row 12%positive (cash_columns (Scenario.employee_money 200000))) /\
  Portfolio.cash_balance (Scenario.employee_money 200000) = Some 200000.
Proof.
  apply (loadCashPortfolio_is_the_portfolio_debited 2 1 12 (Some 200000)
           (Scenario.employee_money 200000)
           (Scenario.store 200000 approved vs_pending_exercise)).
  - vm_compute. reflexivity.
  - reflexivity.
  - reflexivity.
Defined.

(** X27.  [EmployeeVestingEvents.tsx], [handleConfirmExercise]: the funds
    check reads the [cashPortfolio] that the page holds and never the
    store.  Whatever the portfolios of the store are when the request is
    confirmed, its outcome and the order it stores, with the balance it
    records, are the same. *)
Theorem exercise_request_trusts_loaded_balance
    (exerciseEvent : option (row VestingEventWithDetails.t))
    (cashPortfolio : option CashPortfolioState) (user : option uuid) (now : timestamp)
    (t : gmap positive Portfolio.t) (db : Db) :
  fst (handleConfirmExercise exerciseEvent cashPortfolio user now
         (with_portfolios (fun _ => t) db))
  = fst (handleConfirmExercise exerciseEvent cashPortfolio user now db) /\
  exercise_orders (snd (handleConfirmExercise exerciseEvent cashPortfolio user now
                          (with_portfolios (fun _ => t) db)))
  = exercise_orders (snd (handleConfirmExercise exerciseEvent cashPortfolio user now db)).
Proof.
  unfold handleConfirmExercise.
  destruct exerciseEvent as [ev|], user as [user|]; try (split; reflexivity).
  change (maybeSingle_employee user (with_portfolios (fun _ => t) db))
    with (maybeSingle_employee user db).
  destruct (maybeSingle_employee user db); [|split; reflexivity].
  destruct (insufficient_funds _ _); [split; reflexivity|].
  unfold try_catch, bind, check, unchecked, insert_exercise_orders.
  change (exercise_orders (with_portfolios (fun _ => t) db)) with (exercise_orders db).
  repeat (match goal with |- context [if ?b then _ else _] => destruct b end;
          try (split; reflexivity)).
Qed.
